(** * SD/MMC block-device driver over SPI (User/diskio.c)

    A shallow embedding of the FatFs glue driver: the four driver globals, the
    byte-exchange transport, the command layer, the data-block transfer, the
    initialization state machine, the block I/O and ioctl entry points and the
    1 kHz tick handler, followed by the properties of the design document that
    are checked against them.  Further properties, read off the code, come
    last: the gates and exits of the operations, the values of the globals,
    the command packet, the bursts, the read path and the control codes.

    The driver is sequential code over four globals; the card and the 1 kHz
    interrupt are its environment.  A run is a function from the state to an
    outcome; the state carries the globals and a trace of what the driver did
    on the bus.  The interrupt is observed at the byte exchanges, the only
    places where the driver waits. *)

From Stdlib Require Import ZArith List Bool Lia.
Import ListNotations.
Open Scope Z_scope.

(** ** Integer types of the C source *)

(** [BYTE] is an 8-bit, [WORD] a 16-bit, [DWORD] and [UINT] a 32-bit unsigned
    integer; a value is a [Z] and every conversion writes the wrap-around. *)
Definition u8 (x : Z) : Z := x mod 256.
Definition u16 (x : Z) : Z := x mod 65536.
Definition u32 (x : Z) : Z := x mod 4294967296.

(** ** Constants of the headers *)

(** Modelled from the spec: the header diskio.h is not among the sources; the
    three flags of the drive status bitmask (not-initialized, no-disk,
    write-protected) carry the values of the FatFs interface. *)
Definition STA_NOINIT : Z := 1.
Definition STA_NODISK : Z := 2.
Definition STA_PROTECT : Z := 4.

(** Modelled from the spec: the result type of the header diskio.h, with the
    five results the block operations report. *)
Inductive DRESULT : Type :=
  | RES_OK | RES_ERROR | RES_WRPRT | RES_NOTRDY | RES_PARERR.

(** Modelled from the spec: the command indices are defined in a header that is
    not among the sources; each is the index the design document gives, and an
    application command carries the flag bit 0x80 that [send_cmd] tests. *)
Definition CMD0 : Z := 0.
Definition CMD1 : Z := 1.
Definition ACMD41 : Z := 0x80 + 41.
Definition CMD8 : Z := 8.
Definition CMD9 : Z := 9.
Definition CMD10 : Z := 10.
Definition CMD12 : Z := 12.
Definition ACMD13 : Z := 0x80 + 13.
Definition CMD16 : Z := 16.
Definition CMD17 : Z := 17.
Definition CMD18 : Z := 18.
Definition ACMD23 : Z := 0x80 + 23.
Definition CMD24 : Z := 24.
Definition CMD25 : Z := 25.
Definition CMD55 : Z := 55.
Definition CMD58 : Z := 58.

(** Modelled from the spec: the card type flags of the missing header: the
    three families and the orthogonal block-addressing flag. *)
Definition CT_MMC : Z := 1.
Definition CT_SD1 : Z := 2.
Definition CT_SD2 : Z := 4.
Definition CT_SDC : Z := Z.lor CT_SD1 CT_SD2.
Definition CT_BLOCK : Z := 8.

(** Modelled from the spec: the control codes of [disk_ioctl], from the missing
    header diskio.h. *)
Definition CTRL_SYNC : Z := 0.
Definition GET_SECTOR_COUNT : Z := 1.
Definition GET_BLOCK_SIZE : Z := 3.
Definition MMC_GET_TYPE : Z := 10.
Definition MMC_GET_CSD : Z := 11.
Definition MMC_GET_CID : Z := 12.
Definition MMC_GET_OCR : Z := 13.
Definition MMC_GET_SDSTAT : Z := 14.

(** The two sense lines are constants of diskio.c itself. *)
Definition MMC_WP : Z := 0.
Definition MMC_CD : Z := 1.

(** ** Driver state and bus trace *)

(** The four capability hooks are empty macros in this variant; the embedding
    records each call site in the trace and gives it no other effect. *)
Inductive hook : Type := PowerOn | PowerOff | FclkSlow | FclkFast.

(** What the driver does to the outside: a byte exchange (byte sent, byte
    received), a write of the chip-select line, a hook call, and the store to
    the [CardType] global. *)
Inductive event : Type :=
  | EvXchg (tx rx : Z)
  | EvCS (high : bool)
  | EvHook (h : hook)
  | EvCardType (v : Z).

(** The globals [Stat], [Timer1], [Timer2], [CardType], the level of the CS#
    line, the number of byte exchanges made so far, and the trace. *)
Record state : Type := mkState {
  Stat : Z;
  Timer1 : Z;
  Timer2 : Z;
  CardType : Z;
  cs_high : bool;
  clk : nat;
  log : list event
}.

Definition set_Stat (v : Z) (s : state) : state :=
  mkState v (Timer1 s) (Timer2 s) (CardType s) (cs_high s) (clk s) (log s).
Definition set_Timer1 (v : Z) (s : state) : state :=
  mkState (Stat s) v (Timer2 s) (CardType s) (cs_high s) (clk s) (log s).
Definition set_Timer2 (v : Z) (s : state) : state :=
  mkState (Stat s) (Timer1 s) v (CardType s) (cs_high s) (clk s) (log s).
Definition set_CardType (v : Z) (s : state) : state :=
  mkState (Stat s) (Timer1 s) (Timer2 s) v (cs_high s) (clk s) (log s).
Definition set_cs (b : bool) (s : state) : state :=
  mkState (Stat s) (Timer1 s) (Timer2 s) (CardType s) b (clk s) (log s).
Definition emit (e : event) (s : state) : state :=
  mkState (Stat s) (Timer1 s) (Timer2 s) (CardType s) (cs_high s) (clk s)
          (log s ++ [e]).
Definition tick_clk (s : state) : state :=
  mkState (Stat s) (Timer1 s) (Timer2 s) (CardType s) (cs_high s) (S (clk s))
          (log s).

(** The static initializers: [Stat = STA_NOINIT], everything else zero.  The
    level of CS# is no global of the driver and nothing sets it before the
    first deselection: this state has the line high, [reachable] below starts
    from both levels. *)
Definition init_state : state := mkState STA_NOINIT 0 0 0 true 0 [].

(** ** The monad of driver code *)

(** A run either finishes with a value and a state, or exhausts the iteration
    budget given to a loop, or reaches an operation C leaves undefined. *)
Inductive outcome (A : Type) : Type :=
  | Done (a : A) (s : state)
  | OutOfFuel
  | Undefined.
Arguments Done {A} a s.
Arguments OutOfFuel {A}.
Arguments Undefined {A}.

Definition M (A : Type) : Type := state -> outcome A.

Definition ret {A} (a : A) : M A := fun s => Done a s.
Definition bind {A B} (m : M A) (k : A -> M B) : M B :=
  fun s => match m s with
           | Done a s' => k a s'
           | OutOfFuel => OutOfFuel
           | Undefined => Undefined
           end.
Definition out_of_fuel {A} : M A := fun _ => OutOfFuel.
Definition undefined {A} : M A := fun _ => Undefined.
Definition gets {A} (f : state -> A) : M A := fun s => Done (f s) s.
Definition modify (f : state -> state) : M unit := fun s => Done tt (f s).

Notation "x <- m ;; k" := (bind m (fun x => k))
  (at level 61, m at next level, right associativity).
Notation "m ;; k" := (bind m (fun _ => k))
  (at level 61, right associativity).

(** ** Tick handler *)

(** [disk_timerproc]: both timers count down and stop at zero; the socket
    status is rebuilt from the two sense lines. *)
Definition disk_timerproc (s : state) : state :=
  let n := Timer1 s in
  let s := if n =? 0 then s else set_Timer1 (u32 (n - 1)) s in
  let n := Timer2 s in
  let s := if n =? 0 then s else set_Timer2 (u32 (n - 1)) s in
  let st := Stat s in
  let st := if MMC_WP =? 0
            then u8 (Z.land st (Z.lnot STA_PROTECT))
            else u8 (Z.lor st STA_PROTECT) in
  let st := if MMC_CD =? 0
            then u8 (Z.lor st (Z.lor STA_NODISK STA_NOINIT))
            else u8 (Z.land st (Z.lnot STA_NODISK)) in
  set_Stat st s.

Definition buffer : Type := nat -> Z.
Definition advance (buff : buffer) (k : nat) : buffer := fun i => buff (i + k)%nat.
Definition null : buffer := fun _ => 0.

Section Driver.

(** The card and the time base are the environment of the driver: [miso k] is
    what the SPI data register holds at the end of exchange number [k], and
    [irq k] is how many times the 1 kHz interrupt fires while exchange number
    [k] waits on the SPI flags.  [fuel] bounds the iterations of every loop
    whose bound is not a literal. *)
Variable miso : nat -> Z.
Variable irq : nat -> nat.
Variable fuel : nat.

(** ** Transport primitives *)

(** [xchg_spi]: the waits on the SPI status flags are where time passes; the
    ticks of the exchange run first, then the byte in the data register is
    returned, truncated to a [BYTE]. *)
Definition xchg_spi (dat : Z) : M Z := fun s =>
  let ret_ := u8 (miso (clk s)) in
  let s := Nat.iter (irq (clk s)) disk_timerproc s in
  Done ret_ (tick_clk (emit (EvXchg (u8 dat) ret_) s)).

Definition CS_HIGH : M unit := modify (fun s => emit (EvCS true) (set_cs true s)).
Definition CS_LOW : M unit := modify (fun s => emit (EvCS false) (set_cs false s)).
Definition call (h : hook) : M unit := modify (emit (EvHook h)).

(** [do { xchg_spi( *buff++ ); } while (cnt -= 1);] *)
Fixpoint xmit_spi_multi_loop (f : nat) (buff : buffer) (cnt : Z) : M unit :=
  match f with
  | O => out_of_fuel
  | S f' =>
      xchg_spi (buff 0%nat) ;;
      let cnt := u32 (cnt - 1) in
      if cnt =? 0 then ret tt else xmit_spi_multi_loop f' (advance buff 1) cnt
  end.

Definition xmit_spi_multi (buff : buffer) (cnt : Z) : M unit :=
  xmit_spi_multi_loop fuel buff cnt.

(** [do { *buff++ = xchg_spi(0xff); } while (cnt -= 1);] the bytes stored are
    returned in order. *)
Fixpoint rcvr_spi_multi_loop (f : nat) (cnt : Z) : M (list Z) :=
  match f with
  | O => out_of_fuel
  | S f' =>
      d <- xchg_spi 0xFF ;;
      let cnt := u32 (cnt - 1) in
      if cnt =? 0 then ret [d]
      else (l <- rcvr_spi_multi_loop f' cnt ;; ret (d :: l))
  end.

Definition rcvr_spi_multi (cnt : Z) : M (list Z) :=
  rcvr_spi_multi_loop fuel cnt.

(** A [for] loop with a literal bound that exchanges [n] filler bytes. *)
Fixpoint xchg_fill (n : nat) : M (list Z) :=
  match n with
  | O => ret []
  | S n' => d <- xchg_spi 0xFF ;; l <- xchg_fill n' ;; ret (d :: l)
  end.

(** ** Ready/timeout service *)

Fixpoint wait_ready_loop (f : nat) : M Z :=
  match f with
  | O => out_of_fuel
  | S f' =>
      d <- xchg_spi 0xFF ;;
      t <- gets Timer2 ;;
      if negb (d =? 0xFF) && negb (t =? 0) then wait_ready_loop f' else ret d
  end.

Definition wait_ready : M bool :=
  modify (set_Timer2 500) ;;
  d <- wait_ready_loop fuel ;;
  ret (d =? 0xFF).

Definition mmc_deselect : M unit :=
  CS_HIGH ;; xchg_spi 0xFF ;; ret tt.

Definition mmc_select : M bool :=
  CS_LOW ;;
  xchg_spi 0xFF ;;
  r <- wait_ready ;;
  if r then ret true else (mmc_deselect ;; ret false).

(** ** Data block transfer *)

Fixpoint rcvr_datablock_loop (f : nat) : M Z :=
  match f with
  | O => out_of_fuel
  | S f' =>
      token <- xchg_spi 0xFF ;;
      t <- gets Timer1 ;;
      if (token =? 0xFF) && negb (t =? 0) then rcvr_datablock_loop f'
      else ret token
  end.

(** [rcvr_datablock]: [None] is the result 0 (the buffer is left alone),
    [Some l] is the result 1 with the [btr] bytes stored in the buffer. *)
Definition rcvr_datablock (btr : Z) : M (option (list Z)) :=
  modify (set_Timer1 100) ;;
  token <- rcvr_datablock_loop fuel ;;
  if negb (token =? 0xFE) then ret None
  else
    buff <- rcvr_spi_multi btr ;;
    xchg_spi 0xFF ;;
    xchg_spi 0xFF ;;
    ret (Some buff).

Definition xmit_datablock (buff : buffer) (token : Z) : M bool :=
  r <- wait_ready ;;
  if negb r then ret false
  else
    xchg_spi token ;;
    if negb (token =? 0xFD) then
      xmit_spi_multi buff 512 ;;
      xchg_spi 0xFF ;;
      xchg_spi 0xFF ;;
      resp <- xchg_spi 0xFF ;;
      if negb (Z.land resp 0x1F =? 0x05) then ret false else ret true
    else ret true.

(** ** Command layer *)

(** [do { res = xchg_spi(0xFF); } while ((res & 0x80) && --n);] *)
Fixpoint send_cmd_resp (f : nat) (n : Z) : M Z :=
  match f with
  | O => out_of_fuel
  | S f' =>
      res <- xchg_spi 0xFF ;;
      if negb (Z.land res 0x80 =? 0) then
        let n := u8 (n - 1) in
        if negb (n =? 0) then send_cmd_resp f' n else ret res
      else ret res
  end.

(** The body of [send_cmd] below the application-command prefix: selection,
    the six bytes of the command packet and the response poll. *)
Definition send_cmd_packet (cmd arg : Z) : M Z :=
  sel <- (if negb (cmd =? CMD12)
          then (mmc_deselect ;; mmc_select)
          else ret true) ;;
  if negb sel then ret 0xFF
  else
    xchg_spi (Z.lor 0x40 cmd) ;;
    xchg_spi (u8 (Z.shiftr arg 24)) ;;
    xchg_spi (u8 (Z.shiftr arg 16)) ;;
    xchg_spi (u8 (Z.shiftr arg 8)) ;;
    xchg_spi (u8 arg) ;;
    let n := 0x01 in
    let n := if cmd =? CMD0 then 0x95 else n in
    let n := if cmd =? CMD8 then 0x87 else n in
    xchg_spi n ;;
    (if cmd =? CMD12 then (xchg_spi 0xFF ;; ret tt) else ret tt) ;;
    send_cmd_resp fuel 10.

(** [send_cmd] calls itself once for the prefix of an application command; the
    recursion is unfolded along [depth]. *)
Fixpoint send_cmd_rec (depth : nat) (cmd arg : Z) : M Z :=
  match depth with
  | O => out_of_fuel
  | S depth' =>
      if negb (Z.land cmd 0x80 =? 0) then
        let cmd := Z.land cmd 0x7F in
        res <- send_cmd_rec depth' CMD55 0 ;;
        if 1 <? res then ret res else send_cmd_packet cmd arg
      else send_cmd_packet cmd arg
  end.

Definition send_cmd (cmd arg : Z) : M Z := send_cmd_rec fuel cmd arg.

(** ** Public operations *)

Definition disk_status (pdrv : Z) : M Z :=
  if negb (pdrv =? 0) then ret STA_NOINIT else gets Stat.

(** [while (Timer1 && send_cmd(cmd, arg));] *)
Fixpoint init_poll (f : nat) (cmd arg : Z) : M unit :=
  match f with
  | O => out_of_fuel
  | S f' =>
      t <- gets Timer1 ;;
      if t =? 0 then ret tt
      else
        r <- send_cmd cmd arg ;;
        if r =? 0 then ret tt else init_poll f' cmd arg
  end.

(** The probe sequence of [disk_initialize], from [ty = 0] to the value of
    [ty] that is stored in [CardType]. *)
Definition probe_card : M Z :=
  r0 <- send_cmd CMD0 0 ;;
  if r0 =? 1 then
    modify (set_Timer1 1000) ;;
    r8 <- send_cmd CMD8 0x1AA ;;
    if r8 =? 1 then
      ocr <- xchg_fill 4 ;;
      if (nth 2 ocr 0 =? 0x01) && (nth 3 ocr 0 =? 0xAA) then
        init_poll fuel ACMD41 0x40000000 ;;
        t <- gets Timer1 ;;
        if t =? 0 then ret 0
        else
          r58 <- send_cmd CMD58 0 ;;
          if r58 =? 0 then
            ocr <- xchg_fill 4 ;;
            ret (if negb (Z.land (nth 0 ocr 0) 0x40 =? 0)
                 then Z.lor CT_SD2 CT_BLOCK else CT_SD2)
          else ret 0
      else ret 0
    else
      r41 <- send_cmd ACMD41 0 ;;
      let '(ty, cmd) := if r41 <=? 1 then (CT_SD1, ACMD41) else (CT_MMC, CMD1) in
      init_poll fuel cmd 0 ;;
      t <- gets Timer1 ;;
      if t =? 0 then ret 0
      else
        r16 <- send_cmd CMD16 512 ;;
        ret (if negb (r16 =? 0) then 0 else ty)
  else ret 0.

Definition disk_initialize (pdrv : Z) : M Z :=
  if negb (pdrv =? 0) then ret STA_NOINIT
  else
    st <- gets Stat ;;
    if negb (Z.land st STA_NODISK =? 0) then ret st
    else
      call PowerOn ;;
      call FclkSlow ;;
      xchg_fill 10 ;;
      ty <- probe_card ;;
      modify (fun s => emit (EvCardType ty) (set_CardType ty s)) ;;
      mmc_deselect ;;
      (if negb (ty =? 0) then
         modify (fun s => set_Stat (u8 (Z.land (Stat s) (Z.lnot STA_NOINIT))) s) ;;
         call FclkFast
       else call PowerOff) ;;
      gets Stat.

(** The loop of the multiple block read: the remaining count and the bytes
    stored so far. *)
Fixpoint disk_read_loop (f : nat) (count : Z) (buff : list Z) : M (Z * list Z) :=
  match f with
  | O => out_of_fuel
  | S f' =>
      r <- rcvr_datablock 512 ;;
      match r with
      | None => ret (count, buff)
      | Some blk =>
          let count := u32 (count - 1) in
          if count =? 0 then ret (count, buff ++ blk)
          else disk_read_loop f' count (buff ++ blk)
      end
  end.

(** [disk_read] returns the result and the bytes it stored in the buffer. *)
Definition disk_read (pdrv sector count : Z) : M (DRESULT * list Z) :=
  let sect := u32 sector in
  if negb (pdrv =? 0) || (count =? 0) then ret (RES_PARERR, [])
  else
    st <- gets Stat ;;
    if negb (Z.land st STA_NOINIT =? 0) then ret (RES_NOTRDY, [])
    else
      ct <- gets CardType ;;
      let sect := if Z.land ct CT_BLOCK =? 0 then u32 (sect * 512) else sect in
      cb <- (if count =? 1 then
               r <- send_cmd CMD17 sect ;;
               if r =? 0 then
                 blk <- rcvr_datablock 512 ;;
                 match blk with
                 | Some l => ret (0, l)
                 | None => ret (count, [])
                 end
               else ret (count, [])
             else
               r <- send_cmd CMD18 sect ;;
               if r =? 0 then
                 cb <- disk_read_loop fuel count [] ;;
                 send_cmd CMD12 0 ;;
                 ret cb
               else ret (count, [])) ;;
      mmc_deselect ;;
      ret (if negb (fst cb =? 0) then RES_ERROR else RES_OK, snd cb).

(** The loop of the multiple block write: the remaining count. *)
Fixpoint disk_write_loop (f : nat) (buff : buffer) (count : Z) : M Z :=
  match f with
  | O => out_of_fuel
  | S f' =>
      ok <- xmit_datablock buff 0xFC ;;
      if negb ok then ret count
      else
        let count := u32 (count - 1) in
        if count =? 0 then ret count
        else disk_write_loop f' (advance buff 512) count
  end.

Definition disk_write (pdrv : Z) (buff : buffer) (sector count : Z) : M DRESULT :=
  let sect := u32 sector in
  if negb (pdrv =? 0) || (count =? 0) then ret RES_PARERR
  else
    st <- gets Stat ;;
    if negb (Z.land st STA_NOINIT =? 0) then ret RES_NOTRDY
    else if negb (Z.land st STA_PROTECT =? 0) then ret RES_WRPRT
    else
      ct <- gets CardType ;;
      let sect := if Z.land ct CT_BLOCK =? 0 then u32 (sect * 512) else sect in
      count <- (if count =? 1 then
                  r <- send_cmd CMD24 sect ;;
                  if r =? 0 then
                    ok <- xmit_datablock buff 0xFE ;;
                    ret (if ok then 0 else count)
                  else ret count
                else
                  (if negb (Z.land ct CT_SDC =? 0)
                   then (send_cmd ACMD23 count ;; ret tt) else ret tt) ;;
                  r <- send_cmd CMD25 sect ;;
                  if r =? 0 then
                    count <- disk_write_loop fuel buff count ;;
                    ok <- xmit_datablock null 0xFD ;;
                    ret (if negb ok then 1 else count)
                  else ret count) ;;
      mmc_deselect ;;
      ret (if negb (count =? 0) then RES_ERROR else RES_OK).

(** ** Ioctl *)

(** What [disk_ioctl] stores through [buff]: nothing, an [LBA_t], a [DWORD],
    one byte, or a run of bytes. *)
Inductive ioctl_out : Type :=
  | OutNone
  | OutLBA (v : Z)
  | OutDWORD (v : Z)
  | OutByte (v : Z)
  | OutBytes (l : list Z).

(** A left shift of a 32-bit operand; C leaves it undefined when the count is
    negative or not below the width. *)
Definition shl32 (x k : Z) : option Z :=
  if (0 <=? k) && (k <? 32) then Some (u32 (Z.shiftl x k)) else None.

(** The decoding of the GET_SECTOR_COUNT case, on the 16 bytes of the CSD. *)
Definition csd_sector_count (csd : list Z) : option Z :=
  let b i := nth i csd 0 in
  if Z.shiftr (b 0%nat) 6 =? 1 then
    let csz := u32 (b 9%nat + Z.shiftl (u16 (b 8%nat)) 8
                    + u32 (Z.shiftl (u32 (Z.land (b 7%nat) 63)) 16) + 1) in
    shl32 csz 10
  else
    let n := u8 (Z.land (b 5%nat) 15 + Z.shiftr (Z.land (b 10%nat) 128) 7
                 + Z.shiftl (Z.land (b 9%nat) 3) 1 + 2) in
    let csz := u32 (Z.shiftr (b 8%nat) 6 + Z.shiftl (u16 (b 7%nat)) 2
                    + Z.shiftl (u16 (Z.land (b 6%nat) 3)) 10 + 1) in
    shl32 csz (n - 9).

(** The decoding of the GET_BLOCK_SIZE case for SDv1 and for MMCv3. *)
Definition csd_block_size_sd1 (csd : list Z) : option Z :=
  let b i := nth i csd 0 in
  shl32 (Z.shiftl (Z.land (b 10%nat) 63) 1
         + Z.shiftr (u16 (Z.land (b 11%nat) 128)) 7 + 1)
        (Z.shiftr (b 13%nat) 6 - 1).

Definition csd_block_size_mmc (csd : list Z) : Z :=
  let b i := nth i csd 0 in
  u32 ((u16 (Z.shiftr (Z.land (b 10%nat) 124) 2) + 1)
       * (Z.shiftl (Z.land (b 11%nat) 3) 3
          + Z.shiftr (Z.land (b 11%nat) 224) 5 + 1)).

Definition lift_opt (o : option Z) (k : Z -> ioctl_out) : M (DRESULT * ioctl_out) :=
  match o with
  | Some v => ret (RES_OK, k v)
  | None => undefined
  end.

Definition disk_ioctl (pdrv cmd : Z) : M (DRESULT * ioctl_out) :=
  if negb (pdrv =? 0) then ret (RES_PARERR, OutNone)
  else
    st <- gets Stat ;;
    if negb (Z.land st STA_NOINIT =? 0) then ret (RES_NOTRDY, OutNone)
    else
      ct <- gets CardType ;;
      let failed := ret (RES_ERROR, OutNone) in
      res <- (if cmd =? CTRL_SYNC then
                sel <- mmc_select ;;
                ret (if sel then RES_OK else RES_ERROR, OutNone)
              else if cmd =? GET_SECTOR_COUNT then
                r <- send_cmd CMD9 0 ;;
                if r =? 0 then
                  csd <- rcvr_datablock 16 ;;
                  match csd with
                  | Some csd => lift_opt (csd_sector_count csd) OutLBA
                  | None => failed
                  end
                else failed
              else if cmd =? GET_BLOCK_SIZE then
                if negb (Z.land ct CT_SD2 =? 0) then
                  r <- send_cmd ACMD13 0 ;;
                  if r =? 0 then
                    xchg_spi 0xFF ;;
                    csd <- rcvr_datablock 16 ;;
                    match csd with
                    | Some csd =>
                        xchg_fill (64 - 16) ;;
                        lift_opt (shl32 16 (Z.shiftr (nth 10 csd 0) 4)) OutDWORD
                    | None => failed
                    end
                  else failed
                else
                  r <- send_cmd CMD9 0 ;;
                  if r =? 0 then
                    csd <- rcvr_datablock 16 ;;
                    match csd with
                    | Some csd =>
                        if negb (Z.land ct CT_SD1 =? 0)
                        then lift_opt (csd_block_size_sd1 csd) OutDWORD
                        else ret (RES_OK, OutDWORD (csd_block_size_mmc csd))
                    | None => failed
                    end
                  else failed
              else if cmd =? MMC_GET_TYPE then
                ret (RES_OK, OutByte (u8 ct))
              else if (cmd =? MMC_GET_CSD) || (cmd =? MMC_GET_CID) then
                r <- send_cmd (if cmd =? MMC_GET_CSD then CMD9 else CMD10) 0 ;;
                if r =? 0 then
                  blk <- rcvr_datablock 16 ;;
                  match blk with
                  | Some l => ret (RES_OK, OutBytes l)
                  | None => failed
                  end
                else failed
              else if cmd =? MMC_GET_OCR then
                r <- send_cmd CMD58 0 ;;
                if r =? 0 then
                  l <- xchg_fill 4 ;;
                  ret (RES_OK, OutBytes l)
                else failed
              else if cmd =? MMC_GET_SDSTAT then
                if negb (Z.land ct CT_SD2 =? 0) then
                  r <- send_cmd ACMD13 0 ;;
                  if r =? 0 then
                    xchg_spi 0xFF ;;
                    blk <- rcvr_datablock 64 ;;
                    match blk with
                    | Some l => ret (RES_OK, OutBytes l)
                    | None => failed
                    end
                  else failed
                else failed
              else ret (RES_PARERR, OutNone)) ;;
      mmc_deselect ;;
      ret res.

(** ** Timestamp *)

(** [get_fattime]: this variant has no clock; the timestamp is always 0. *)
Definition get_fattime : M Z := ret 0.

End Driver.

(** * Observations on runs *)

(** [preserves R m]: every finished run of [m] relates its first state to its
    last one. *)
Definition preserves (R : state -> state -> Prop) {A} (m : M A) : Prop :=
  forall s a s', m s = Done a s' -> R s s'.

(** The states the driver can be in: the static initializers, with the CS#
    line at either level, followed by any sequence of ticks and of finished
    calls of the public operations, with any arguments and any iteration
    budget. *)
Inductive reachable (miso : nat -> Z) (irq : nat -> nat) : state -> Prop :=
  | reach_init : reachable miso irq init_state
  | reach_init_selected : reachable miso irq (set_cs false init_state)
  | reach_tick s :
      reachable miso irq s -> reachable miso irq (disk_timerproc s)
  | reach_status s pdrv r s' :
      reachable miso irq s -> disk_status pdrv s = Done r s' ->
      reachable miso irq s'
  | reach_initialize s fuel pdrv r s' :
      reachable miso irq s ->
      disk_initialize miso irq fuel pdrv s = Done r s' ->
      reachable miso irq s'
  | reach_read s fuel pdrv sector count r s' :
      reachable miso irq s ->
      disk_read miso irq fuel pdrv sector count s = Done r s' ->
      reachable miso irq s'
  | reach_write s fuel pdrv buff sector count r s' :
      reachable miso irq s ->
      disk_write miso irq fuel pdrv buff sector count s = Done r s' ->
      reachable miso irq s'
  | reach_ioctl s fuel pdrv cmd r s' :
      reachable miso irq s ->
      disk_ioctl miso irq fuel pdrv cmd s = Done r s' ->
      reachable miso irq s'.

(** The write-protected flag, once clear, stays clear. *)
Definition keeps_unprotected (s s' : state) : Prop :=
  Z.land (Stat s) STA_PROTECT = 0 -> Z.land (Stat s') STA_PROTECT = 0.

(** [elapsed irq from n]: the ticks that fire during the [n] exchanges that
    start with exchange number [from]. *)
Fixpoint elapsed (irq : nat -> nat) (from n : nat) : nat :=
  match n with
  | O => 0%nat
  | S n' => (elapsed irq from n' + irq (from + n'))%nat
  end.

(** The state one byte exchange leaves. *)
Definition after_xchg (miso : nat -> Z) (irq : nat -> nat) (dat : Z) (s : state)
  : state :=
  tick_clk (emit (EvXchg (u8 dat) (u8 (miso (clk s))))
                 (Nat.iter (irq (clk s)) disk_timerproc s)).

(** The bytes the card sends during the [n] exchanges from number [from]. *)
Definition received (miso : nat -> Z) (from n : nat) : list Z :=
  map (fun i => u8 (miso (from + i)%nat)) (seq 0 n).

(** The values stored to [CardType], in the order of the trace. *)
Definition card_type_writes (l : list event) : list Z :=
  flat_map (fun e => match e with EvCardType v => [v] | _ => [] end) l.

(** The bytes the driver sends, in the order of the trace. *)
Definition sent (l : list event) : list Z :=
  flat_map (fun e => match e with EvXchg tx _ => [tx] | _ => [] end) l.

(** A quiet run keeps the not-initialized flag and the card type and adds no
    store to [CardType] to the trace. *)
Definition quiet (s s' : state) : Prop :=
  Z.land (Stat s') STA_NOINIT = Z.land (Stat s) STA_NOINIT /\
  CardType s' = CardType s /\
  exists l, log s' = log s ++ l /\ card_type_writes l = [].

(** The buffer pointer of the multiple block write after [k] blocks. *)
Definition block_ptr (buff : buffer) (k : nat) : buffer :=
  Nat.iter k (fun b => advance b 512) buff.

(** A data frame on the bus: after a successful ready wait the token, the 512
    bytes of the block, two CRC bytes, and the exchange that reads the data
    response [resp]. *)
Definition frame_sent (miso : nat -> Z) (irq : nat -> nat) (fuel : nat)
    (buff : buffer) (token : Z) (s s' : state) (resp : Z) : Prop :=
  exists sw rt l,
    wait_ready miso irq fuel s = Done true sw /\
    log s' = log sw ++ EvXchg (u8 token) rt :: l ++ [EvXchg 0xFF resp] /\
    sent l = map (fun i => u8 (buff i)) (seq 0 512) ++ [0xFF; 0xFF].

(** A block is accepted when its frame is sent and the low 5 bits of the data
    response are 0b00101; it is refused when the ready wait fails, and then
    nothing of the frame is sent, or when the data response is another one. *)
Definition block_accepted miso irq fuel (buff : buffer) (s s' : state) : Prop :=
  exists resp,
    frame_sent miso irq fuel buff 0xFC s s' resp /\ Z.land resp 0x1F = 0x05.

Definition block_refused miso irq fuel (buff : buffer) (s s' : state) : Prop :=
  wait_ready miso irq fuel s = Done false s' \/
  exists resp,
    frame_sent miso irq fuel buff 0xFC s s' resp /\ Z.land resp 0x1F <> 0x05.

(** [accepted k buff s s']: from [s], [k] successive calls of [xmit_datablock]
    with the multiple-block token, one per 512-byte block from [buff] on,
    each return 1 with the block accepted, and leave [s']. *)
Inductive accepted (miso : nat -> Z) (irq : nat -> nat) (fuel : nat)
  : nat -> buffer -> state -> state -> Prop :=
  | accepted_O buff s : accepted miso irq fuel 0 buff s s
  | accepted_S k buff s s1 s2 :
      xmit_datablock miso irq fuel buff 0xFC s = Done true s1 ->
      block_accepted miso irq fuel buff s s1 ->
      accepted miso irq fuel k (advance buff 512) s1 s2 ->
      accepted miso irq fuel (S k) buff s s2.

(** How a multiple block write that passes the gates runs: the optional
    pre-erase hint, the command 25 and, when it is accepted, [k] accepted
    blocks, the refused attempt on block [k] when [k] is below the count, one
    attempt to send the stop token, and the deselection.  An attempt starts
    with [wait_ready]; the stop token goes on the bus when that succeeds. *)
Definition multi_write_outcome (miso : nat -> Z) (irq : nat -> nat) (fuel : nat)
    (buff : buffer) (sector count : Z) (s : state) (r : DRESULT) (s' : state)
  : Prop :=
  let sect := if Z.land (CardType s) CT_BLOCK =? 0
              then u32 (u32 sector * 512) else u32 sector in
  exists s0 r25 s1,
    (Z.land (CardType s) CT_SDC = 0 -> s0 = s) /\
    (Z.land (CardType s) CT_SDC <> 0 ->
     exists r23, send_cmd miso irq fuel ACMD23 count s = Done r23 s0) /\
    send_cmd miso irq fuel CMD25 sect s0 = Done r25 s1 /\
    (r25 <> 0 -> r = RES_ERROR /\ mmc_deselect miso irq s1 = Done tt s') /\
    (r25 = 0 ->
     exists k sk s2 rdy sw s3,
       accepted miso irq fuel k buff s1 sk /\
       Z.of_nat k <= count /\
       (Z.of_nat k = count -> s2 = sk) /\
       (Z.of_nat k < count ->
        xmit_datablock miso irq fuel (block_ptr buff k) 0xFC sk = Done false s2 /\
        block_refused miso irq fuel (block_ptr buff k) sk s2) /\
       xmit_datablock miso irq fuel null 0xFD s2 = Done rdy s3 /\
       wait_ready miso irq fuel s2 = Done rdy sw /\
       s3 = (if rdy then after_xchg miso irq 0xFD sw else sw) /\
       mmc_deselect miso irq s3 = Done tt s' /\
       (r = RES_OK <-> Z.of_nat k = count /\ rdy = true)).

(** The sector count as the design document words it, over the integers:
    one layout for CSD structure version 1, another one otherwise. *)
Definition spec_n (csd : list Z) : Z :=
  let b i := nth i csd 0 in
  Z.land (b 5%nat) 15 + Z.shiftr (Z.land (b 10%nat) 128) 7
  + Z.shiftl (Z.land (b 9%nat) 3) 1 + 2.

Definition spec_sector_count (csd : list Z) : Z :=
  let b i := nth i csd 0 in
  if Z.shiftr (b 0%nat) 6 =? 1 then
    Z.shiftl (b 9%nat + Z.shiftl (b 8%nat) 8
              + Z.shiftl (Z.land (b 7%nat) 63) 16 + 1) 10
  else
    let csz := Z.shiftr (b 8%nat) 6 + Z.shiftl (b 7%nat) 2
               + Z.shiftl (Z.land (b 6%nat) 3) 10 in
    Z.shiftl (csz + 1) (spec_n csd - 9).

Definition is_byte (b : Z) : Prop := 0 <= b < 256.

(** ** Termination *)

(** A live time base never stops ticking: from any exchange on, any number of
    ticks is reached. *)
Definition live (irq : nat -> nat) : Prop :=
  forall k T : nat, exists m, (T <= elapsed irq k m)%nat.

(** [finishes m s]: with enough iteration budget the run of [m] from [s]
    finishes, and with the same value and state whatever the budget above. *)
Definition finishes {A} (m : nat -> M A) (s : state) : Prop :=
  exists f0 a s', forall f, (f0 <= f)%nat -> m f s = Done a s'.

(** While nothing arms it, Timer1 follows the ticks of the exchanges made. *)
Definition timer1_runs (irq : nat -> nat) (s s' : state) : Prop :=
  (clk s <= clk s')%nat /\
  (0 <= Timer1 s < 4294967296 ->
   Timer1 s'
   = Z.max 0 (Timer1 s - Z.of_nat (elapsed irq (clk s) (clk s' - clk s)))).

(** ** Observations on the public operations *)

(** The state [mmc_deselect] leaves: CS# high, then one filler byte. *)
Definition deselected (miso : nat -> Z) (irq : nat -> nat) (s : state) : state :=
  after_xchg miso irq 0xFF (emit (EvCS true) (set_cs true s)).

(** The values of [Stat] and of [CardType] the driver produces. *)
Definition stat_values (st : Z) : Prop := st = 0 \/ st = STA_NOINIT.

Definition card_type_values (ty : Z) : Prop :=
  ty = 0 \/ ty = CT_MMC \/ ty = CT_SD1 \/ ty = CT_SD2 \/
  ty = Z.lor CT_SD2 CT_BLOCK.

(** What holds of the driver between two calls; the level of CS# is known
    once the driver has done something on the bus. *)
Definition idle_invariant (s : state) : Prop :=
  stat_values (Stat s) /\ card_type_values (CardType s) /\
  (log s = [] \/ cs_high s = true).

(** The not-initialized flag, once clear, stays clear. *)
Definition keeps_initialized (s s' : state) : Prop :=
  Z.land (Stat s) STA_NOINIT = 0 -> Z.land (Stat s') STA_NOINIT = 0.

(** The values of [Stat] stay among those the driver produces. *)
Definition keeps_stat_values (s s' : state) : Prop :=
  stat_values (Stat s) -> stat_values (Stat s').

(** A run that puts nothing but filler bytes on the bus. *)
Definition filler_only (s s' : state) : Prop :=
  exists l, log s' = log s ++ l /\ Forall (fun b => b = 0xFF) (sent l).

(** The number of exchanges of a burst with the count [cnt]: the count is
    decremented before it is tested, so a count of 0 runs through the whole
    range of a [UINT]. *)
Definition burst_length (cnt : Z) : Z := if cnt =? 0 then 4294967296 else cnt.

(** The blocks of 512 bytes the card sends from the exchanges [froms] on. *)
Definition blocks_received (miso : nat -> Z) (froms : list nat) : list Z :=
  flat_map (fun from => received miso from 512) froms.

(** The address a block command carries: the sector number for a card with
    block addressing, the byte offset otherwise, both as a [DWORD]. *)
Definition block_address (ct sector : Z) : Z :=
  if Z.land ct CT_BLOCK =? 0 then u32 (u32 sector * 512) else u32 sector.

(** [halts m s]: with enough iteration budget the run of [m] from [s] ends,
    with a result or at an operation C leaves undefined, and in the same way
    whatever the budget above. *)
Definition halts {A} (m : nat -> M A) (s : state) : Prop :=
  exists f0 o, o <> OutOfFuel /\ forall f, (f0 <= f)%nat -> m f s = o.

(** ** Environments used in the examples *)

(** A card that answers every exchange with the idle level of the line, and a
    time base that never fires. *)
Definition card_idle : nat -> Z := fun _ => 0xFF.
Definition irq_none : nat -> nat := fun _ => 0%nat.

(** A card that holds the data line low, and a time base that fires once in
    every exchange. *)
Definition card_busy : nat -> Z := fun _ => 0.
Definition irq_each : nat -> nat := fun _ => 1%nat.

(** A card that is ready for command 25 (exchange 2) and accepts it (exchange
    9), is ready for the first data block (exchange 10), answers it with the
    data response "CRC error" (exchange 526) and then holds the data line low
    for good. *)
Definition card_stuck : nat -> Z :=
  fun k => if (k =? 2)%nat || (k =? 10)%nat then 0xFF
           else if (k =? 526)%nat then 0x0B
           else 0.

(** A version 1 CSD whose 22-bit size field is all ones, and a card that
    answers command 9 with it: ready at once, response 0 at exchange 9, the
    data token at exchange 10 and the 16 bytes from exchange 11 on. *)
Definition csd_full : list Z :=
  [0x40; 0; 0; 0; 0; 0; 0; 0x3F; 0xFF; 0xFF; 0; 0; 0; 0; 0; 0].

Definition card_csd_full : nat -> Z :=
  fun k => nth k (repeat 0xFF 9 ++ [0x00; 0xFE] ++ csd_full) 0xFF.

(** A compliant SDv2 card with block addressing: it answers the reset and
    the interface-condition commands with "idle", echoes the check pattern,
    leaves the idle state at the first initialization command and reports the
    capacity status bit in the OCR. *)
Definition card_sd2 : nat -> Z :=
  fun k => match k with
           | 19%nat | 29%nat | 32%nat | 43%nat => 0x01
           | 33%nat => 0xAA
           | 53%nat | 63%nat => 0x00
           | 64%nat => 0xC0
           | _ => 0xFF
           end.

(** A card that accepts command 25 and two data blocks. *)
Definition card_two_blocks : nat -> Z :=
  fun k => if (k =? 9)%nat then 0x00
           else if (k =? 526)%nat || (k =? 1043)%nat then 0x05
           else 0xFF.

(** A card that sends the data token at once, followed by a counter. *)
Definition card_data : nat -> Z :=
  fun k => if (k =? 0)%nat then 0xFE else Z.of_nat k.

(** States with the no-disk flag and with the write-protected flag set. *)
Definition no_disk_state : state :=
  mkState (Z.lor STA_NODISK STA_NOINIT) 0 0 0 true 0 [].
Definition protected_state : state := mkState STA_PROTECT 0 0 CT_MMC true 0 [].

(** A state with the card initialized as a byte-addressed MMC. *)
Definition ready_state : state := mkState 0 0 0 CT_MMC true 0 [].


(** A card that accepts a read command (ready at once, response 0 at exchange
    9) and then sends two data blocks, each after a data token (exchanges 10
    and 525); the bytes of a block are the low bytes of their exchange
    numbers. *)
Definition card_blocks : nat -> Z :=
  fun k => if (k <? 9)%nat then 0xFF
           else if (k =? 9)%nat then 0x00
           else if (k =? 10)%nat || (k =? 525)%nat then 0xFE
           else Z.of_nat k.

(** The drive in the middle of its initialization: not initialized, with the
    negotiation timer armed. *)
Definition negotiating_state : state := mkState STA_NOINIT 1000 0 0 true 0 [].

(** * Reasoning about runs *)

Lemma bind_Done {A B} (m : M A) (k : A -> M B) s b s' :
  bind m k s = Done b s' ->
  exists a s1, m s = Done a s1 /\ k a s1 = Done b s'.
Proof.
  unfold bind. destruct (m s) as [a s1| |]; try discriminate.
  intros H. exists a, s1. split; [reflexivity | exact H].
Qed.

Lemma ret_Done {A} (a b : A) s s' : ret a s = Done b s' -> a = b /\ s = s'.
Proof. unfold ret. intros H. inversion H. split; reflexivity. Qed.

Lemma gets_Done {A} (f : state -> A) b s s' :
  gets f s = Done b s' -> b = f s /\ s' = s.
Proof. unfold gets. intros H. inversion H. split; reflexivity. Qed.

Lemma modify_Done f (u : unit) s s' : modify f s = Done u s' -> s' = f s.
Proof. unfold modify. intros H. inversion H. reflexivity. Qed.

(** Splits a finished run of a sequence into the finished runs of its parts. *)
Ltac run_inv :=
  repeat match goal with
  | H : bind _ _ _ = Done _ _ |- _ =>
      let a := fresh "a" in let s1 := fresh "s" in
      let H1 := fresh "Hm" in let H2 := fresh "Hk" in
      apply bind_Done in H; destruct H as (a & s1 & H1 & H2)
  | H : ret _ _ = Done _ _ |- _ =>
      apply ret_Done in H; destruct H; subst
  | H : gets _ _ = Done _ _ |- _ =>
      apply gets_Done in H; destruct H; subst
  | H : modify _ _ = Done _ _ |- _ =>
      apply modify_Done in H; subst
  | H : out_of_fuel _ = Done _ _ |- _ => discriminate H
  | H : undefined _ = Done _ _ |- _ => discriminate H
  end.

(** Opens the first step of a finished sequence [H], naming its value, its
    state and its run. *)
Ltac bind_inv H a s1 H1 :=
  apply bind_Done in H; destruct H as (a & s1 & H1 & H).

Ltac gets_inv H :=
  apply gets_Done in H; destruct H; subst.

Ltac ret_inv H :=
  apply ret_Done in H; destruct H; subst.

(** ** Relations kept by every step of the protocol code *)

Create HintDb pres.

Section Preservation.

Variable miso : nat -> Z.
Variable irq : nat -> nat.
Variable fuel : nat.

Variable R : state -> state -> Prop.
Hypothesis R_refl : forall s, R s s.
Hypothesis R_trans : forall s1 s2 s3, R s1 s2 -> R s2 s3 -> R s1 s3.
Hypothesis R_after : forall s dat, R s (after_xchg miso irq dat s).
Hypothesis R_cs : forall s b, R s (emit (EvCS b) (set_cs b s)).
Hypothesis R_hook : forall s h, R s (emit (EvHook h) s).
Hypothesis R_Timer1 : forall s v, R s (set_Timer1 v s).
Hypothesis R_Timer2 : forall s v, R s (set_Timer2 v s).

Lemma pres_ret {A} (a : A) : preserves R (ret a).
Proof. intros s b s' H. run_inv. apply R_refl. Qed.

Lemma pres_gets {A} (f : state -> A) : preserves R (gets f).
Proof. intros s b s' H. run_inv. apply R_refl. Qed.

Lemma pres_bind {A B} (m : M A) (k : A -> M B) :
  preserves R m -> (forall a, preserves R (k a)) -> preserves R (bind m k).
Proof.
  intros Hm Hk s b s' H. run_inv.
  eapply R_trans; [eapply Hm | eapply Hk]; eassumption.
Qed.

Lemma pres_fuel {A} : preserves R (@out_of_fuel A).
Proof. intros s a s' H. discriminate H. Qed.

Lemma pres_undefined {A} : preserves R (@undefined A).
Proof. intros s a s' H. discriminate H. Qed.

Lemma pres_xchg_spi dat : preserves R (xchg_spi miso irq dat).
Proof.
  intros s a s' H. unfold xchg_spi in H. inversion H; subst; clear H.
  apply R_after.
Qed.

Lemma pres_CS_HIGH : preserves R CS_HIGH.
Proof. intros s a s' H. unfold CS_HIGH in H. run_inv. apply R_cs. Qed.

Lemma pres_CS_LOW : preserves R CS_LOW.
Proof. intros s a s' H. unfold CS_LOW in H. run_inv. apply R_cs. Qed.

Lemma pres_call h : preserves R (call h).
Proof. intros s a s' H. unfold call in H. run_inv. apply R_hook. Qed.

Lemma pres_arm1 v : preserves R (modify (set_Timer1 v)).
Proof. intros s a s' H. run_inv. apply R_Timer1. Qed.

Lemma pres_arm2 v : preserves R (modify (set_Timer2 v)).
Proof. intros s a s' H. run_inv. apply R_Timer2. Qed.

#[local] Hint Resolve pres_ret pres_gets pres_fuel pres_undefined pres_xchg_spi
  pres_CS_HIGH pres_CS_LOW pres_call pres_arm1 pres_arm2 : pres.

(** One step of the proof that a composite run keeps [R]: open a sequence,
    split a conditional or a match, or close the goal with a known fact. *)
Ltac pres_step :=
  match goal with
  | |- preserves _ (bind _ _) => apply pres_bind; [ | intro ]
  | |- preserves _ (if ?b then _ else _) => destruct b
  | |- preserves _ (match ?x with _ => _ end) => destruct x
  | |- preserves _ _ => solve [auto with pres]
  end.
Ltac pres_auto := repeat pres_step.

Lemma pres_xmit_spi_multi_loop f : forall buff cnt,
  preserves R (xmit_spi_multi_loop miso irq f buff cnt).
Proof. induction f as [|f IH]; intros; simpl; pres_auto. Qed.

Lemma pres_rcvr_spi_multi_loop f : forall cnt,
  preserves R (rcvr_spi_multi_loop miso irq f cnt).
Proof. induction f as [|f IH]; intros; simpl; pres_auto. Qed.

Lemma pres_xchg_fill n : preserves R (xchg_fill miso irq n).
Proof. induction n as [|n IH]; simpl; pres_auto. Qed.

Lemma pres_wait_ready_loop f : preserves R (wait_ready_loop miso irq f).
Proof. induction f as [|f IH]; simpl; pres_auto. Qed.

#[local] Hint Resolve pres_xmit_spi_multi_loop pres_rcvr_spi_multi_loop pres_xchg_fill
  pres_wait_ready_loop : pres.

Lemma pres_wait_ready : preserves R (wait_ready miso irq fuel).
Proof. unfold wait_ready. pres_auto. Qed.

Lemma pres_mmc_deselect : preserves R (mmc_deselect miso irq).
Proof. unfold mmc_deselect. pres_auto. Qed.

#[local] Hint Resolve pres_wait_ready pres_mmc_deselect : pres.

Lemma pres_mmc_select : preserves R (mmc_select miso irq fuel).
Proof. unfold mmc_select. pres_auto. Qed.

Lemma pres_rcvr_datablock_loop f : preserves R (rcvr_datablock_loop miso irq f).
Proof. induction f as [|f IH]; simpl; pres_auto. Qed.

#[local] Hint Resolve pres_mmc_select pres_rcvr_datablock_loop : pres.

Lemma pres_rcvr_datablock btr : preserves R (rcvr_datablock miso irq fuel btr).
Proof. unfold rcvr_datablock, rcvr_spi_multi. pres_auto. Qed.

Lemma pres_xmit_datablock buff token :
  preserves R (xmit_datablock miso irq fuel buff token).
Proof. unfold xmit_datablock, xmit_spi_multi. pres_auto. Qed.

Lemma pres_send_cmd_resp f : forall n, preserves R (send_cmd_resp miso irq f n).
Proof. induction f as [|f IH]; intros; simpl; pres_auto. Qed.

#[local] Hint Resolve pres_rcvr_datablock pres_xmit_datablock pres_send_cmd_resp : pres.

Lemma pres_send_cmd_packet cmd arg :
  preserves R (send_cmd_packet miso irq fuel cmd arg).
Proof. unfold send_cmd_packet. pres_auto. Qed.

#[local] Hint Resolve pres_send_cmd_packet : pres.

Lemma pres_send_cmd_rec d : forall cmd arg,
  preserves R (send_cmd_rec miso irq fuel d cmd arg).
Proof. induction d as [|d IH]; intros; simpl; pres_auto. Qed.

#[local] Hint Resolve pres_send_cmd_rec : pres.

Lemma pres_send_cmd cmd arg : preserves R (send_cmd miso irq fuel cmd arg).
Proof. unfold send_cmd. auto with pres. Qed.

#[local] Hint Resolve pres_send_cmd : pres.

Lemma pres_init_poll f : forall cmd arg,
  preserves R (init_poll miso irq fuel f cmd arg).
Proof. induction f as [|f IH]; intros; simpl; pres_auto. Qed.

#[local] Hint Resolve pres_init_poll : pres.

Lemma pres_probe_card : preserves R (probe_card miso irq fuel).
Proof. unfold probe_card. pres_auto. Qed.

Lemma pres_disk_read_loop f : forall count buff,
  preserves R (disk_read_loop miso irq fuel f count buff).
Proof. induction f as [|f IH]; intros; simpl; pres_auto. Qed.

Lemma pres_disk_write_loop f : forall buff count,
  preserves R (disk_write_loop miso irq fuel f buff count).
Proof. induction f as [|f IH]; intros; simpl; pres_auto. Qed.

#[local] Hint Resolve pres_probe_card pres_disk_read_loop pres_disk_write_loop : pres.

Lemma pres_disk_read pdrv sector count :
  preserves R (disk_read miso irq fuel pdrv sector count).
Proof. unfold disk_read. pres_auto. Qed.

Lemma pres_disk_write pdrv buff sector count :
  preserves R (disk_write miso irq fuel pdrv buff sector count).
Proof. unfold disk_write. pres_auto. Qed.

Lemma pres_lift_opt o k : preserves R (lift_opt o k).
Proof. unfold lift_opt. pres_auto. Qed.

#[local] Hint Resolve pres_lift_opt : pres.

Lemma pres_disk_ioctl pdrv cmd :
  preserves R (disk_ioctl miso irq fuel pdrv cmd).
Proof. unfold disk_ioctl. pres_auto. Qed.

Lemma pres_disk_initialize pdrv :
  (forall s ty, R s (emit (EvCardType ty) (set_CardType ty s))) ->
  (forall s, R s (set_Stat (u8 (Z.land (Stat s) (Z.lnot STA_NOINIT))) s)) ->
  preserves R (disk_initialize miso irq fuel pdrv).
Proof.
  intros Hct Hst. unfold disk_initialize. pres_auto.
  - intros s u s' H. run_inv. apply Hct.
  - intros s u s' H. run_inv. apply Hst.
Qed.

End Preservation.

(** A relation that every tick and the bookkeeping of an exchange keep is kept
    by a byte exchange. *)
Lemma rel_after_xchg (R : state -> state -> Prop) :
  (forall s, R s s) ->
  (forall s1 s2 s3, R s1 s2 -> R s2 s3 -> R s1 s3) ->
  (forall s, R s (disk_timerproc s)) ->
  (forall s tx rx, R s (tick_clk (emit (EvXchg tx rx) s))) ->
  forall miso irq s dat, R s (after_xchg miso irq dat s).
Proof.
  intros Hrefl Htrans Htick Hx miso irq s dat. unfold after_xchg.
  eapply Htrans; [|apply Hx].
  induction (irq (clk s)) as [|n IH]; [apply Hrefl|].
  rewrite Nat.iter_succ. eapply Htrans; [exact IH | apply Htick].
Qed.

(** ** Status bits *)

Lemma land_pow2_zero x n :
  0 <= n -> (Z.land x (2 ^ n) = 0 <-> Z.testbit x n = false).
Proof.
  intros Hn. split; intros H.
  - assert (E : Z.testbit (Z.land x (2 ^ n)) n = false)
      by (rewrite H; apply Z.bits_0).
    rewrite Z.land_spec, Z.pow2_bits_true, andb_true_r in E by exact Hn.
    exact E.
  - apply Z.bits_inj'. intros m Hm.
    rewrite Z.land_spec, Z.pow2_bits_eqb, Z.bits_0 by exact Hn.
    destruct (Z.eqb_spec n m) as [->|]; [rewrite H|]; auto using andb_false_r.
Qed.

Lemma land_pow2_eq x y n :
  0 <= n -> Z.testbit x n = Z.testbit y n -> Z.land x (2 ^ n) = Z.land y (2 ^ n).
Proof.
  intros Hn E. apply Z.bits_inj'. intros m Hm.
  rewrite !Z.land_spec, Z.pow2_bits_eqb by exact Hn.
  destruct (Z.eqb_spec n m) as [->|]; [rewrite E|]; auto using andb_false_r.
  rewrite !andb_false_r. reflexivity.
Qed.

Lemma tick_Stat s :
  Stat (disk_timerproc s)
  = u8 (Z.land (u8 (Z.land (Stat s) (Z.lnot STA_PROTECT))) (Z.lnot STA_NODISK)).
Proof.
  unfold disk_timerproc.
  change (MMC_WP =? 0) with true. change (MMC_CD =? 0) with false. cbv iota zeta.
  repeat match goal with
         | |- context [if ?b then _ else _] => destruct b
         end; reflexivity.
Qed.

Lemma tick_Stat_testbit s i :
  0 <= i ->
  Z.testbit (Stat (disk_timerproc s)) i
  = (i <? 8) && Z.testbit (Stat s) i && negb (i =? 2) && negb (i =? 1).
Proof.
  intros Hi. rewrite tick_Stat. unfold u8.
  change 256 with (2 ^ 8). change STA_PROTECT with (2 ^ 2).
  change STA_NODISK with (2 ^ 1).
  rewrite Z.testbit_mod_pow2, Z.land_spec, Z.testbit_mod_pow2, Z.land_spec by lia.
  rewrite !Z.lnot_spec, !Z.pow2_bits_eqb by lia.
  rewrite (Z.eqb_sym 2 i), (Z.eqb_sym 1 i).
  destruct (i <? 8), (Z.testbit (Stat s) i), (i =? 2), (i =? 1); reflexivity.
Qed.

Lemma tick_clears_PROTECT s : Z.land (Stat (disk_timerproc s)) STA_PROTECT = 0.
Proof.
  change STA_PROTECT with (2 ^ 2). apply land_pow2_zero; [lia|].
  rewrite tick_Stat_testbit by lia.
  destruct (Z.testbit (Stat s) 2); reflexivity.
Qed.

Lemma tick_clears_NODISK s : Z.land (Stat (disk_timerproc s)) STA_NODISK = 0.
Proof.
  change STA_NODISK with (2 ^ 1). apply land_pow2_zero; [lia|].
  rewrite tick_Stat_testbit by lia.
  destruct (Z.testbit (Stat s) 1); reflexivity.
Qed.

Lemma tick_keeps_NOINIT s :
  Z.land (Stat (disk_timerproc s)) STA_NOINIT = Z.land (Stat s) STA_NOINIT.
Proof.
  change STA_NOINIT with (2 ^ 0). apply land_pow2_eq; [lia|].
  rewrite tick_Stat_testbit by lia.
  destruct (Z.testbit (Stat s) 0); reflexivity.
Qed.

Lemma clear_NOINIT_keeps_PROTECT st :
  Z.land st STA_PROTECT = 0 ->
  Z.land (u8 (Z.land st (Z.lnot STA_NOINIT))) STA_PROTECT = 0.
Proof.
  change STA_PROTECT with (2 ^ 2). change STA_NOINIT with (2 ^ 0).
  rewrite !land_pow2_zero by lia. intros H. unfold u8. change 256 with (2 ^ 8).
  rewrite Z.testbit_mod_pow2, Z.land_spec, H by lia. reflexivity.
Qed.

Lemma clear_NOINIT st : Z.land (u8 (Z.land st (Z.lnot STA_NOINIT))) STA_NOINIT = 0.
Proof.
  change STA_NOINIT with (2 ^ 0). apply land_pow2_zero; [lia|].
  unfold u8. change 256 with (2 ^ 8).
  rewrite Z.testbit_mod_pow2, Z.land_spec, Z.lnot_spec, Z.pow2_bits_true by lia.
  destruct (Z.testbit st 0); reflexivity.
Qed.

(** * Properties of the driver *)

Lemma keeps_unprotected_after miso irq s dat :
  keeps_unprotected s (after_xchg miso irq dat s).
Proof.
  apply (rel_after_xchg keeps_unprotected); unfold keeps_unprotected;
    auto using tick_clears_PROTECT.
Qed.

Lemma keeps_unprotected_read miso irq fuel pdrv sector count :
  preserves keeps_unprotected (disk_read miso irq fuel pdrv sector count).
Proof.
  apply pres_disk_read; try (intros; apply keeps_unprotected_after);
    unfold keeps_unprotected; auto.
Qed.

Lemma keeps_unprotected_write miso irq fuel pdrv buff sector count :
  preserves keeps_unprotected (disk_write miso irq fuel pdrv buff sector count).
Proof.
  apply pres_disk_write; try (intros; apply keeps_unprotected_after);
    unfold keeps_unprotected; auto.
Qed.

Lemma keeps_unprotected_ioctl miso irq fuel pdrv cmd :
  preserves keeps_unprotected (disk_ioctl miso irq fuel pdrv cmd).
Proof.
  apply pres_disk_ioctl; try (intros; apply keeps_unprotected_after);
    unfold keeps_unprotected; auto.
Qed.

Lemma keeps_unprotected_initialize miso irq fuel pdrv :
  preserves keeps_unprotected (disk_initialize miso irq fuel pdrv).
Proof.
  apply pres_disk_initialize; try (intros; apply keeps_unprotected_after);
    unfold keeps_unprotected; auto.
  intros s H. apply clear_NOINIT_keeps_PROTECT, H.
Qed.

Lemma reachable_unprotected miso irq s :
  reachable miso irq s -> Z.land (Stat s) STA_PROTECT = 0.
Proof.
  induction 1 as [ | | s _ _ | s pdrv r s' _ IH H | s fuel pdrv r s' _ IH H
                 | s fuel pdrv sector count r s' _ IH H
                 | s fuel pdrv buff sector count r s' _ IH H
                 | s fuel pdrv cmd r s' _ IH H ].
  - reflexivity.
  - reflexivity.
  - apply tick_clears_PROTECT.
  - unfold disk_status in H. destruct (negb (pdrv =? 0)); run_inv; exact IH.
  - exact (keeps_unprotected_initialize _ _ _ _ _ _ _ H IH).
  - exact (keeps_unprotected_read _ _ _ _ _ _ _ _ _ H IH).
  - exact (keeps_unprotected_write _ _ _ _ _ _ _ _ _ _ H IH).
  - exact (keeps_unprotected_ioctl _ _ _ _ _ _ _ _ H IH).
Qed.

(** ** Timers and byte exchanges *)

Lemma tick_fields s :
  clk (disk_timerproc s) = clk s /\ log (disk_timerproc s) = log s /\
  CardType (disk_timerproc s) = CardType s /\
  cs_high (disk_timerproc s) = cs_high s.
Proof.
  unfold disk_timerproc.
  change (MMC_WP =? 0) with true. change (MMC_CD =? 0) with false. cbv iota zeta.
  repeat match goal with
         | |- context [if ?b then _ else _] => destruct b
         end; repeat split.
Qed.

Lemma tick_Timer2 s :
  0 <= Timer2 s < 4294967296 ->
  Timer2 (disk_timerproc s) = Z.max 0 (Timer2 s - 1).
Proof.
  intros H. unfold disk_timerproc.
  change (MMC_WP =? 0) with true. change (MMC_CD =? 0) with false. cbv iota zeta.
  destruct (Timer1 s =? 0); simpl;
    (destruct (Z.eqb_spec (Timer2 s) 0) as [E|E]; simpl;
     [ rewrite E; reflexivity | unfold u32; rewrite Z.mod_small by lia; lia ]).
Qed.

Lemma tick_Timer1 s :
  0 <= Timer1 s < 4294967296 ->
  Timer1 (disk_timerproc s) = Z.max 0 (Timer1 s - 1).
Proof.
  intros H. unfold disk_timerproc.
  change (MMC_WP =? 0) with true. change (MMC_CD =? 0) with false. cbv iota zeta.
  destruct (Z.eqb_spec (Timer1 s) 0) as [E|E]; simpl;
    (destruct (Timer2 s =? 0); simpl;
     [ try rewrite E; try reflexivity | try rewrite E; try reflexivity ]);
    unfold u32; rewrite Z.mod_small by lia; lia.
Qed.

Lemma ticks_fields n s :
  clk (Nat.iter n disk_timerproc s) = clk s /\
  log (Nat.iter n disk_timerproc s) = log s /\
  CardType (Nat.iter n disk_timerproc s) = CardType s /\
  cs_high (Nat.iter n disk_timerproc s) = cs_high s.
Proof.
  induction n as [|n IH]; [repeat split|].
  rewrite Nat.iter_succ.
  destruct (tick_fields (Nat.iter n disk_timerproc s)) as (A & B & C & D).
  destruct IH as (A' & B' & C' & D').
  repeat split; congruence.
Qed.

Lemma ticks_Timer2 n s :
  0 <= Timer2 s < 4294967296 ->
  Timer2 (Nat.iter n disk_timerproc s) = Z.max 0 (Timer2 s - Z.of_nat n).
Proof.
  intros H. induction n as [|n IH]; [simpl; lia|].
  rewrite Nat.iter_succ. rewrite tick_Timer2; rewrite IH; lia.
Qed.

Lemma ticks_Timer1 n s :
  0 <= Timer1 s < 4294967296 ->
  Timer1 (Nat.iter n disk_timerproc s) = Z.max 0 (Timer1 s - Z.of_nat n).
Proof.
  intros H. induction n as [|n IH]; [simpl; lia|].
  rewrite Nat.iter_succ. rewrite tick_Timer1; rewrite IH; lia.
Qed.

Lemma xchg_spi_eq miso irq dat s :
  xchg_spi miso irq dat s = Done (u8 (miso (clk s))) (after_xchg miso irq dat s).
Proof. reflexivity. Qed.

Lemma xchg_spi_Done miso irq dat s a s' :
  xchg_spi miso irq dat s = Done a s' ->
  a = u8 (miso (clk s)) /\ s' = after_xchg miso irq dat s.
Proof. rewrite xchg_spi_eq. intros H. inversion H. split; reflexivity. Qed.

Ltac xchg_inv H := apply xchg_spi_Done in H; destruct H; subst.

(** Opens a finished sequence [H] that starts with a byte exchange. *)
Ltac xchg_step H :=
  let x := fresh "x" in let t := fresh "t" in let E := fresh "E" in
  bind_inv H x t E; xchg_inv E.

Lemma after_xchg_clk miso irq dat s : clk (after_xchg miso irq dat s) = S (clk s).
Proof.
  unfold after_xchg. simpl. f_equal. apply ticks_fields.
Qed.

Lemma after_xchg_log miso irq dat s :
  log (after_xchg miso irq dat s)
  = log s ++ [EvXchg (u8 dat) (u8 (miso (clk s)))].
Proof.
  unfold after_xchg. simpl. f_equal. apply ticks_fields.
Qed.

Lemma after_xchg_Timer2 miso irq dat s :
  0 <= Timer2 s < 4294967296 ->
  Timer2 (after_xchg miso irq dat s)
  = Z.max 0 (Timer2 s - Z.of_nat (irq (clk s))).
Proof. intros H. unfold after_xchg. simpl. apply ticks_Timer2, H. Qed.

Lemma after_xchg_Timer1 miso irq dat s :
  0 <= Timer1 s < 4294967296 ->
  Timer1 (after_xchg miso irq dat s)
  = Z.max 0 (Timer1 s - Z.of_nat (irq (clk s))).
Proof. intros H. unfold after_xchg. simpl. apply ticks_Timer1, H. Qed.

Lemma elapsed_front irq from n :
  elapsed irq from (S n) = (irq from + elapsed irq (S from) n)%nat.
Proof.
  induction n as [|n IH].
  - simpl. rewrite Nat.add_0_r. lia.
  - change (elapsed irq from (S (S n)))
      with (elapsed irq from (S n) + irq (from + S n))%nat.
    rewrite IH. simpl. replace (from + S n)%nat with (S (from + n)) by lia. lia.
Qed.

Lemma elapsed_mono irq from n m :
  (n <= m)%nat -> (elapsed irq from n <= elapsed irq from m)%nat.
Proof. induction 1; simpl; lia. Qed.

(** If the budget is ever used up, there is a first exchange that uses it up. *)
Lemma first_expiry irq from (T : nat) :
  (0 < T)%nat -> (exists m, T <= elapsed irq from m)%nat ->
  exists n, (elapsed irq from n < T <= elapsed irq from (S n))%nat.
Proof.
  intros HT [m Hm]. induction m as [|m IH].
  - simpl in Hm. lia.
  - destruct (Nat.le_gt_cases T (elapsed irq from m)) as [H|H].
    + apply IH, H.
    + exists m. split; assumption.
Qed.

(** The exit of the polling loop of [wait_ready]: the loop runs through the
    exchanges that neither return 0xFF nor see the timer at zero and stops at
    the first one that does, with any budget above their number. *)
Lemma wait_ready_loop_exit miso irq : forall n s,
  0 <= Timer2 s < 4294967296 ->
  (forall i, (i < n)%nat -> u8 (miso (clk s + i)%nat) <> 0xFF) ->
  Z.of_nat (elapsed irq (clk s) n) < Timer2 s ->
  (u8 (miso (clk s + n)%nat) = 0xFF \/
   Timer2 s <= Z.of_nat (elapsed irq (clk s) (S n))) ->
  exists s',
    (forall f, (n < f)%nat ->
       wait_ready_loop miso irq f s = Done (u8 (miso (clk s + n)%nat)) s') /\
    clk s' = (clk s + S n)%nat /\
    Timer2 s' = Z.max 0 (Timer2 s - Z.of_nat (elapsed irq (clk s) (S n))).
Proof.
  induction n as [|n IH]; intros s HT Hbusy Hrun Hexit;
    pose proof (after_xchg_Timer2 miso irq 255 s HT) as E2;
    pose proof (after_xchg_clk miso irq 255 s) as Ec.
  - cbn [elapsed] in *. rewrite ?Nat.add_0_r in *.
    exists (after_xchg miso irq 255 s).
    assert (C : negb (u8 (miso (clk s)) =? 255)
                && negb (Timer2 (after_xchg miso irq 255 s) =? 0) = false).
    { destruct Hexit as [H|H].
      - rewrite H. reflexivity.
      - rewrite E2. replace (Z.max 0 _) with 0 by lia. apply andb_false_r. }
    split; [|split; [lia|rewrite E2; reflexivity]].
    intros f Hf. destruct f as [|f]; [lia|].
    cbn [wait_ready_loop]. unfold bind at 1. rewrite xchg_spi_eq.
    unfold bind at 1, gets at 1. rewrite C. reflexivity.
  - rewrite elapsed_front in Hrun, Hexit.
    assert (C : negb (u8 (miso (clk s)) =? 255)
                && negb (Timer2 (after_xchg miso irq 255 s) =? 0) = true).
    { apply andb_true_intro. split; apply negb_true_iff, Z.eqb_neq.
      - specialize (Hbusy 0%nat). rewrite Nat.add_0_r in Hbusy. apply Hbusy. lia.
      - rewrite E2. lia. }
    destruct (IH (after_xchg miso irq 255 s)) as (s' & R1 & R2 & R3).
    + rewrite E2. lia.
    + intros i Hi. rewrite Ec. replace (S (clk s) + i)%nat with (clk s + S i)%nat by lia.
      apply Hbusy. lia.
    + rewrite Ec, E2. lia.
    + rewrite Ec, E2. replace (S (clk s) + n)%nat with (clk s + S n)%nat by lia.
      destruct Hexit as [H|H]; [left; exact H|right]. lia.
    + exists s'. rewrite Ec in R1, R2. rewrite Ec, E2 in R3.
      replace (S (clk s) + n)%nat with (clk s + S n)%nat in R1 by lia.
      split; [|split; [lia|]].
      * intros f Hf. destruct f as [|f]; [lia|].
        cbn [wait_ready_loop]. unfold bind at 1. rewrite xchg_spi_eq.
        unfold bind at 1, gets at 1. rewrite C. apply R1. lia.
      * rewrite R3. rewrite (elapsed_front irq (clk s) (S n)). lia.
Qed.

(** The exit of the polling loop of [rcvr_datablock]: the loop runs through
    the exchanges that return 0xFF with the timer running and stops at the
    first one that returns another byte or sees the timer at zero. *)
Lemma rcvr_datablock_loop_exit miso irq : forall n s,
  0 <= Timer1 s < 4294967296 ->
  (forall i, (i < n)%nat -> u8 (miso (clk s + i)%nat) = 0xFF) ->
  Z.of_nat (elapsed irq (clk s) n) < Timer1 s ->
  (u8 (miso (clk s + n)%nat) <> 0xFF \/
   Timer1 s <= Z.of_nat (elapsed irq (clk s) (S n))) ->
  exists s',
    (forall f, (n < f)%nat ->
       rcvr_datablock_loop miso irq f s = Done (u8 (miso (clk s + n)%nat)) s') /\
    clk s' = (clk s + S n)%nat /\
    Timer1 s' = Z.max 0 (Timer1 s - Z.of_nat (elapsed irq (clk s) (S n))).
Proof.
  induction n as [|n IH]; intros s HT Hidle Hrun Hexit;
    pose proof (after_xchg_Timer1 miso irq 255 s HT) as E1;
    pose proof (after_xchg_clk miso irq 255 s) as Ec.
  - cbn [elapsed] in *. rewrite ?Nat.add_0_r in *.
    exists (after_xchg miso irq 255 s).
    assert (C : (u8 (miso (clk s)) =? 255)
                && negb (Timer1 (after_xchg miso irq 255 s) =? 0) = false).
    { destruct Hexit as [H|H].
      - apply Z.eqb_neq in H. rewrite H. reflexivity.
      - rewrite E1. replace (Z.max 0 _) with 0 by lia. apply andb_false_r. }
    split; [|split; [lia|rewrite E1; reflexivity]].
    intros f Hf. destruct f as [|f]; [lia|].
    cbn [rcvr_datablock_loop]. unfold bind at 1. rewrite xchg_spi_eq.
    unfold bind at 1, gets at 1. rewrite C. reflexivity.
  - rewrite elapsed_front in Hrun, Hexit.
    assert (C : (u8 (miso (clk s)) =? 255)
                && negb (Timer1 (after_xchg miso irq 255 s) =? 0) = true).
    { apply andb_true_intro. split.
      - apply Z.eqb_eq. specialize (Hidle 0%nat). rewrite Nat.add_0_r in Hidle.
        apply Hidle. lia.
      - apply negb_true_iff, Z.eqb_neq. rewrite E1. lia. }
    destruct (IH (after_xchg miso irq 255 s)) as (s' & R1 & R2 & R3).
    + rewrite E1. lia.
    + intros i Hi. rewrite Ec. replace (S (clk s) + i)%nat with (clk s + S i)%nat by lia.
      apply Hidle. lia.
    + rewrite Ec, E1. lia.
    + rewrite Ec, E1. replace (S (clk s) + n)%nat with (clk s + S n)%nat by lia.
      destruct Hexit as [H|H]; [left; exact H|right]. lia.
    + exists s'. rewrite Ec in R1, R2. rewrite Ec, E1 in R3.
      replace (S (clk s) + n)%nat with (clk s + S n)%nat in R1 by lia.
      split; [|split; [lia|]].
      * intros f Hf. destruct f as [|f]; [lia|].
        cbn [rcvr_datablock_loop]. unfold bind at 1. rewrite xchg_spi_eq.
        unfold bind at 1, gets at 1. rewrite C. apply R1. lia.
      * rewrite R3. rewrite (elapsed_front irq (clk s) (S n)). lia.
Qed.

Lemma received_cons miso from n :
  received miso from (S n) = u8 (miso from) :: received miso (S from) n.
Proof.
  unfold received. cbn [seq map]. rewrite Nat.add_0_r. f_equal.
  rewrite <- seq_shift, map_map. apply map_ext. intros i.
  replace (from + S i)%nat with (S from + i)%nat by lia. reflexivity.
Qed.

(** The burst receive stores the next [cnt] bytes of the card, for a count
    between 1 and the iteration budget. *)
Lemma rcvr_spi_multi_loop_run miso irq : forall n s,
  Z.of_nat (S n) < 4294967296 ->
  exists s',
    (forall f, (n < f)%nat ->
       rcvr_spi_multi_loop miso irq f (Z.of_nat (S n)) s
       = Done (received miso (clk s) (S n)) s') /\
    clk s' = (clk s + S n)%nat.
Proof.
  induction n as [|n IH]; intros s Hn;
    pose proof (after_xchg_clk miso irq 255 s) as Ec.
  - exists (after_xchg miso irq 255 s). split; [|lia].
    intros f Hf. destruct f as [|f]; [lia|].
    cbn [rcvr_spi_multi_loop]. unfold bind at 1. rewrite xchg_spi_eq.
    change (u32 (Z.of_nat 1 - 1) =? 0) with true. cbv iota.
    unfold ret. rewrite received_cons. reflexivity.
  - assert (E : u32 (Z.of_nat (S (S n)) - 1) = Z.of_nat (S n)).
    { unfold u32. rewrite Z.mod_small by lia. lia. }
    destruct (IH (after_xchg miso irq 255 s)) as (s' & R1 & R2); [lia|].
    exists s'. split; [|lia].
    intros f Hf. destruct f as [|f]; [lia|].
    cbn [rcvr_spi_multi_loop]. unfold bind at 1. rewrite xchg_spi_eq.
    rewrite E.
    destruct (Z.eqb_spec (Z.of_nat (S n)) 0) as [Z0|_]; [lia|].
    unfold bind, ret. rewrite R1 by lia. rewrite Ec.
    rewrite (received_cons miso (clk s) (S n)). reflexivity.
Qed.

(** ** Quiet runs *)

Lemma quiet_refl s : quiet s s.
Proof.
  repeat split. exists []. rewrite app_nil_r. split; reflexivity.
Qed.

Lemma card_type_writes_app l1 l2 :
  card_type_writes (l1 ++ l2) = card_type_writes l1 ++ card_type_writes l2.
Proof. apply flat_map_app. Qed.

Lemma quiet_trans s1 s2 s3 : quiet s1 s2 -> quiet s2 s3 -> quiet s1 s3.
Proof.
  intros (A1 & B1 & l1 & C1 & D1) (A2 & B2 & l2 & C2 & D2).
  split; [congruence|]. split; [congruence|].
  exists (l1 ++ l2). rewrite C2, C1, app_assoc, card_type_writes_app, D1, D2.
  split; reflexivity.
Qed.

Lemma quiet_tick s : quiet s (disk_timerproc s).
Proof.
  destruct (tick_fields s) as (_ & L & C & _).
  split; [apply tick_keeps_NOINIT|]. split; [exact C|].
  exists []. rewrite app_nil_r. split; [exact L|reflexivity].
Qed.

Lemma quiet_emit s s' e :
  Stat s' = Stat s -> CardType s' = CardType s -> log s' = log s ++ [e] ->
  card_type_writes [e] = [] -> quiet s s'.
Proof.
  intros A B C D. split; [rewrite A; reflexivity|]. split; [exact B|].
  exists [e]. split; assumption.
Qed.

Lemma quiet_field s s' :
  Stat s' = Stat s -> CardType s' = CardType s -> log s' = log s -> quiet s s'.
Proof.
  intros A B C. split; [rewrite A; reflexivity|]. split; [exact B|].
  exists []. rewrite app_nil_r. split; [exact C|reflexivity].
Qed.

Lemma quiet_xchg miso irq dat s : quiet s (after_xchg miso irq dat s).
Proof.
  apply (rel_after_xchg quiet).
  - exact quiet_refl.
  - exact quiet_trans.
  - exact quiet_tick.
  - intros; eapply quiet_emit; reflexivity.
Qed.

(** The side conditions of the preservation lemmas, for [quiet]. *)
Ltac quiet_facts :=
  first [ exact quiet_refl | exact quiet_trans | intros; apply quiet_xchg
        | intros; eapply quiet_emit; reflexivity
        | intros; eapply quiet_field; reflexivity ].

Lemma after_xchg_CardType miso irq dat s :
  CardType (after_xchg miso irq dat s) = CardType s.
Proof. apply quiet_xchg. Qed.

Lemma after_xchg_cs miso irq dat s :
  cs_high (after_xchg miso irq dat s) = cs_high s.
Proof. unfold after_xchg. simpl. apply ticks_fields. Qed.

Lemma quiet_probe miso irq fuel : preserves quiet (probe_card miso irq fuel).
Proof. apply pres_probe_card; quiet_facts. Qed.

Lemma quiet_xchg_fill miso irq n : preserves quiet (xchg_fill miso irq n).
Proof. apply pres_xchg_fill; quiet_facts. Qed.

Lemma quiet_read miso irq fuel pdrv sector count :
  preserves quiet (disk_read miso irq fuel pdrv sector count).
Proof. apply pres_disk_read; quiet_facts. Qed.

Lemma quiet_write miso irq fuel pdrv buff sector count :
  preserves quiet (disk_write miso irq fuel pdrv buff sector count).
Proof. apply pres_disk_write; quiet_facts. Qed.

Lemma quiet_ioctl miso irq fuel pdrv cmd :
  preserves quiet (disk_ioctl miso irq fuel pdrv cmd).
Proof. apply pres_disk_ioctl; quiet_facts. Qed.

(** A finished run of [disk_initialize] that passes both guards: a quiet
    prefix, then the store to [CardType], the deselection and the hook of the
    outcome, in this order. *)
Lemma disk_initialize_run miso irq fuel s r s' :
  Z.land (Stat s) STA_NODISK = 0 ->
  disk_initialize miso irq fuel 0 s = Done r s' ->
  exists l rx,
    log s' = log s ++ l ++ [EvCardType (CardType s'); EvCS true; EvXchg 0xFF rx;
                            EvHook (if CardType s' =? 0 then PowerOff else FclkFast)] /\
    card_type_writes l = [] /\
    cs_high s' = true /\
    r = Stat s' /\
    (CardType s' <> 0 -> Z.land (Stat s') STA_NOINIT = 0) /\
    (CardType s' = 0 ->
     Z.land (Stat s') STA_NOINIT = Z.land (Stat s) STA_NOINIT).
Proof.
  intros Hnd H. unfold disk_initialize in H.
  change (negb (0 =? 0)) with false in H. cbv iota in H.
  apply bind_Done in H. destruct H as (st & s0 & H0 & H). run_inv.
  rewrite Hnd in H. change (negb (0 =? 0)) with false in H. cbv iota in H.
  unfold call, mmc_deselect, CS_HIGH in H.
  apply bind_Done in H. destruct H as (u1 & s1 & H1 & H).
  apply bind_Done in H. destruct H as (u2 & s2 & H2 & H).
  apply bind_Done in H. destruct H as (fill & s3 & H3 & H).
  apply bind_Done in H. destruct H as (ty & s4 & H4 & H).
  run_inv.
  match goal with
  | H : xchg_spi _ _ _ _ = Done _ _ |- _ =>
      rewrite xchg_spi_eq in H; inversion H; subst; clear H
  end.
  match goal with
  | H : (if _ then _ else _) _ = Done _ _ |- _ => rename H into Hhook
  end.
  assert (Q : quiet s s4).
  { eapply quiet_trans; [|eapply quiet_probe; eassumption].
    eapply quiet_trans; [|eapply quiet_xchg_fill; eassumption].
    apply (quiet_trans _ (emit (EvHook PowerOn) s));
      eapply quiet_emit; reflexivity. }
  destruct Q as (QA & QB & l & QC & QD).
  destruct (ty =? 0) eqn:Ety; cbn [negb] in Hhook; run_inv;
    set (sd := emit (EvCS true)
                 (set_cs true (emit (EvCardType ty) (set_CardType ty s4))));
    set (sx := after_xchg miso irq 255 sd);
    assert (E6 : CardType sx = ty)
      by (unfold sx; rewrite after_xchg_CardType; reflexivity);
    assert (C6 : cs_high sx = true)
      by (unfold sx; rewrite after_xchg_cs; reflexivity);
    assert (L6 : log sx = log s ++ l ++ [EvCardType ty; EvCS true;
                                         EvXchg 255 (u8 (miso (clk sd)))])
      by (unfold sx; rewrite after_xchg_log; unfold sd; simpl; rewrite QC;
          rewrite <- !app_assoc; reflexivity);
    assert (N6 : Z.land (Stat sx) STA_NOINIT = Z.land (Stat s) STA_NOINIT)
      by (rewrite <- QA; apply (quiet_xchg miso irq 255 sd));
    exists l, (u8 (miso (clk sd)));
    cbn [log emit CardType cs_high Stat set_Stat]; rewrite E6, L6, Ety;
    rewrite <- !app_assoc; cbn [app];
    repeat split; try assumption; try reflexivity;
    intros F;
    first [ assumption | apply clear_NOINIT
          | apply Z.eqb_eq in Ety; contradiction
          | apply Z.eqb_neq in Ety; contradiction ].
Qed.

(** ** Multiple block write *)

Lemma block_ptr_S buff k : block_ptr (advance buff 512) k = block_ptr buff (S k).
Proof. unfold block_ptr. symmetry. apply Nat.iter_succ_r. Qed.

Lemma sent_app l1 l2 : sent (l1 ++ l2) = sent l1 ++ sent l2.
Proof. apply flat_map_app. Qed.

(** The burst send puts the first [cnt] bytes of the buffer on the bus. *)
Lemma xmit_spi_multi_loop_log miso irq : forall n f buff s u s',
  Z.of_nat (S n) < 4294967296 ->
  xmit_spi_multi_loop miso irq f buff (Z.of_nat (S n)) s = Done u s' ->
  exists l,
    log s' = log s ++ l /\
    sent l = map (fun i => u8 (buff i)) (seq 0 (S n)).
Proof.
  induction n as [|n IH]; intros f buff s u s' Hn H;
    (destruct f as [|f]; [discriminate H|]);
    cbn [xmit_spi_multi_loop] in H; bind_inv H x s1 Hx; xchg_inv Hx.
  - change (u32 (Z.of_nat 1 - 1) =? 0) with true in H. cbv iota in H.
    ret_inv H. rewrite after_xchg_log. eexists. split; reflexivity.
  - assert (E : u32 (Z.of_nat (S (S n)) - 1) = Z.of_nat (S n)).
    { unfold u32. rewrite Z.mod_small by lia. lia. }
    rewrite E in H.
    destruct (Z.eqb_spec (Z.of_nat (S n)) 0) as [Z0|_]; [lia|].
    destruct (IH _ _ _ _ _ ltac:(lia) H) as (l & L & S1).
    rewrite after_xchg_log in L.
    exists (EvXchg (u8 (buff 0%nat)) (u8 (miso (clk s))) :: l).
    split; [rewrite L, <- app_assoc; reflexivity|].
    change (sent (?e :: l)) with (u8 (buff 0%nat) :: sent l). rewrite S1.
    change (seq 0 (S (S n))) with (0%nat :: seq 1 (S n)).
    cbn [map]. f_equal. rewrite <- seq_shift, map_map. apply map_ext.
    intros i. unfold advance. f_equal. f_equal. lia.
Qed.

(** What a call of [xmit_datablock] with a data token does. *)
Lemma xmit_datablock_frame miso irq fuel buff token s ok s' :
  token <> 0xFD ->
  xmit_datablock miso irq fuel buff token s = Done ok s' ->
  (ok = false /\ wait_ready miso irq fuel s = Done false s') \/
  exists resp,
    frame_sent miso irq fuel buff token s s' resp /\
    ok = (Z.land resp 0x1F =? 0x05).
Proof.
  intros Ht H. unfold xmit_datablock in H. bind_inv H r sw Hw.
  destruct r; cbn [negb] in H.
  - right. bind_inv H rt s1 Hx. xchg_inv Hx.
    apply Z.eqb_neq in Ht. rewrite Ht in H. cbn [negb] in H.
    bind_inv H u s2 Hd. bind_inv H c1 s3 H1. bind_inv H c2 s4 H2.
    bind_inv H resp s5 H3.
    xchg_inv H1. xchg_inv H2. xchg_inv H3.
    unfold xmit_spi_multi in Hd.
    destruct (xmit_spi_multi_loop_log miso irq 511 fuel buff _ u s2
                ltac:(lia) Hd) as (l & L & S1).
    rewrite after_xchg_log in L.
    set (resp := u8 (miso (clk (after_xchg miso irq 255
                                   (after_xchg miso irq 255 s2))))) in *.
    exists resp. split.
    + exists sw, (u8 (miso (clk sw))),
        (l ++ [EvXchg 255 (u8 (miso (clk s2)));
               EvXchg 255 (u8 (miso (clk (after_xchg miso irq 255 s2))))]).
      split; [exact Hw|]. split.
      * assert (E : s' = after_xchg miso irq 255
                           (after_xchg miso irq 255 (after_xchg miso irq 255 s2))).
        { destruct (negb (Z.land resp 31 =? 5)); ret_inv H; reflexivity. }
        rewrite E, !after_xchg_log, L. fold resp.
        rewrite <- !app_assoc. reflexivity.
      * rewrite sent_app, S1. reflexivity.
    + destruct (Z.land resp 31 =? 5); cbn [negb] in H; ret_inv H; reflexivity.
  - left. ret_inv H. split; [reflexivity|exact Hw].
Qed.

(** The loop of the multiple block write sends blocks as long as they are
    accepted and the count is not used up. *)
Lemma disk_write_loop_run miso irq fuel : forall f buff count s c s',
  0 < count < 4294967296 ->
  disk_write_loop miso irq fuel f buff count s = Done c s' ->
  exists k sk,
    accepted miso irq fuel k buff s sk /\
    Z.of_nat k <= count /\
    (Z.of_nat k = count -> c = 0 /\ s' = sk) /\
    (Z.of_nat k < count ->
     c = count - Z.of_nat k /\
     xmit_datablock miso irq fuel (block_ptr buff k) 0xFC sk = Done false s' /\
     block_refused miso irq fuel (block_ptr buff k) sk s').
Proof.
  induction f as [|f IH]; intros buff count s c s' Hc H; [discriminate H|].
  cbn [disk_write_loop] in H. bind_inv H ok s1 H1.
  pose proof (xmit_datablock_frame miso irq fuel buff 0xFC s ok s1
                ltac:(discriminate) H1) as F.
  destruct ok; cbn [negb] in H.
  - assert (BA : block_accepted miso irq fuel buff s s1).
    { destruct F as [(F & _)|(resp & F1 & F2)]; [discriminate F|].
      exists resp. split; [exact F1|]. symmetry in F2. apply Z.eqb_eq, F2. }
    assert (E : u32 (count - 1) = count - 1)
      by (unfold u32; apply Z.mod_small; lia).
    rewrite E in H. destruct (Z.eqb_spec (count - 1) 0) as [Z0|NZ].
    + ret_inv H. exists 1%nat, s'. split; [|split; [lia|split]].
      * eapply accepted_S; [exact H1|exact BA|constructor].
      * intros _. split; [lia|reflexivity].
      * intros G. lia.
    + destruct (IH _ _ _ _ _ (ltac:(lia) : 0 < count - 1 < 4294967296) H)
        as (k & sk & A & B & C & D).
      exists (S k), sk. split; [|split; [lia|split]].
      * eapply accepted_S; eassumption.
      * intros G. apply C. lia.
      * intros G. rewrite <- block_ptr_S.
        destruct D as (D1 & D2 & D3); [lia|]. split; [lia|split; assumption].
  - ret_inv H. exists 0%nat, s. split; [constructor|]. split; [simpl; lia|]. split.
    + simpl. intros G. lia.
    + intros _. split; [simpl; lia|]. split; [exact H1|].
      destruct F as [(_ & F)|(resp & F1 & F2)]; [left; exact F|right].
      exists resp. split; [exact F1|]. symmetry in F2. apply Z.eqb_neq, F2.
Qed.

Lemma xmit_datablock_stop miso irq fuel buff s ok s' :
  xmit_datablock miso irq fuel buff 0xFD s = Done ok s' ->
  exists sw,
    wait_ready miso irq fuel s = Done ok sw /\
    s' = (if ok then after_xchg miso irq 0xFD sw else sw).
Proof.
  intros H. unfold xmit_datablock in H.
  apply bind_Done in H. destruct H as (r & sw & H1 & H2).
  destruct r; cbn [negb] in H2.
  - change (negb (253 =? 253)) with false in H2. cbv iota in H2.
    apply bind_Done in H2. destruct H2 as (x & s1 & H2 & H3).
    rewrite xchg_spi_eq in H2. inversion H2; subst. run_inv.
    exists sw. split; [exact H1|reflexivity].
  - run_inv. exists s'. split; [exact H1|reflexivity].
Qed.

(** ** Decoding of the CSD *)

Lemma nth_is_byte csd i : Forall is_byte csd -> is_byte (nth i csd 0).
Proof.
  intros H. destruct (Nat.lt_ge_cases i (length csd)) as [L|L].
  - apply Forall_nth; assumption.
  - rewrite nth_overflow by exact L. unfold is_byte. lia.
Qed.

Lemma land_low b n : 0 <= n -> 0 <= Z.land b (Z.ones n) < 2 ^ n.
Proof.
  intros Hn. rewrite Z.land_ones by exact Hn. apply Z.mod_pos_bound.
  apply Z.pow_pos_nonneg; lia.
Qed.

Lemma bit7 b : 0 <= Z.shiftr (Z.land b 128) 7 <= 1.
Proof.
  rewrite Z.shiftr_land. change (Z.shiftr 128 7) with (Z.ones 1).
  pose proof (land_low (Z.shiftr b 7) 1 ltac:(lia)) as H.
  change (2 ^ 1) with 2 in H. lia.
Qed.

Lemma shl32_small x k :
  0 <= k < 32 -> 0 <= x -> x * 2 ^ k < 4294967296 ->
  shl32 x k = Some (Z.shiftl x k).
Proof.
  intros Hk Hx Hb. unfold shl32.
  replace ((0 <=? k) && (k <? 32)) with true
    by (symmetry; apply andb_true_intro; split;
        [apply Z.leb_le|apply Z.ltb_lt]; lia).
  rewrite Z.shiftl_mul_pow2 by lia. unfold u32.
  rewrite Z.mod_small; [reflexivity|]. split; [|exact Hb].
  apply Z.mul_nonneg_nonneg; [exact Hx|]. apply Z.pow_nonneg. lia.
Qed.

(** The size field of a version 1 CSD and the operand of the final shift. *)
Lemma csd_v1_operand b7 b8 b9 :
  is_byte b7 -> is_byte b8 -> is_byte b9 ->
  u32 (b9 + Z.shiftl (u16 b8) 8 + u32 (Z.shiftl (u32 (Z.land b7 63)) 16) + 1)
  = b9 + Z.shiftl b8 8 + Z.shiftl (Z.land b7 63) 16 + 1 /\
  0 < b9 + Z.shiftl b8 8 + Z.shiftl (Z.land b7 63) 16 + 1 <= 4194304 /\
  (Z.land b7 63 <> 63 \/ b8 <> 255 \/ b9 <> 255 ->
   b9 + Z.shiftl b8 8 + Z.shiftl (Z.land b7 63) 16 + 1 < 4194304).
Proof.
  unfold is_byte. intros H7 H8 H9.
  pose proof (land_low b7 6 ltac:(lia)) as L. change (Z.ones 6) with 63 in L.
  change (2 ^ 6) with 64 in L.
  rewrite !Z.shiftl_mul_pow2 by lia. change (2 ^ 8) with 256.
  change (2 ^ 16) with 65536.
  unfold u16, u32.
  rewrite (Z.mod_small b8) by lia.
  rewrite (Z.mod_small (Z.land b7 63)) by lia.
  rewrite (Z.mod_small (Z.land b7 63 * 65536)) by lia.
  rewrite Z.mod_small by lia. repeat split; lia.
Qed.

Lemma csd_v0_operand b6 b7 b8 :
  is_byte b6 -> is_byte b7 -> is_byte b8 ->
  u32 (Z.shiftr b8 6 + Z.shiftl (u16 b7) 2 + Z.shiftl (u16 (Z.land b6 3)) 10 + 1)
  = Z.shiftr b8 6 + Z.shiftl b7 2 + Z.shiftl (Z.land b6 3) 10 + 1 /\
  0 < Z.shiftr b8 6 + Z.shiftl b7 2 + Z.shiftl (Z.land b6 3) 10 + 1 <= 4096.
Proof.
  unfold is_byte. intros H6 H7 H8.
  pose proof (land_low b6 2 ltac:(lia)) as L. change (Z.ones 2) with 3 in L.
  change (2 ^ 2) with 4 in L.
  rewrite !Z.shiftl_mul_pow2, !Z.shiftr_div_pow2 by lia.
  change (2 ^ 2) with 4. change (2 ^ 10) with 1024. change (2 ^ 6) with 64.
  assert (D : 0 <= b8 / 64 < 4).
  { split; [apply Z.div_pos; lia|]. apply Z.div_lt_upper_bound; lia. }
  unfold u16, u32.
  rewrite (Z.mod_small b7) by lia.
  rewrite (Z.mod_small (Z.land b6 3)) by lia.
  rewrite Z.mod_small by lia. repeat split; lia.
Qed.

Lemma spec_n_range csd : Forall is_byte csd -> 2 <= spec_n csd <= 24.
Proof.
  intros H. unfold spec_n.
  pose proof (land_low (nth 5 csd 0) 4 ltac:(lia)) as L5.
  change (Z.ones 4) with 15 in L5. change (2 ^ 4) with 16 in L5.
  pose proof (land_low (nth 9 csd 0) 2 ltac:(lia)) as L9.
  change (Z.ones 2) with 3 in L9. change (2 ^ 2) with 4 in L9.
  pose proof (bit7 (nth 10 csd 0)) as L10.
  rewrite Z.shiftl_mul_pow2 by lia. change (2 ^ 1) with 2. lia.
Qed.

(** The bytes a finished burst receive returns are those of the card. *)
Lemma rcvr_spi_multi_loop_Done miso irq : forall f cnt s l s',
  rcvr_spi_multi_loop miso irq f cnt s = Done l s' ->
  l = received miso (clk s) (length l) /\ (0 < length l)%nat.
Proof.
  induction f as [|f IH]; intros cnt s l s' H; [discriminate H|].
  cbn [rcvr_spi_multi_loop] in H. bind_inv H d s1 Hx. xchg_inv Hx.
  destruct (u32 (cnt - 1) =? 0).
  - ret_inv H. cbn [length]. rewrite received_cons.
    split; [reflexivity|lia].
  - bind_inv H l1 s2 Hl. ret_inv H.
    destruct (IH _ _ _ _ Hl) as (E & _). rewrite after_xchg_clk in E.
    cbn [length]. rewrite received_cons, <- E. split; [reflexivity|lia].
Qed.

Lemma received_bytes miso from n : Forall is_byte (received miso from n).
Proof.
  unfold received. apply Forall_forall. intros x Hx.
  apply in_map_iff in Hx. destruct Hx as (i & <- & _).
  unfold is_byte, u8. apply Z.mod_pos_bound. lia.
Qed.

Lemma rcvr_spi_multi_loop_length miso irq : forall f cnt s l s',
  0 < cnt < 4294967296 ->
  rcvr_spi_multi_loop miso irq f cnt s = Done l s' ->
  Z.of_nat (length l) = cnt.
Proof.
  induction f as [|f IH]; intros cnt s l s' Hc H; [discriminate H|].
  cbn [rcvr_spi_multi_loop] in H. bind_inv H d s1 Hx.
  assert (E : u32 (cnt - 1) = cnt - 1)
    by (unfold u32; apply Z.mod_small; lia).
  rewrite E in H. destruct (Z.eqb_spec (cnt - 1) 0) as [Z0|NZ].
  - ret_inv H. cbn [length]. lia.
  - bind_inv H l1 s2 Hl. ret_inv H.
    pose proof (IH (cnt - 1) _ _ _ ltac:(lia) Hl). cbn [length]. lia.
Qed.

Lemma rcvr_datablock_Done miso irq fuel btr s l s' :
  0 < btr < 4294967296 ->
  rcvr_datablock miso irq fuel btr s = Done (Some l) s' ->
  exists from, l = received miso from (Z.to_nat btr).
Proof.
  intros Hb H. unfold rcvr_datablock in H. bind_inv H u s1 H1.
  bind_inv H token s2 H2. destruct (negb (token =? 254)); [ret_inv H; discriminate|].
  bind_inv H buff s3 H3. bind_inv H c1 s4 H4. bind_inv H c2 s5 H5. ret_inv H.
  match goal with E : Some _ = Some _ |- _ => inversion E; subst end.
  exists (clk s2). unfold rcvr_spi_multi in H3.
  pose proof (rcvr_spi_multi_loop_length _ _ _ _ _ _ _ Hb H3) as L.
  replace (Z.to_nat btr) with (length l) by lia.
  eapply rcvr_spi_multi_loop_Done. exact H3.
Qed.

(** ** The command layer unfolded *)

Lemma send_cmd_rec_S miso irq fuel d cmd arg :
  send_cmd_rec miso irq fuel (S d) cmd arg
  = if negb (Z.land cmd 0x80 =? 0) then
      (res <- send_cmd_rec miso irq fuel d CMD55 0 ;;
       if 1 <? res then ret res
       else send_cmd_packet miso irq fuel (Z.land cmd 0x7F) arg)
    else send_cmd_packet miso irq fuel cmd arg.
Proof. reflexivity. Qed.

(** With a budget of two, [send_cmd] is the prefix followed by the packet. *)
Lemma send_cmd_eq miso irq fuel cmd arg :
  (2 <= fuel)%nat ->
  send_cmd miso irq fuel cmd arg
  = if negb (Z.land cmd 0x80 =? 0) then
      (res <- send_cmd_packet miso irq fuel CMD55 0 ;;
       if 1 <? res then ret res
       else send_cmd_packet miso irq fuel (Z.land cmd 0x7F) arg)
    else send_cmd_packet miso irq fuel cmd arg.
Proof.
  intros Hf. unfold send_cmd.
  replace fuel with (S (S (fuel - 2))) at 2 by lia.
  generalize (fuel - 2)%nat. intros d.
  rewrite send_cmd_rec_S. destruct (negb (Z.land cmd 128 =? 0)); [|reflexivity].
  rewrite send_cmd_rec_S. reflexivity.
Qed.

(** ** The bytes of a command packet *)

Lemma send_cmd_resp_sent miso irq : forall f n s r s',
  send_cmd_resp miso irq f n s = Done r s' ->
  exists l k, log s' = log s ++ l /\ sent l = repeat 0xFF (S k).
Proof.
  induction f as [|f IH]; intros n s r s' H; [discriminate H|].
  cbn [send_cmd_resp] in H. bind_inv H res s1 Hx. xchg_inv Hx.
  assert (One : exists l k,
            log (after_xchg miso irq 255 s) = log s ++ l /\
            sent l = repeat 255 (S k)).
  { exists [EvXchg 255 (u8 (miso (clk s)))], 0%nat.
    rewrite after_xchg_log. split; reflexivity. }
  destruct (negb (Z.land (u8 (miso (clk s))) 128 =? 0));
    [|ret_inv H; exact One].
  destruct (negb (u8 (n - 1) =? 0)); [|ret_inv H; exact One].
  destruct (IH _ _ _ _ H) as (l & k & L & S1).
  rewrite after_xchg_log in L.
  exists (EvXchg 255 (u8 (miso (clk s))) :: l), (S k).
  split; [rewrite L, <- app_assoc; reflexivity|].
  change (sent (?e :: l)) with (255 :: sent l). rewrite S1. reflexivity.
Qed.

(** The six bytes of the packet of command [cmd] with argument [arg]. *)
Lemma send_cmd_packet_bytes miso irq fuel cmd arg s res s' :
  cmd <> CMD12 ->
  send_cmd_packet miso irq fuel cmd arg s = Done res s' ->
  exists sel s1,
    bind (mmc_deselect miso irq) (fun _ => mmc_select miso irq fuel) s
    = Done sel s1 /\
    (sel = false -> res = 0xFF /\ s' = s1) /\
    (sel = true ->
     exists l k,
       log s' = log s1 ++ l /\
       sent l = [u8 (Z.lor 0x40 cmd); u8 (u8 (Z.shiftr arg 24));
                 u8 (u8 (Z.shiftr arg 16)); u8 (u8 (Z.shiftr arg 8));
                 u8 (u8 arg);
                 u8 (if cmd =? CMD8 then 0x87
                     else if cmd =? CMD0 then 0x95 else 0x01)]
                ++ repeat 0xFF (S k)).
Proof.
  intros Hc H. unfold send_cmd_packet in H.
  apply Z.eqb_neq in Hc. rewrite Hc in H. cbn [negb] in H.
  bind_inv H sel s1 Hsel. exists sel, s1. split; [exact Hsel|].
  destruct sel; cbn [negb] in H.
  - split; [discriminate|]. intros _.
    do 6 xchg_step H. bind_inv H u t E. ret_inv E.
    destruct (send_cmd_resp_sent _ _ _ _ _ _ _ H) as (l & k & L & S1).
    repeat rewrite after_xchg_log in L. rewrite <- !app_assoc in L.
    eexists. exists k. split; [exact L|].
    cbn [app]. cbn [sent flat_map app]. fold (sent l). rewrite S1.
    reflexivity.
  - split; [|discriminate]. intros _. ret_inv H. split; reflexivity.
Qed.

(** ** Timer1 between two arms *)

Lemma elapsed_add irq k a b :
  elapsed irq k (a + b) = (elapsed irq k a + elapsed irq (k + a) b)%nat.
Proof.
  induction b as [|b IH].
  - rewrite Nat.add_0_r. simpl. lia.
  - replace (a + S b)%nat with (S (a + b)) by lia. cbn [elapsed].
    rewrite IH. replace (k + (a + b))%nat with (k + a + b)%nat by lia. lia.
Qed.

Lemma timer1_runs_refl irq s : timer1_runs irq s s.
Proof.
  split; [lia|]. intros H. rewrite Nat.sub_diag. simpl. lia.
Qed.

Lemma timer1_runs_trans irq s1 s2 s3 :
  timer1_runs irq s1 s2 -> timer1_runs irq s2 s3 -> timer1_runs irq s1 s3.
Proof.
  intros (C1 & T1) (C2 & T2). split; [lia|]. intros H.
  specialize (T1 H). rewrite T2 by lia. rewrite T1.
  replace (clk s3 - clk s1)%nat with ((clk s2 - clk s1) + (clk s3 - clk s2))%nat
    by lia.
  rewrite elapsed_add.
  replace (clk s1 + (clk s2 - clk s1))%nat with (clk s2) by lia. lia.
Qed.

Lemma timer1_runs_after miso irq s dat :
  timer1_runs irq s (after_xchg miso irq dat s).
Proof.
  split; [rewrite after_xchg_clk; lia|]. intros H.
  rewrite after_xchg_Timer1, after_xchg_clk by exact H.
  replace (S (clk s) - clk s)%nat with 1%nat by lia.
  cbn [elapsed]. rewrite Nat.add_0_r. reflexivity.
Qed.

Lemma timer1_runs_field irq s s' :
  clk s' = clk s -> Timer1 s' = Timer1 s -> timer1_runs irq s s'.
Proof.
  intros C T. split; [lia|]. intros H. rewrite C, T, Nat.sub_diag. simpl. lia.
Qed.

(** The side conditions of the preservation lemmas, for [timer1_runs]. *)
Ltac timer1_facts :=
  first [ apply timer1_runs_refl | apply timer1_runs_trans
        | intros; apply timer1_runs_after
        | intros; apply timer1_runs_field; reflexivity ].

Lemma timer1_runs_send_cmd miso irq fuel cmd arg :
  preserves (timer1_runs irq) (send_cmd miso irq fuel cmd arg).
Proof. apply pres_send_cmd; timer1_facts. Qed.

Lemma timer1_runs_xchg_fill miso irq n :
  preserves (timer1_runs irq) (xchg_fill miso irq n).
Proof. apply pres_xchg_fill; timer1_facts. Qed.

Lemma timer1_runs_mmc_select miso irq fuel :
  preserves (timer1_runs irq) (mmc_select miso irq fuel).
Proof. apply pres_mmc_select; timer1_facts. Qed.

Lemma timer1_runs_send_cmd_resp miso irq f n :
  preserves (timer1_runs irq) (send_cmd_resp miso irq f n).
Proof. apply pres_send_cmd_resp; timer1_facts. Qed.

Lemma timer1_runs_range irq s s' :
  timer1_runs irq s s' -> 0 <= Timer1 s < 4294967296 ->
  0 <= Timer1 s' < 4294967296.
Proof. intros (_ & T) H. rewrite (T H). lia. Qed.

(** Every command packet makes at least one exchange. *)
Lemma send_cmd_packet_progress miso irq fuel cmd arg s r s' :
  send_cmd_packet miso irq fuel cmd arg s = Done r s' ->
  (clk s < clk s')%nat.
Proof.
  intros H. unfold send_cmd_packet in H.
  destruct (cmd =? CMD12); cbn [negb] in H; bind_inv H sel s1 Hsel.
  - ret_inv Hsel. cbn [negb] in H. do 6 xchg_step H.
    bind_inv H u t E. xchg_step E. ret_inv E.
    pose proof (timer1_runs_send_cmd_resp _ _ _ _ _ _ _ H) as (C & _).
    repeat rewrite after_xchg_clk in C. lia.
  - bind_inv Hsel u s2 Hd. unfold mmc_deselect, CS_HIGH in Hd.
    bind_inv Hd u1 s3 H1. apply modify_Done in H1. subst s3.
    xchg_step Hd. ret_inv Hd.
    pose proof (timer1_runs_mmc_select _ _ _ _ _ _ Hsel) as (C1 & _).
    rewrite after_xchg_clk in C1. simpl in C1.
    destruct (negb sel); [ret_inv H; lia|].
    do 6 xchg_step H. bind_inv H u0 t E. ret_inv E.
    pose proof (timer1_runs_send_cmd_resp _ _ _ _ _ _ _ H) as (C & _).
    repeat rewrite after_xchg_clk in C. lia.
Qed.

Lemma send_cmd_rec_progress miso irq fuel : forall d cmd arg s r s',
  send_cmd_rec miso irq fuel d cmd arg s = Done r s' -> (clk s < clk s')%nat.
Proof.
  induction d as [|d IH]; intros cmd arg s r s' H; [discriminate H|].
  rewrite send_cmd_rec_S in H. destruct (negb (Z.land cmd 128 =? 0)).
  - bind_inv H res s1 H1. apply IH in H1.
    destruct (1 <? res); [ret_inv H; exact H1|].
    apply send_cmd_packet_progress in H. lia.
  - eapply send_cmd_packet_progress, H.
Qed.

(** ** Runs that finish *)

Lemma finishes_ret {A} (a : A) s : finishes (fun _ => ret a) s.
Proof. exists 0%nat, a, s. reflexivity. Qed.

Lemma finishes_const {A} (m : M A) s a s' :
  m s = Done a s' -> finishes (fun _ => m) s.
Proof. intros H. exists 0%nat, a, s'. intros _ _. exact H. Qed.

Lemma finishes_bind {A B} (m : nat -> M A) (k : nat -> A -> M B) s :
  finishes m s ->
  (forall f a s1, m f s = Done a s1 -> finishes (fun f => k f a) s1) ->
  finishes (fun f => bind (m f) (k f)) s.
Proof.
  intros (f0 & a & s1 & Hm) Hk.
  destruct (Hk f0 a s1 (Hm f0 (le_n _))) as (f1 & b & s2 & Hk1).
  exists (Nat.max f0 f1), b, s2. intros f Hf. unfold bind.
  rewrite Hm by lia. apply Hk1. lia.
Qed.

Lemma finishes_ext {A} (m m' : nat -> M A) s f1 :
  (forall f, (f1 <= f)%nat -> m f s = m' f s) ->
  finishes m' s -> finishes m s.
Proof.
  intros E (f0 & a & s' & H). exists (Nat.max f0 f1), a, s'. intros f Hf.
  rewrite E by lia. apply H. lia.
Qed.

Lemma finishes_xchg miso irq dat s : finishes (fun _ => xchg_spi miso irq dat) s.
Proof. eapply finishes_const. apply xchg_spi_eq. Qed.

Lemma finishes_modify g s : finishes (fun _ => modify g) s.
Proof. eapply finishes_const. reflexivity. Qed.

Lemma finishes_gets {A} (g : state -> A) s : finishes (fun _ => gets g) s.
Proof. eapply finishes_const. reflexivity. Qed.

Create HintDb fin.
#[export] Hint Resolve finishes_xchg finishes_modify finishes_gets : fin.
#[export] Hint Extern 1 (finishes (fun _ => ret _) _) => apply finishes_ret : fin.

(** One step of a proof that a composite run finishes. *)
Ltac fin_step :=
  match goal with
  | |- finishes (fun _ => ret _) _ => apply finishes_ret
  | |- finishes (fun f => bind _ _) _ =>
      apply finishes_bind; [ | intros ? ? ? ? ]
  | |- finishes (fun f => if ?b then _ else _) _ => destruct b
  | |- finishes (fun f => match ?x with _ => _ end) _ => destruct x
  | |- finishes _ _ => unfold CS_HIGH, CS_LOW, call; solve [auto with fin]
  end.
Ltac fin_auto := repeat fin_step.

(** Below a bound, the first index with a decidable property, or the bound. *)
Lemma first_or_bound (P : nat -> Prop) (dec : forall i, {P i} + {~ P i}) n0 :
  exists n, (n <= n0)%nat /\ (forall i, (i < n)%nat -> ~ P i) /\ (P n \/ n = n0).
Proof.
  induction n0 as [|n0 (n & Hle & Hbelow & Hn)].
  - exists 0%nat. split; [lia|]. split; [intros i Hi; lia|right; reflexivity].
  - destruct Hn as [Hn|Hn].
    + exists n. split; [lia|]. split; [exact Hbelow|left; exact Hn].
    + subst n. destruct (dec n0) as [Y|N].
      * exists n0. split; [lia|]. split; [exact Hbelow|left; exact Y].
      * exists (S n0). split; [lia|]. split; [|right; reflexivity].
        intros i Hi. destruct (Nat.eq_dec i n0) as [->|]; [exact N|].
        apply Hbelow. lia.
Qed.

Section Termination.

Variable miso : nat -> Z.
Variable irq : nat -> nat.
Hypothesis irq_live : live irq.

Lemma wait_ready_loop_finishes s :
  0 < Timer2 s < 4294967296 ->
  finishes (fun f => wait_ready_loop miso irq f) s.
Proof.
  intros HT.
  destruct (first_expiry irq (clk s) (Z.to_nat (Timer2 s)))
    as (n0 & A & B); [lia|apply irq_live|].
  destruct (first_or_bound (fun i => u8 (miso (clk s + i)%nat) = 255)
              (fun i => Z.eq_dec _ _) n0) as (n & Hle & Hbelow & Hn).
  pose proof (elapsed_mono irq (clk s) n n0 Hle) as Hmono.
  assert (Hexit : u8 (miso (clk s + n)%nat) = 255 \/
                  Timer2 s <= Z.of_nat (elapsed irq (clk s) (S n))).
  { destruct Hn as [Hn|Hn]; [left; exact Hn|right]. subst n. lia. }
  destruct (wait_ready_loop_exit miso irq n s) as (s' & R1 & _);
    try assumption; try lia.
  exists (S n), (u8 (miso (clk s + n)%nat)), s'. intros f Hf. apply R1. lia.
Qed.

Lemma wait_ready_finishes s : finishes (fun f => wait_ready miso irq f) s.
Proof.
  unfold wait_ready. fin_step; [auto with fin|].
  apply modify_Done in H. subst.
  fin_step; [|fin_auto].
  apply wait_ready_loop_finishes. simpl. lia.
Qed.

Lemma mmc_deselect_finishes s : finishes (fun _ => mmc_deselect miso irq) s.
Proof. unfold mmc_deselect. fin_auto. Qed.

#[local] Hint Resolve wait_ready_finishes mmc_deselect_finishes : fin.

Lemma mmc_select_finishes s : finishes (fun f => mmc_select miso irq f) s.
Proof. unfold mmc_select. fin_auto. Qed.

Lemma rcvr_datablock_loop_finishes s :
  0 < Timer1 s < 4294967296 ->
  finishes (fun f => rcvr_datablock_loop miso irq f) s.
Proof.
  intros HT.
  destruct (first_expiry irq (clk s) (Z.to_nat (Timer1 s)))
    as (n0 & A & B); [lia|apply irq_live|].
  destruct (first_or_bound (fun i => u8 (miso (clk s + i)%nat) <> 255)
              (fun i => match Z.eq_dec (u8 (miso (clk s + i)%nat)) 255 with
                        | left e => right (fun ne => ne e)
                        | right ne => left ne
                        end) n0) as (n & Hle & Hbelow & Hn).
  pose proof (elapsed_mono irq (clk s) n n0 Hle) as Hmono.
  assert (Hexit : u8 (miso (clk s + n)%nat) <> 255 \/
                  Timer1 s <= Z.of_nat (elapsed irq (clk s) (S n))).
  { destruct Hn as [Hn|Hn]; [left; exact Hn|right]. subst n. lia. }
  destruct (rcvr_datablock_loop_exit miso irq n s) as (s' & R1 & _);
    try assumption; try lia.
  { intros i Hi. specialize (Hbelow i Hi).
    destruct (Z.eq_dec (u8 (miso (clk s + i)%nat)) 255); [assumption|].
    contradiction. }
  exists (S n), (u8 (miso (clk s + n)%nat)), s'. intros f Hf. apply R1. lia.
Qed.

Lemma rcvr_spi_multi_finishes cnt s :
  0 < cnt < 4294967296 ->
  finishes (fun f => rcvr_spi_multi miso irq f cnt) s.
Proof.
  intros Hc. unfold rcvr_spi_multi.
  destruct (rcvr_spi_multi_loop_run miso irq (Z.to_nat cnt - 1) s)
    as (s' & R & _); [lia|].
  replace (Z.of_nat (S (Z.to_nat cnt - 1))) with cnt in R by lia.
  exists (S (Z.to_nat cnt - 1)), (received miso (clk s) (S (Z.to_nat cnt - 1))), s'.
  intros f Hf. apply R. lia.
Qed.

Lemma xmit_spi_multi_loop_run : forall n buff s,
  Z.of_nat (S n) < 4294967296 ->
  exists s', forall f, (n < f)%nat ->
    xmit_spi_multi_loop miso irq f buff (Z.of_nat (S n)) s = Done tt s'.
Proof.
  induction n as [|n IH]; intros buff s Hn.
  - exists (after_xchg miso irq (buff 0%nat) s).
    intros f Hf. destruct f as [|f]; [lia|].
    cbn [xmit_spi_multi_loop]. unfold bind at 1. rewrite xchg_spi_eq.
    change (u32 (Z.of_nat 1 - 1) =? 0) with true. reflexivity.
  - assert (E : u32 (Z.of_nat (S (S n)) - 1) = Z.of_nat (S n)).
    { unfold u32. rewrite Z.mod_small by lia. lia. }
    destruct (IH (advance buff 1) (after_xchg miso irq (buff 0%nat) s))
      as (s' & R); [lia|].
    exists s'. intros f Hf. destruct f as [|f]; [lia|].
    cbn [xmit_spi_multi_loop]. unfold bind at 1. rewrite xchg_spi_eq.
    rewrite E.
    destruct (Z.eqb_spec (Z.of_nat (S n)) 0) as [Z0|_]; [lia|].
    apply R. lia.
Qed.

Lemma xmit_spi_multi_finishes buff cnt s :
  0 < cnt < 4294967296 ->
  finishes (fun f => xmit_spi_multi miso irq f buff cnt) s.
Proof.
  intros Hc. unfold xmit_spi_multi.
  destruct (xmit_spi_multi_loop_run (Z.to_nat cnt - 1) buff s) as (s' & R); [lia|].
  replace (Z.of_nat (S (Z.to_nat cnt - 1))) with cnt in R by lia.
  exists (S (Z.to_nat cnt - 1)), tt, s'. intros f Hf. apply R. lia.
Qed.

Lemma xchg_fill_finishes n s : finishes (fun _ => xchg_fill miso irq n) s.
Proof.
  revert s. induction n as [|n IH]; intros s; cbn [xchg_fill]; fin_auto.
Qed.

#[local] Hint Resolve mmc_select_finishes xchg_fill_finishes : fin.

Lemma rcvr_datablock_finishes btr s :
  0 < btr < 4294967296 ->
  finishes (fun f => rcvr_datablock miso irq f btr) s.
Proof.
  intros Hb. unfold rcvr_datablock. fin_step; [auto with fin|].
  apply modify_Done in H. subst.
  fin_step; [apply rcvr_datablock_loop_finishes; simpl; lia|].
  fin_step; [fin_auto|].
  fin_step; [apply rcvr_spi_multi_finishes, Hb|]. fin_auto.
Qed.

Lemma xmit_datablock_finishes buff token s :
  finishes (fun f => xmit_datablock miso irq f buff token) s.
Proof.
  unfold xmit_datablock. fin_step; [auto with fin|].
  fin_step; [fin_auto|].
  fin_step; [auto with fin|].
  fin_step; [|fin_auto].
  fin_step; [apply xmit_spi_multi_finishes; lia|]. fin_auto.
Qed.

(** The response poll makes at most [n] exchanges. *)
Lemma send_cmd_resp_run : forall k s,
  Z.of_nat (S k) < 256 ->
  exists r s', forall f, (k < f)%nat ->
    send_cmd_resp miso irq f (Z.of_nat (S k)) s = Done r s'.
Proof.
  induction k as [|k IH]; intros s Hk.
  - exists (u8 (miso (clk s))), (after_xchg miso irq 255 s).
    intros f Hf. destruct f as [|f]; [lia|].
    cbn [send_cmd_resp]. unfold bind at 1. rewrite xchg_spi_eq.
    change (u8 (Z.of_nat 1 - 1)) with 0. change (negb (0 =? 0)) with false.
    destruct (negb (Z.land (u8 (miso (clk s))) 128 =? 0)); reflexivity.
  - assert (E : u8 (Z.of_nat (S (S k)) - 1) = Z.of_nat (S k)).
    { unfold u8. rewrite Z.mod_small by lia. lia. }
    destruct (IH (after_xchg miso irq 255 s)) as (r & s' & R); [lia|].
    destruct (negb (Z.land (u8 (miso (clk s))) 128 =? 0)) eqn:C.
    + exists r, s'. intros f Hf. destruct f as [|f]; [lia|].
      cbn [send_cmd_resp]. unfold bind at 1. rewrite xchg_spi_eq.
      rewrite C, E.
      destruct (Z.eqb_spec (Z.of_nat (S k)) 0) as [Z0|_]; [lia|].
      cbn [negb]. apply R. lia.
    + exists (u8 (miso (clk s))), (after_xchg miso irq 255 s).
      intros f Hf. destruct f as [|f]; [lia|].
      cbn [send_cmd_resp]. unfold bind at 1. rewrite xchg_spi_eq.
      rewrite C. reflexivity.
Qed.

Lemma send_cmd_resp_finishes s :
  finishes (fun f => send_cmd_resp miso irq f 10) s.
Proof.
  destruct (send_cmd_resp_run 9 s) as (r & s' & R); [simpl; lia|].
  exists 10%nat, r, s'. intros f Hf. apply R. lia.
Qed.

#[local] Hint Resolve rcvr_datablock_finishes xmit_datablock_finishes
  send_cmd_resp_finishes : fin.

Lemma send_cmd_packet_finishes cmd arg s :
  finishes (fun f => send_cmd_packet miso irq f cmd arg) s.
Proof. unfold send_cmd_packet. fin_auto. Qed.

#[local] Hint Resolve send_cmd_packet_finishes : fin.

Lemma send_cmd_finishes cmd arg s :
  finishes (fun f => send_cmd miso irq f cmd arg) s.
Proof.
  apply (finishes_ext _
           (fun f => if negb (Z.land cmd 0x80 =? 0) then
                       (res <- send_cmd_packet miso irq f CMD55 0 ;;
                        if 1 <? res then ret res
                        else send_cmd_packet miso irq f (Z.land cmd 0x7F) arg)
                     else send_cmd_packet miso irq f cmd arg) s 2).
  - intros f Hf. rewrite send_cmd_eq by exact Hf. reflexivity.
  - fin_auto.
Qed.

#[local] Hint Resolve send_cmd_finishes : fin.

(** The negotiation loop finishes: every round makes an exchange, and the
    ticks of the exchanges bring Timer1 to zero. *)
Lemma init_poll_run cmd arg : forall m s,
  0 <= Timer1 s < 4294967296 ->
  (Z.to_nat (Timer1 s) <= elapsed irq (clk s) m)%nat ->
  exists f0 s', forall fuel f, (f0 <= fuel)%nat -> (f0 <= f)%nat ->
    init_poll miso irq fuel f cmd arg s = Done tt s'.
Proof.
  induction m as [m IH] using lt_wf_ind. intros s HT Hm.
  destruct (Z.eqb_spec (Timer1 s) 0) as [Z0|NZ].
  - exists 1%nat, s. intros fuel f _ Hf. destruct f as [|f]; [lia|].
    cbn [init_poll]. unfold bind, gets. rewrite Z0. reflexivity.
  - destruct (send_cmd_finishes cmd arg s) as (f1 & r & s1 & H1).
    pose proof (H1 f1 (le_n _)) as Hrun.
    pose proof (timer1_runs_send_cmd _ _ _ _ _ _ _ _ Hrun) as (C & T).
    specialize (T HT).
    pose proof (send_cmd_rec_progress _ _ _ _ _ _ _ _ _ Hrun) as P.
    destruct (Z.eqb_spec r 0) as [R0|RN].
    + exists (S f1), s1. intros fuel f Hfuel Hf. destruct f as [|f]; [lia|].
      cbn [init_poll]. unfold bind at 1, gets at 1.
      apply Z.eqb_neq in NZ. rewrite NZ.
      unfold bind. rewrite H1 by lia. rewrite R0. reflexivity.
    + assert (M0 : (0 < m)%nat).
      { destruct m; [simpl in Hm; lia|lia]. }
      destruct (IH (m - (clk s1 - clk s))%nat ltac:(lia) s1) as (f2 & s2 & H2).
      * rewrite T. lia.
      * rewrite T.
        destruct (Nat.le_gt_cases m (clk s1 - clk s)) as [L|L].
        -- pose proof (elapsed_mono irq (clk s) _ _ L). lia.
        -- replace m with ((clk s1 - clk s) + (m - (clk s1 - clk s)))%nat in Hm
             by lia.
           rewrite elapsed_add in Hm.
           replace (clk s + (clk s1 - clk s))%nat with (clk s1) in Hm by lia.
           lia.
      * exists (S (Nat.max f1 f2)), s2. intros fuel f Hfuel Hf.
        destruct f as [|f]; [lia|].
        cbn [init_poll]. unfold bind at 1, gets at 1.
        apply Z.eqb_neq in NZ. rewrite NZ.
        unfold bind at 1. rewrite H1 by lia.
        apply Z.eqb_neq in RN. rewrite RN. apply H2; lia.
Qed.

Lemma init_poll_finishes cmd arg s :
  0 <= Timer1 s < 4294967296 ->
  finishes (fun f => init_poll miso irq f f cmd arg) s.
Proof.
  intros HT. destruct (irq_live (clk s) (Z.to_nat (Timer1 s))) as (m & Hm).
  destruct (init_poll_run cmd arg m s HT Hm) as (f0 & s' & H).
  exists f0, tt, s'. intros f Hf. apply H; exact Hf.
Qed.

Lemma probe_card_finishes s : finishes (fun f => probe_card miso irq f) s.
Proof.
  unfold probe_card. fin_step; [auto with fin|].
  fin_step; [|fin_auto].
  fin_step; [auto with fin|]. apply modify_Done in H0. subst.
  fin_step; [auto with fin|].
  assert (T1 : 0 <= Timer1 s0 < 4294967296).
  { eapply timer1_runs_range; [eapply timer1_runs_send_cmd, H0|]. simpl. lia. }
  fin_step.
  - fin_step; [auto with fin|].
    assert (T2 : 0 <= Timer1 s2 < 4294967296).
    { eapply timer1_runs_range; [eapply timer1_runs_xchg_fill, H1|exact T1]. }
    fin_step; [|fin_auto].
    fin_step; [apply init_poll_finishes, T2|]. fin_auto.
  - fin_step; [auto with fin|].
    assert (T2 : 0 <= Timer1 s2 < 4294967296).
    { eapply timer1_runs_range; [eapply timer1_runs_send_cmd, H1|exact T1]. }
    fin_step.
    fin_step; [apply init_poll_finishes, T2|]. fin_auto.
Qed.

#[local] Hint Resolve probe_card_finishes : fin.

Lemma disk_initialize_finishes pdrv s :
  finishes (fun f => disk_initialize miso irq f pdrv) s.
Proof. unfold disk_initialize. fin_auto. Qed.

(** The loop of the multiple block write makes at most [count] rounds. *)
Lemma disk_write_loop_finishes : forall k buff s,
  Z.of_nat (S k) < 4294967296 ->
  exists f0 c s', forall fuel f, (f0 <= fuel)%nat -> (f0 <= f)%nat ->
    disk_write_loop miso irq fuel f buff (Z.of_nat (S k)) s = Done c s'.
Proof.
  induction k as [|k IH]; intros buff s Hk;
    destruct (xmit_datablock_finishes buff 0xFC s) as (f1 & ok & s1 & H1).
  - exists (S f1), (if ok then 0 else 1), s1. intros fuel f Hfuel Hf.
    destruct f as [|f]; [lia|].
    cbn [disk_write_loop]. unfold bind. rewrite H1 by lia.
    destruct ok; reflexivity.
  - assert (E : u32 (Z.of_nat (S (S k)) - 1) = Z.of_nat (S k)).
    { unfold u32. rewrite Z.mod_small by lia. lia. }
    destruct ok.
    + destruct (IH (advance buff 512) s1) as (f2 & c & s2 & H2); [lia|].
      exists (S (Nat.max f1 f2)), c, s2. intros fuel f Hfuel Hf.
      destruct f as [|f]; [lia|].
      cbn [disk_write_loop]. unfold bind. rewrite H1 by lia. cbn [negb].
      rewrite E.
      destruct (Z.eqb_spec (Z.of_nat (S k)) 0) as [Z0|_]; [lia|].
      apply H2; lia.
    + exists (S f1), (Z.of_nat (S (S k))), s1. intros fuel f Hfuel Hf.
      destruct f as [|f]; [lia|].
      cbn [disk_write_loop]. unfold bind. rewrite H1 by lia. reflexivity.
Qed.

Lemma disk_write_finishes pdrv buff sector count s :
  0 <= count < 4294967296 ->
  finishes (fun f => disk_write miso irq f pdrv buff sector count) s.
Proof.
  intros Hc. unfold disk_write.
  destruct (Z.eqb_spec count 0) as [Z0|NZ].
  - rewrite orb_true_r. apply finishes_ret.
  - fin_step; [apply finishes_ret|].
    fin_step; [auto with fin|].
    fin_step; [apply finishes_ret|].
    fin_step; [apply finishes_ret|].
    fin_step; [auto with fin|].
    fin_step; [|fin_auto].
    fin_step; [fin_auto|].
    fin_step; [fin_auto|].
    fin_step; [auto with fin|].
    fin_step; [|fin_auto].
    fin_step; [|fin_auto].
    match goal with
    | |- finishes _ ?st =>
        destruct (disk_write_loop_finishes (Z.to_nat count - 1) buff st)
          as (fw & c & sw & Hw); [lia|]
    end.
    replace (Z.of_nat (S (Z.to_nat count - 1))) with count in Hw by lia.
    exists fw, c, sw. intros fw' Hf. apply Hw; exact Hf.
Qed.

End Termination.

Section Properties.

Variable miso : nat -> Z.
Variable irq : nat -> nat.
Variable fuel : nat.

(** C1: a call of disk_read or disk_write with a drive index other than 0 or
    with a count of 0 returns the parameter error; otherwise, with the
    not-initialized flag set, it returns not-ready; otherwise disk_write with
    the write-protected flag set returns write-protected.  In each case the
    final state is the initial one: no byte is exchanged and no global is
    changed. *)
Theorem disk_read_write_gates pdrv buff sector count s :
  ((pdrv <> 0 \/ count = 0) ->
     disk_read miso irq fuel pdrv sector count s = Done (RES_PARERR, []) s /\
     disk_write miso irq fuel pdrv buff sector count s = Done RES_PARERR s) /\
  (pdrv = 0 -> count <> 0 -> Z.land (Stat s) STA_NOINIT <> 0 ->
     disk_read miso irq fuel pdrv sector count s = Done (RES_NOTRDY, []) s /\
     disk_write miso irq fuel pdrv buff sector count s = Done RES_NOTRDY s) /\
  (pdrv = 0 -> count <> 0 -> Z.land (Stat s) STA_NOINIT = 0 ->
     Z.land (Stat s) STA_PROTECT <> 0 ->
     disk_write miso irq fuel pdrv buff sector count s = Done RES_WRPRT s).
Proof.
  unfold disk_read, disk_write. repeat split.
  - destruct H as [H|H].
    + apply Z.eqb_neq in H. rewrite H. reflexivity.
    + subst count. rewrite orb_true_r. reflexivity.
  - destruct H as [H|H].
    + apply Z.eqb_neq in H. rewrite H. reflexivity.
    + subst count. rewrite orb_true_r. reflexivity.
  - subst pdrv. apply Z.eqb_neq in H0, H1. simpl. rewrite H0. simpl.
    unfold bind, gets. rewrite H1. reflexivity.
  - subst pdrv. apply Z.eqb_neq in H0, H1. simpl. rewrite H0. simpl.
    unfold bind, gets. rewrite H1. reflexivity.
  - intros -> Hc Hn Hp. apply Z.eqb_neq in Hc, Hp. simpl. rewrite Hc. simpl.
    unfold bind, gets. rewrite Hn, Hp. reflexivity.
Qed.

(** C10: with the no-disk flag set, disk_initialize on drive 0 returns the
    current status at once and leaves the state as it was: no byte is
    exchanged, no flag, card type or timer is changed.  A nonzero drive index
    is answered by the earlier guard with STA_NOINIT, equally without
    touching the state. *)
Theorem disk_initialize_no_disk pdrv s :
  Z.land (Stat s) STA_NODISK <> 0 ->
  disk_initialize miso irq fuel pdrv s
  = Done (if pdrv =? 0 then Stat s else STA_NOINIT) s.
Proof.
  intros H. apply Z.eqb_neq in H. unfold disk_initialize.
  destruct (pdrv =? 0); simpl; [|reflexivity].
  unfold bind, gets. rewrite H. reflexivity.
Qed.


(** C9: the write-protect and card-detect lines are constants, so every run of
    the tick handler leaves the write-protected and the no-disk flag clear and
    the not-initialized flag as it found it; from the initial state the
    write-protected flag is clear in every reachable state, and no call of
    disk_write from a reachable state returns the write-protected result. *)
Theorem write_protect_never_set :
  (forall s, Z.land (Stat (disk_timerproc s)) STA_PROTECT = 0 /\
             Z.land (Stat (disk_timerproc s)) STA_NODISK = 0 /\
             Z.land (Stat (disk_timerproc s)) STA_NOINIT
             = Z.land (Stat s) STA_NOINIT) /\
  (forall s, reachable miso irq s -> Z.land (Stat s) STA_PROTECT = 0) /\
  (forall s pdrv buff sector count r s',
     reachable miso irq s ->
     disk_write miso irq fuel pdrv buff sector count s = Done r s' ->
     r <> RES_WRPRT).
Proof.
  split; [|split].
  - intros s. auto using tick_clears_PROTECT, tick_clears_NODISK, tick_keeps_NOINIT.
  - apply reachable_unprotected.
  - intros s pdrv buff sector count r s' Hr H.
    apply reachable_unprotected in Hr. unfold disk_write in H.
    destruct (negb (pdrv =? 0) || (count =? 0)); [run_inv; discriminate|].
    apply bind_Done in H. destruct H as (st & s1 & H1 & H2). run_inv.
    rewrite Hr in H2.
    destruct (negb (Z.land (Stat s) STA_NOINIT =? 0)); [run_inv; discriminate|].
    change (negb (0 =? 0)) with false in H2. cbv iota in H2. run_inv.
    match goal with |- (if ?b then _ else _) <> _ => destruct b end;
      discriminate.
Qed.

(** C3: wait_ready arms Timer2 to 500 and exchanges filler bytes until the
    card returns 0xFF or the timer, which every tick decrements and leaves at
    zero, is zero.  The first part gives the exit in general: the call ends
    at the first exchange that returns 0xFF or by whose end 500 ticks have
    fired, and succeeds exactly when that exchange returned 0xFF.  The second
    part is the timeout: a card that never returns 0xFF, with a time base
    that keeps ticking, makes the call fail at exchange n+1, where fewer than
    500 ticks have fired in the first n exchanges and at least 500 by the end
    of exchange n+1.  The third part is the tick itself: Timer2 goes down by
    one and stays at zero. *)
Theorem wait_ready_budget s :
  (forall n,
     (n < fuel)%nat ->
     (forall i, (i < n)%nat -> u8 (miso (clk s + i)%nat) <> 0xFF) ->
     (elapsed irq (clk s) n < 500)%nat ->
     (u8 (miso (clk s + n)%nat) = 0xFF \/
      (500 <= elapsed irq (clk s) (S n))%nat) ->
     exists s',
       wait_ready miso irq fuel s
       = Done (u8 (miso (clk s + n)%nat) =? 0xFF) s' /\
       clk s' = (clk s + S n)%nat /\
       Timer2 s' = Z.max 0 (500 - Z.of_nat (elapsed irq (clk s) (S n)))) /\
  ((forall i, u8 (miso (clk s + i)%nat) <> 0xFF) ->
   (exists m, (500 <= elapsed irq (clk s) m)%nat) ->
   exists n,
     (elapsed irq (clk s) n < 500 <= elapsed irq (clk s) (S n))%nat /\
     ((n < fuel)%nat ->
      exists s',
        wait_ready miso irq fuel s = Done false s' /\
        clk s' = (clk s + S n)%nat /\ Timer2 s' = 0)) /\
  (forall t,
     0 <= Timer2 t < 4294967296 ->
     Timer2 (disk_timerproc t) = Z.max 0 (Timer2 t - 1)).
Proof.
  assert (G : forall n,
     (n < fuel)%nat ->
     (forall i, (i < n)%nat -> u8 (miso (clk s + i)%nat) <> 0xFF) ->
     (elapsed irq (clk s) n < 500)%nat ->
     (u8 (miso (clk s + n)%nat) = 0xFF \/
      (500 <= elapsed irq (clk s) (S n))%nat) ->
     exists s',
       wait_ready miso irq fuel s
       = Done (u8 (miso (clk s + n)%nat) =? 0xFF) s' /\
       clk s' = (clk s + S n)%nat /\
       Timer2 s' = Z.max 0 (500 - Z.of_nat (elapsed irq (clk s) (S n)))).
  { intros n Hf Hbusy Hrun Hexit.
    destruct (wait_ready_loop_exit miso irq n (set_Timer2 500 s))
      as (s' & R1 & R2 & R3);
      change (Timer2 (set_Timer2 500 s)) with 500 in *;
      change (clk (set_Timer2 500 s)) with (clk s) in *;
      try lia; try assumption.
    exists s'. unfold wait_ready, bind, modify, ret.
    rewrite (R1 fuel Hf). auto. }
  split; [exact G|]. split; [|exact tick_Timer2].
  intros Hnever Hlive.
  destruct (first_expiry irq (clk s) 500) as (n & Hn1 & Hn2); [lia|exact Hlive|].
  exists n. split; [lia|]. intros Hf.
  destruct (G n Hf) as (s' & R1 & R2 & R3); auto.
  exists s'. pose proof (Hnever n) as Hb. apply Z.eqb_neq in Hb.
  rewrite Hb in R1.
  split; [exact R1|]. split; [exact R2|]. lia.
Qed.

(** C4 (amended): rcvr_datablock arms Timer1 to 100 and exchanges filler
    bytes while the card returns 0xFF and the timer is not zero.  The byte
    that ends the polling decides: when it is 0xFE the call stores the next
    btr bytes of the card, exchanges two more bytes for the CRC and succeeds;
    when it is anything else (another token, or 0xFF at the expiry of the
    timer) the call fails at once.  With a live time base and enough
    iteration budget the call does finish. *)
Theorem rcvr_datablock_token s btr :
  0 < btr < 4294967296 ->
  (live irq -> finishes (fun f => rcvr_datablock miso irq f btr) s) /\
  (forall n,
     (n < fuel)%nat -> btr <= Z.of_nat fuel ->
     (forall i, (i < n)%nat -> u8 (miso (clk s + i)%nat) = 0xFF) ->
     (elapsed irq (clk s) n < 100)%nat ->
     (u8 (miso (clk s + n)%nat) <> 0xFF \/
      (100 <= elapsed irq (clk s) (S n))%nat) ->
     exists s',
       rcvr_datablock miso irq fuel btr s
       = Done (if u8 (miso (clk s + n)%nat) =? 0xFE
               then Some (received miso (clk s + S n) (Z.to_nat btr))
               else None) s' /\
       clk s' = if u8 (miso (clk s + n)%nat) =? 0xFE
                then (clk s + S n + Z.to_nat btr + 2)%nat
                else (clk s + S n)%nat).
Proof.
  intros Hb.
  split; [intros L; apply rcvr_datablock_finishes; assumption|].
  intros n Hf Hbf Hidle Hrun Hexit.
  destruct (rcvr_datablock_loop_exit miso irq n (set_Timer1 100 s))
    as (s1 & R1 & R2 & _);
    change (Timer1 (set_Timer1 100 s)) with 100 in *;
    change (clk (set_Timer1 100 s)) with (clk s) in *;
    try lia; try assumption.
  unfold rcvr_datablock, bind at 1, modify at 1. unfold bind at 1.
  rewrite (R1 fuel Hf).
  destruct (u8 (miso (clk s + n)%nat) =? 254).
  - cbn [negb]. unfold rcvr_spi_multi.
    destruct (rcvr_spi_multi_loop_run miso irq (Z.to_nat btr - 1) s1)
      as (s2 & Q1 & Q2); [lia|].
    specialize (Q1 fuel ltac:(lia)).
    replace (Z.of_nat (S (Z.to_nat btr - 1))) with btr in Q1 by lia.
    replace (S (Z.to_nat btr - 1)) with (Z.to_nat btr) in Q1, Q2 by lia.
    unfold bind at 1. rewrite Q1.
    unfold bind at 1. rewrite xchg_spi_eq.
    unfold bind at 1. rewrite xchg_spi_eq. unfold ret.
    rewrite R2. eexists. split; [reflexivity|].
    rewrite !after_xchg_clk. lia.
  - cbn [negb]. unfold ret. exists s1. split; [reflexivity|exact R2].
Qed.


(** C5 (amended): CardType is stored exactly once in every run of
    disk_initialize that passes both guards, at the end of the probe
    sequence, with the detected type, which is 0 when the run fails; a call of
    disk_initialize that a guard rejects, the tick handler, disk_status,
    disk_read, disk_write and disk_ioctl leave CardType as it is and store
    nothing to it.  With a live time base and enough iteration budget every
    call of disk_initialize finishes. *)
Theorem card_type_written_once :
  (live irq ->
   forall s pdrv, finishes (fun f => disk_initialize miso irq f pdrv) s) /\
  (forall s r s',
     Z.land (Stat s) STA_NODISK = 0 ->
     disk_initialize miso irq fuel 0 s = Done r s' ->
     card_type_writes (log s') = card_type_writes (log s) ++ [CardType s']) /\
  (forall s pdrv r s',
     pdrv <> 0 \/ Z.land (Stat s) STA_NODISK <> 0 ->
     disk_initialize miso irq fuel pdrv s = Done r s' -> s' = s) /\
  (forall s,
     CardType (disk_timerproc s) = CardType s /\
     log (disk_timerproc s) = log s) /\
  (forall s pdrv r s', disk_status pdrv s = Done r s' -> s' = s) /\
  (forall s pdrv sector count r s',
     disk_read miso irq fuel pdrv sector count s = Done r s' ->
     CardType s' = CardType s /\
     card_type_writes (log s') = card_type_writes (log s)) /\
  (forall s pdrv buff sector count r s',
     disk_write miso irq fuel pdrv buff sector count s = Done r s' ->
     CardType s' = CardType s /\
     card_type_writes (log s') = card_type_writes (log s)) /\
  (forall s pdrv cmd r s',
     disk_ioctl miso irq fuel pdrv cmd s = Done r s' ->
     CardType s' = CardType s /\
     card_type_writes (log s') = card_type_writes (log s)).
Proof.
  assert (Q : forall s s', quiet s s' ->
                CardType s' = CardType s /\
                card_type_writes (log s') = card_type_writes (log s)).
  { intros s s' (_ & C & l & L & W). split; [exact C|].
    rewrite L, card_type_writes_app, W, app_nil_r. reflexivity. }
  split; [|split; [|split; [|split; [|split; [|split; [|split]]]]]].
  - intros L s pdrv. apply disk_initialize_finishes, L.
  - intros s r s' Hnd H.
    destruct (disk_initialize_run miso irq fuel s r s' Hnd H)
      as (l & rx & L & W & _).
    rewrite L, !card_type_writes_app, W. reflexivity.
  - intros s pdrv r s' Hg H. unfold disk_initialize in H.
    destruct (Z.eqb_spec pdrv 0) as [E|E].
    + destruct Hg as [Hg|Hg]; [contradiction|]. cbn [negb] in H.
      apply bind_Done in H. destruct H as (st & s0 & H1 & H2). run_inv.
      apply Z.eqb_neq in Hg. rewrite Hg in H2. cbn [negb] in H2. run_inv.
      reflexivity.
    + cbn [negb] in H. run_inv. reflexivity.
  - intros s. split; apply tick_fields.
  - intros s pdrv r s' H. unfold disk_status in H.
    destruct (negb (pdrv =? 0)); run_inv; reflexivity.
  - intros s pdrv sector count r s' H.
    apply (Q s s'), (quiet_read _ _ _ _ _ _ _ _ _ H).
  - intros s pdrv buff sector count r s' H.
    apply (Q s s'), (quiet_write _ _ _ _ _ _ _ _ _ _ H).
  - intros s pdrv cmd r s' H.
    apply (Q s s'), (quiet_ioctl _ _ _ _ _ _ _ _ H).
Qed.

(** C2 (amended): in a multiple block write (count above 1) that passes the
    gates, when command 25 is accepted the driver sends blocks with the token
    0xFC as long as each is accepted and stops at the first attempt that
    fails; it then makes exactly one attempt to send the stop token, whatever
    the loop did, and the token 0xFD goes on the bus when the ready wait of
    that attempt succeeds; the card is deselected, and the result is OK
    exactly when every block was accepted and the stop attempt succeeded.
    With a live time base and enough iteration budget the operation does
    finish. *)
Theorem disk_write_multi buff sector count s :
  1 < count < 4294967296 ->
  Z.land (Stat s) STA_NOINIT = 0 ->
  Z.land (Stat s) STA_PROTECT = 0 ->
  (live irq ->
   finishes (fun f => disk_write miso irq f 0 buff sector count) s) /\
  (forall r s',
     disk_write miso irq fuel 0 buff sector count s = Done r s' ->
     multi_write_outcome miso irq fuel buff sector count s r s').
Proof.
  intros Hc Hn Hp.
  split; [intros L; apply disk_write_finishes; [exact L|lia]|].
  intros r s' H. unfold disk_write in H.
  assert (C0 : (count =? 0) = false) by (apply Z.eqb_neq; lia).
  assert (C1 : (count =? 1) = false) by (apply Z.eqb_neq; lia).
  rewrite C0 in H. change (negb (0 =? 0) || false) with false in H. cbv iota in H.
  bind_inv H st sa H0. gets_inv H0.
  rewrite Hn, Hp in H. change (negb (0 =? 0)) with false in H. cbv iota in H.
  bind_inv H ct sb H0. gets_inv H0.
  rewrite C1 in H.
  bind_inv H cf sc Hrun. bind_inv H u sd Hdes. ret_inv H.
  rename Hrun into H.
  bind_inv H u0 s0 Hpre. bind_inv H r25 s1 H25.
  unfold multi_write_outcome. exists s0, r25, s1.
  split; [|split; [|split; [exact H25|split]]].
  - intros E. apply Z.eqb_eq in E. rewrite E in Hpre. cbn [negb] in Hpre.
    run_inv. reflexivity.
  - intros E. apply Z.eqb_neq in E. rewrite E in Hpre. cbn [negb] in Hpre.
    apply bind_Done in Hpre. destruct Hpre as (r23 & sx & Hx & Hy). run_inv.
    exists r23. exact Hx.
  - intros NZ. apply Z.eqb_neq in NZ. rewrite NZ in H. run_inv.
    rewrite C0. split; [reflexivity|destruct u; exact Hdes].
  - intros Z0. subst r25. change (0 =? 0) with true in H. cbv iota in H.
    apply bind_Done in H. destruct H as (c & s2 & Hloop & H).
    apply bind_Done in H. destruct H as (ok & s3 & Hstop & H). run_inv.
    destruct (disk_write_loop_run miso irq fuel fuel buff count s1 c s2
                ltac:(lia) Hloop) as (k & sk & A & B & C & D).
    destruct (xmit_datablock_stop miso irq fuel null s2 ok sc Hstop)
      as (sw & W1 & W2).
    exists k, sk, s2, ok, sw, sc.
    split; [exact A|]. split; [exact B|].
    split; [intros E; apply (proj2 (C E))|].
    split; [intros E; apply D, E|]. split; [exact Hstop|]. split; [exact W1|].
    split; [exact W2|]. split; [destruct u; exact Hdes|].
    destruct ok; cbn [negb].
    + destruct (Z.eqb_spec c 0) as [E|E]; cbn [negb].
      * split; [intros _|reflexivity]. split; [|reflexivity].
        destruct (Z.eq_dec (Z.of_nat k) count) as [F|F]; [exact F|].
        destruct D as (D1 & _); lia.
      * split; [discriminate|]. intros (F & _). destruct (C F). contradiction.
    + change (negb (1 =? 0)) with true. cbv iota.
      split; [discriminate|]. intros (_ & F). discriminate F.
Qed.

(** C7 (amended): on the 16 bytes of a CSD, for structure version 1 the
    decoded sector count is the documented value reduced modulo 2^32, which is
    the documented value itself unless the 22-bit size field is all ones; for
    the other versions it is the documented value when the shift count n - 9
    is not negative, and it is undefined when n is below 9.  A
    GET_SECTOR_COUNT ioctl that returns OK stores the value decoded from 16
    bytes received from the card. *)
Theorem sector_count_decoding :
  (forall csd,
     Forall is_byte csd ->
     (Z.shiftr (nth 0 csd 0) 6 = 1 ->
        csd_sector_count csd = Some (spec_sector_count csd mod 4294967296) /\
        (Z.land (nth 7 csd 0) 63 <> 63 \/ nth 8 csd 0 <> 255 \/
         nth 9 csd 0 <> 255 ->
         csd_sector_count csd = Some (spec_sector_count csd))) /\
     (Z.shiftr (nth 0 csd 0) 6 <> 1 ->
        (9 <= spec_n csd -> csd_sector_count csd = Some (spec_sector_count csd)) /\
        (spec_n csd < 9 -> csd_sector_count csd = None))) /\
  (forall s out s',
     disk_ioctl miso irq fuel 0 GET_SECTOR_COUNT s = Done (RES_OK, out) s' ->
     exists from v,
       Forall is_byte (received miso from 16) /\
       csd_sector_count (received miso from 16) = Some v /\ out = OutLBA v).
Proof.
  split.
  - intros csd HB.
    pose proof (nth_is_byte csd) as B.
    split.
    + intros V. apply Z.eqb_eq in V.
      destruct (csd_v1_operand (nth 7 csd 0) (nth 8 csd 0) (nth 9 csd 0))
        as (E & R & Rs); auto.
      unfold csd_sector_count, spec_sector_count. rewrite V, E.
      split.
      * unfold shl32. change ((0 <=? 10) && (10 <? 32)) with true.
        reflexivity.
      * intros NF. rewrite shl32_small; [reflexivity|lia|lia|].
        change (2 ^ 10) with 1024. specialize (Rs NF). lia.
    + intros V. apply Z.eqb_neq in V.
      destruct (csd_v0_operand (nth 6 csd 0) (nth 7 csd 0) (nth 8 csd 0))
        as (E & R); auto.
      pose proof (spec_n_range csd HB) as N.
      assert (En : u8 (Z.land (nth 5 csd 0) 15
                       + Z.shiftr (Z.land (nth 10 csd 0) 128) 7
                       + Z.shiftl (Z.land (nth 9 csd 0) 3) 1 + 2)
                   = spec_n csd).
      { unfold spec_n in N |- *. cbv beta zeta in N |- *. unfold u8.
        apply Z.mod_small. lia. }
      unfold csd_sector_count, spec_sector_count. rewrite V, E, En.
      split.
      * intros G. apply shl32_small; [lia|lia|].
        assert (P : 2 ^ (spec_n csd - 9) <= 2 ^ 15)
          by (apply Z.pow_le_mono_r; lia).
        change (2 ^ 15) with 32768 in P.
        assert (P0 : 0 < 2 ^ (spec_n csd - 9))
          by (apply Z.pow_pos_nonneg; lia).
        nia.
      * intros G. unfold shl32.
        replace (0 <=? spec_n csd - 9) with false
          by (symmetry; apply Z.leb_gt; lia).
        reflexivity.
  - intros s out s' H. unfold disk_ioctl in H.
    change (negb (0 =? 0)) with false in H. cbv iota in H.
    bind_inv H st s0 H0. gets_inv H0.
    destruct (negb (Z.land (Stat s) STA_NOINIT =? 0));
      [ret_inv H; discriminate|].
    bind_inv H ct s0 H0. gets_inv H0.
    bind_inv H res s1 Hres. bind_inv H u s2 Hd. ret_inv H.
    change (GET_SECTOR_COUNT =? CTRL_SYNC) with false in Hres.
    change (GET_SECTOR_COUNT =? GET_SECTOR_COUNT) with true in Hres.
    cbv iota in Hres.
    bind_inv Hres r9 s3 H9.
    destruct (r9 =? 0); [|ret_inv Hres; discriminate].
    bind_inv Hres csd s4 Hcsd.
    destruct csd as [csd|]; [|ret_inv Hres; discriminate].
    destruct (rcvr_datablock_Done miso irq fuel 16 _ _ _ ltac:(lia) Hcsd)
      as (from & E).
    change (Z.to_nat 16) with 16%nat in E.
    unfold lift_opt in Hres.
    destruct (csd_sector_count csd) as [v|] eqn:Ev; [|discriminate Hres].
    ret_inv Hres. exists from, v. split; [apply received_bytes|].
    split; [exact Ev|congruence].
Qed.

End Properties.

(** C4, as stated, fails: a card that answers the first exchange with a byte
    other than 0xFF and 0xFE makes rcvr_datablock fail after that one
    exchange, with the whole budget of 100 ticks left on Timer1. *)
Lemma rcvr_datablock_fails_before_expiry :
  exists s',
    rcvr_datablock card_busy irq_none 8 512 init_state = Done None s' /\
    Timer1 s' = 100 /\ clk s' = 1%nat.
Proof. eexists. split; [vm_compute; reflexivity|]. split; reflexivity. Qed.

(** C5, as stated, fails: an initialization that fails (the card never
    answers the reset command) on a drive whose card type was MMC stores 0 to
    CardType. *)
Lemma failed_initialize_overwrites_card_type :
  exists r s',
    disk_initialize card_idle irq_none 16 0 ready_state = Done r s' /\
    CardType ready_state = CT_MMC /\ CardType s' = 0 /\
    card_type_writes (log s') = [0].
Proof. do 2 eexists. split; [vm_compute; reflexivity|]. repeat split. Qed.


(** C2, as stated, fails: command 25 is accepted and the first block is sent
    with the token 0xFC; its data response is not the accepted one, and the
    card then holds the line low, so the ready wait of the stop attempt times
    out and the token 0xFD is never sent. *)
Lemma stop_token_not_sent_when_busy :
  exists s1 s',
    send_cmd card_stuck irq_each 600 CMD25 0 ready_state = Done 0 s1 /\
    disk_write card_stuck irq_each 600 0 null 0 2 ready_state
    = Done RES_ERROR s' /\
    count_occ Z.eq_dec (sent (log s')) 0xFC = 1%nat /\
    count_occ Z.eq_dec (sent (log s')) 0xFD = 0%nat.
Proof.
  do 2 eexists. split; [vm_compute; reflexivity|].
  split; [vm_compute; reflexivity|]. split; vm_compute; reflexivity.
Qed.

(** C7, as stated, fails: for a version 1 CSD whose size field is all ones the
    documented sector count is 2^32, and the ioctl stores 0. *)
Lemma sector_count_wraps :
  exists s',
    disk_ioctl card_csd_full irq_none 32 0 GET_SECTOR_COUNT ready_state
    = Done (RES_OK, OutLBA 0) s' /\
    received card_csd_full 11 16 = csd_full /\
    Z.shiftr (nth 0 csd_full 0) 6 = 1 /\
    spec_sector_count csd_full = 4294967296.
Proof.
  eexists. split; [vm_compute; reflexivity|]. repeat split.
Qed.

(** * The properties at concrete runs *)

(** The three gates of C1: drive 1, the drive before its initialization, and
    a write-protected drive. *)
Lemma disk_read_write_gates_witness :
  (disk_read card_idle irq_none 8 1 0 1 init_state
   = Done (RES_PARERR, []) init_state /\
   disk_write card_idle irq_none 8 1 null 0 1 init_state
   = Done RES_PARERR init_state) /\
  (disk_read card_idle irq_none 8 0 0 1 init_state
   = Done (RES_NOTRDY, []) init_state /\
   disk_write card_idle irq_none 8 0 null 0 1 init_state
   = Done RES_NOTRDY init_state) /\
  disk_write card_idle irq_none 8 0 null 0 1 protected_state
  = Done RES_WRPRT protected_state.
Proof.
  split; [|split].
  - apply (proj1 (disk_read_write_gates card_idle irq_none 8 1 null 0 1
                    init_state)).
    left. lia.
  - apply (proj1 (proj2 (disk_read_write_gates card_idle irq_none 8 0 null 0 1
                           init_state)));
      [reflexivity | lia | vm_compute; lia].
  - apply (proj2 (proj2 (disk_read_write_gates card_idle irq_none 8 0 null 0 1
                           protected_state)));
      [reflexivity | lia | reflexivity | vm_compute; lia].
Defined.

(** C10 on a drive whose socket is empty. *)
Lemma disk_initialize_no_disk_witness :
  disk_initialize card_idle irq_none 8 0 no_disk_state
  = Done (Stat no_disk_state) no_disk_state.
Proof.
  apply (disk_initialize_no_disk card_idle irq_none 8 0 no_disk_state).
  vm_compute. lia.
Defined.


(** C9 at the first state: the flag is clear, and a write is turned away as
    not ready, not as write-protected. *)
Lemma write_protect_never_set_witness :
  Z.land (Stat init_state) STA_PROTECT = 0 /\ RES_NOTRDY <> RES_WRPRT.
Proof.
  destruct (write_protect_never_set card_idle irq_none 8) as (_ & P & W).
  split.
  - apply P. apply reach_init.
  - apply (W init_state 0 null 0 1 RES_NOTRDY init_state);
      [apply reach_init | reflexivity].
Defined.

(** C3 with a card that is never ready and one tick in every exchange: the
    call fails at exchange 500. *)
Lemma wait_ready_budget_witness :
  exists n,
    (elapsed irq_each (clk init_state) n < 500
     <= elapsed irq_each (clk init_state) (S n))%nat /\
    ((n < 600)%nat ->
     exists s',
       wait_ready card_busy irq_each 600 init_state = Done false s' /\
       clk s' = (clk init_state + S n)%nat /\ Timer2 s' = 0).
Proof.
  apply (proj1 (proj2 (wait_ready_budget card_busy irq_each 600 init_state))).
  - intros i. vm_compute. lia.
  - exists 500%nat. vm_compute. apply le_n.
Defined.

(** A time base that fires in every exchange is live. *)
Lemma irq_each_live : live irq_each.
Proof.
  intros k T. exists T. induction T as [|T IH]; simpl; [lia|].
  unfold irq_each at 2. lia.
Qed.

(** C4 with a card that sends the data token at once: four bytes are stored
    and seven exchanges made. *)
Lemma rcvr_datablock_token_witness :
  finishes (fun f => rcvr_datablock card_data irq_each f 4) init_state /\
  exists s',
    rcvr_datablock card_data irq_each 8 4 init_state
    = Done (Some (received card_data 1 4)) s' /\
    clk s' = 7%nat.
Proof.
  destruct (rcvr_datablock_token card_data irq_each 8 init_state 4)
    as (F & P); [lia|].
  split; [apply F, irq_each_live|].
  apply (P 0%nat).
  - lia.
  - vm_compute. discriminate.
  - intros i Hi. lia.
  - vm_compute. lia.
  - left. vm_compute. lia.
Defined.


(** C5 on a failed initialization: one store, of the value 0. *)
Lemma card_type_written_once_witness :
  finishes (fun f => disk_initialize card_idle irq_each f 0) ready_state /\
  exists r s',
    disk_initialize card_idle irq_each 16 0 ready_state = Done r s' /\
    card_type_writes (log s')
    = card_type_writes (log ready_state) ++ [CardType s'].
Proof.
  destruct (card_type_written_once card_idle irq_each 16) as (F & P & _).
  split; [apply F, irq_each_live|].
  do 2 eexists. split; [vm_compute; reflexivity|].
  apply (P ready_state 0); [reflexivity | vm_compute; reflexivity].
Defined.

(** C2 on a write of two blocks that the card accepts. *)
Lemma disk_write_multi_witness :
  finishes (fun f => disk_write card_two_blocks irq_each f 0 null 0 2)
           ready_state /\
  exists s',
    multi_write_outcome card_two_blocks irq_each 600 null 0 2 ready_state
                        RES_OK s'.
Proof.
  destruct (disk_write_multi card_two_blocks irq_each 600 null 0 2 ready_state)
    as (F & P); [lia | reflexivity | reflexivity |].
  split; [apply F, irq_each_live|].
  eexists. apply P. vm_compute. reflexivity.
Defined.

(** C7 on the CSD whose size field is all ones. *)
Lemma sector_count_decoding_witness :
  csd_sector_count csd_full
  = Some (spec_sector_count csd_full mod 4294967296).
Proof.
  destruct (proj1 (sector_count_decoding card_idle irq_none 8) csd_full)
    as (V1 & _).
  - repeat apply Forall_cons; try apply Forall_nil; unfold is_byte; lia.
  - apply V1. reflexivity.
Defined.

(** * Further properties of the driver *)

(** ** Deselection at the exits *)

Lemma mmc_deselect_eq miso irq s :
  mmc_deselect miso irq s = Done tt (deselected miso irq s).
Proof. reflexivity. Qed.

Lemma deselected_cs miso irq s : cs_high (deselected miso irq s) = true.
Proof. unfold deselected. rewrite after_xchg_cs. reflexivity. Qed.

Lemma deselected_log miso irq s :
  log (deselected miso irq s)
  = log s ++ [EvCS true; EvXchg 0xFF (u8 (miso (clk s)))].
Proof.
  unfold deselected. rewrite after_xchg_log. cbn [log emit set_cs clk].
  rewrite <- app_assoc. reflexivity.
Qed.

Lemma deselected_clk miso irq s : clk (deselected miso irq s) = S (clk s).
Proof. unfold deselected. rewrite after_xchg_clk. reflexivity. Qed.

Lemma quiet_deselected miso irq s : quiet s (deselected miso irq s).
Proof.
  unfold deselected. eapply quiet_trans; [|apply quiet_xchg].
  eapply quiet_emit; reflexivity.
Qed.

(** One step of the proof that a part of an operation is a quiet run. *)
Ltac quiet_step :=
  match goal with
  | |- preserves quiet (bind _ _) =>
      apply pres_bind; [exact quiet_trans | | intro]
  | |- preserves quiet (if ?b then _ else _) => destruct b
  | |- preserves quiet (match ?x with _ => _ end) => destruct x
  | |- preserves quiet (ret _) => apply pres_ret; exact quiet_refl
  | |- preserves quiet (gets _) => apply pres_gets; exact quiet_refl
  | |- preserves quiet (send_cmd _ _ _ _ _) => apply pres_send_cmd; quiet_facts
  | |- preserves quiet (rcvr_datablock _ _ _ _) =>
      apply pres_rcvr_datablock; quiet_facts
  | |- preserves quiet (xmit_datablock _ _ _ _ _) =>
      apply pres_xmit_datablock; quiet_facts
  | |- preserves quiet (disk_read_loop _ _ _ _ _ _) =>
      apply pres_disk_read_loop; quiet_facts
  | |- preserves quiet (disk_write_loop _ _ _ _ _ _) =>
      apply pres_disk_write_loop; quiet_facts
  | |- preserves quiet (mmc_select _ _ _) => apply pres_mmc_select; quiet_facts
  | |- preserves quiet (xchg_spi _ _ _) => apply pres_xchg_spi; quiet_facts
  | |- preserves quiet (xchg_fill _ _ _) => apply pres_xchg_fill; quiet_facts
  | |- preserves quiet (lift_opt _ _) => apply pres_lift_opt; quiet_facts
  end.

(** A finished call of a block or control operation either is rejected by a
    gate, and leaves the state as it was, or runs quietly and ends with the
    deselection. *)
Lemma disk_read_cases miso irq fuel pdrv sector count s r s' :
  disk_read miso irq fuel pdrv sector count s = Done r s' ->
  (s' = s /\
   (pdrv <> 0 \/ count = 0 \/ Z.land (Stat s) STA_NOINIT <> 0)) \/
  (pdrv = 0 /\ count <> 0 /\ Z.land (Stat s) STA_NOINIT = 0 /\
   exists s1, quiet s s1 /\ s' = deselected miso irq s1).
Proof.
  intros H. unfold disk_read in H.
  destruct (Z.eqb_spec pdrv 0) as [P|P]; cbn [negb orb] in H;
    [|ret_inv H; left; auto].
  destruct (Z.eqb_spec count 0) as [C|C]; [ret_inv H; left; auto|].
  bind_inv H st s0 H0. gets_inv H0.
  destruct (Z.eqb_spec (Z.land (Stat s) STA_NOINIT) 0) as [N|N];
    cbn [negb] in H; [|ret_inv H; left; auto].
  right. repeat (split; [solve [auto]|]).
  bind_inv H ct s0 H0. gets_inv H0. bind_inv H cb s1 Hb.
  bind_inv H u s2 Hd. rewrite mmc_deselect_eq in Hd. inversion Hd; subst.
  ret_inv H. exists s1. split; [|reflexivity].
  refine ((_ : preserves quiet _) s _ s1 Hb). repeat quiet_step.
Qed.

Lemma disk_write_cases miso irq fuel pdrv buff sector count s r s' :
  disk_write miso irq fuel pdrv buff sector count s = Done r s' ->
  (s' = s /\
   (pdrv <> 0 \/ count = 0 \/ Z.land (Stat s) STA_NOINIT <> 0 \/
    Z.land (Stat s) STA_PROTECT <> 0)) \/
  (pdrv = 0 /\ count <> 0 /\ Z.land (Stat s) STA_NOINIT = 0 /\
   Z.land (Stat s) STA_PROTECT = 0 /\
   exists s1, quiet s s1 /\ s' = deselected miso irq s1).
Proof.
  intros H. unfold disk_write in H.
  destruct (Z.eqb_spec pdrv 0) as [P|P]; cbn [negb orb] in H;
    [|ret_inv H; left; auto].
  destruct (Z.eqb_spec count 0) as [C|C]; [ret_inv H; left; auto|].
  bind_inv H st s0 H0. gets_inv H0.
  destruct (Z.eqb_spec (Z.land (Stat s) STA_NOINIT) 0) as [N|N];
    cbn [negb] in H; [|ret_inv H; left; auto].
  destruct (Z.eqb_spec (Z.land (Stat s) STA_PROTECT) 0) as [W|W];
    cbn [negb] in H; [|ret_inv H; left; auto 6].
  right. repeat (split; [solve [auto]|]).
  bind_inv H ct s0 H0. gets_inv H0. bind_inv H cb s1 Hb.
  bind_inv H u s2 Hd. rewrite mmc_deselect_eq in Hd. inversion Hd; subst.
  ret_inv H. exists s1. split; [|reflexivity].
  refine ((_ : preserves quiet _) s _ s1 Hb). repeat quiet_step.
Qed.

Lemma disk_ioctl_cases miso irq fuel pdrv cmd s r s' :
  disk_ioctl miso irq fuel pdrv cmd s = Done r s' ->
  (s' = s /\ (pdrv <> 0 \/ Z.land (Stat s) STA_NOINIT <> 0)) \/
  (pdrv = 0 /\ Z.land (Stat s) STA_NOINIT = 0 /\
   exists s1, quiet s s1 /\ s' = deselected miso irq s1).
Proof.
  intros H. unfold disk_ioctl in H.
  destruct (Z.eqb_spec pdrv 0) as [P|P]; cbn [negb] in H;
    [|ret_inv H; left; auto].
  bind_inv H st s0 H0. gets_inv H0.
  destruct (Z.eqb_spec (Z.land (Stat s) STA_NOINIT) 0) as [N|N];
    cbn [negb] in H; [|ret_inv H; left; auto].
  right. repeat (split; [solve [auto]|]).
  bind_inv H ct s0 H0. gets_inv H0. bind_inv H cb s1 Hb.
  bind_inv H u s2 Hd. rewrite mmc_deselect_eq in Hd. inversion Hd; subst.
  ret_inv H. exists s1. split; [|reflexivity].
  refine ((_ : preserves quiet _) s _ s1 Hb). repeat quiet_step.
Qed.

(** ** Filler bytes of a literal count *)

Lemma received_length miso from n : length (received miso from n) = n.
Proof. unfold received. rewrite length_map, length_seq. reflexivity. Qed.

Lemma xchg_fill_Done miso irq : forall n s l s',
  xchg_fill miso irq n s = Done l s' ->
  l = received miso (clk s) n /\ clk s' = (clk s + n)%nat /\
  log s' = log s ++ map (fun i => EvXchg 0xFF (u8 (miso (clk s + i)%nat)))
                        (seq 0 n) /\
  cs_high s' = cs_high s.
Proof.
  induction n as [|n IH]; intros s l s' H; cbn [xchg_fill] in H.
  - ret_inv H. rewrite Nat.add_0_r, app_nil_r. repeat split.
  - xchg_step H. bind_inv H l1 s1 H1. ret_inv H.
    destruct (IH _ _ _ H1) as (A & B & C & D).
    rewrite after_xchg_clk in A, B, C. rewrite after_xchg_cs in D.
    rewrite after_xchg_log in C.
    split; [rewrite received_cons, A; reflexivity|]. split; [lia|].
    split; [|exact D].
    rewrite C, <- app_assoc. f_equal. cbn [seq map app].
    rewrite Nat.add_0_r. f_equal.
    rewrite <- seq_shift, map_map. apply map_ext. intros i.
    do 3 f_equal. lia.
Qed.

(** ** The values of the globals *)

Lemma probe_card_values miso irq fuel s ty s' :
  probe_card miso irq fuel s = Done ty s' -> card_type_values ty.
Proof.
  intros H. unfold probe_card in H. unfold card_type_values.
  bind_inv H r0 s0 H0. destruct (r0 =? 1); [|ret_inv H; auto].
  bind_inv H u s1 H1. bind_inv H r8 s2 H2. destruct (r8 =? 1).
  - bind_inv H ocr s3 H3.
    destruct ((nth 2 ocr 0 =? 1) && (nth 3 ocr 0 =? 170)); [|ret_inv H; auto].
    bind_inv H u1 s4 H4. bind_inv H t s5 H5.
    destruct (t =? 0); [ret_inv H; auto|].
    bind_inv H r58 s6 H6. destruct (r58 =? 0); [|ret_inv H; auto].
    bind_inv H ocr' s7 H7. ret_inv H.
    destruct (negb (Z.land (nth 0 ocr' 0) 64 =? 0)); auto 6.
  - bind_inv H r41 s3 H3.
    destruct (r41 <=? 1); cbv beta iota in H;
      bind_inv H u1 s4 H4; bind_inv H t s5 H5;
      (destruct (t =? 0); [ret_inv H; auto|]);
      bind_inv H r16 s6 H6; ret_inv H;
      destruct (negb (r16 =? 0)); auto.
Qed.

(** A run of [disk_initialize] that passes both guards stores the result of
    the probe sequence, which starts after the ten filler bytes. *)
Lemma disk_initialize_probe miso irq fuel s r s' :
  Z.land (Stat s) STA_NODISK = 0 ->
  disk_initialize miso irq fuel 0 s = Done r s' ->
  exists s0 s1,
    clk s0 = (clk s + 10)%nat /\
    probe_card miso irq fuel s0 = Done (CardType s') s1.
Proof.
  intros N H. unfold disk_initialize in H. cbn [negb Z.eqb] in H.
  bind_inv H st s0 H0. gets_inv H0. rewrite N in H. cbn [negb Z.eqb] in H.
  bind_inv H u1 s1 H1. apply modify_Done in H1. subst s1.
  bind_inv H u2 s2 H2. apply modify_Done in H2. subst s2.
  bind_inv H fill s3 H3. destruct (xchg_fill_Done _ _ _ _ _ _ H3) as (_ & K & _).
  cbn [clk emit] in K.
  bind_inv H ty s4 H4. bind_inv H u5 s5 H5. apply modify_Done in H5. subst s5.
  bind_inv H u6 s6 H6. rewrite mmc_deselect_eq in H6. inversion H6; subst.
  bind_inv H u7 s7 H7. gets_inv H.
  assert (E : CardType s7 = ty).
  { destruct (negb (ty =? 0)).
    - bind_inv H7 v8 s8 H8. apply modify_Done in H8. subst s8.
      unfold call in H7. apply modify_Done in H7. subst s7.
      cbn [CardType emit set_Stat]. unfold deselected.
      rewrite after_xchg_CardType. reflexivity.
    - unfold call in H7. apply modify_Done in H7. subst s7.
      cbn [CardType emit]. unfold deselected.
      rewrite after_xchg_CardType. reflexivity. }
  exists s3, s4. split; [exact K|]. rewrite E. exact H4.
Qed.

(** A finished call of [disk_initialize] either is rejected by a guard, and
    leaves the state as it was, or stores the result of the probe sequence and
    ends deselected. *)
Lemma disk_initialize_cases miso irq fuel pdrv s r s' :
  disk_initialize miso irq fuel pdrv s = Done r s' ->
  (s' = s /\ r = (if pdrv =? 0 then Stat s else STA_NOINIT) /\
   (pdrv <> 0 \/ Z.land (Stat s) STA_NODISK <> 0)) \/
  (pdrv = 0 /\ Z.land (Stat s) STA_NODISK = 0 /\
   card_type_values (CardType s') /\ cs_high s' = true /\ r = Stat s').
Proof.
  intros H.
  destruct (Z.eqb_spec pdrv 0) as [P|P].
  2:{ unfold disk_initialize in H. apply Z.eqb_neq in P. rewrite P in H.
      ret_inv H. left. apply Z.eqb_neq in P. auto. }
  subst pdrv.
  destruct (Z.eqb_spec (Z.land (Stat s) STA_NODISK) 0) as [N|N].
  2:{ unfold disk_initialize in H. cbn [negb Z.eqb] in H.
      bind_inv H st s0 H0. gets_inv H0. apply Z.eqb_neq in N. rewrite N in H.
      ret_inv H. left. apply Z.eqb_neq in N. auto. }
  right. split; [reflexivity|]. split; [exact N|].
  destruct (disk_initialize_run _ _ _ _ _ _ N H) as (l & rx & _ & _ & C & R & _).
  split; [|split; assumption].
  destruct (disk_initialize_probe _ _ _ _ _ _ N H) as (s0 & s1 & _ & P).
  eapply probe_card_values, P.
Qed.

Lemma tick_stat_values s :
  stat_values (Stat s) -> stat_values (Stat (disk_timerproc s)).
Proof.
  unfold stat_values. rewrite tick_Stat. intros [E|E]; rewrite E; [left|right];
    reflexivity.
Qed.

Lemma keeps_stat_values_after miso irq s dat :
  keeps_stat_values s (after_xchg miso irq dat s).
Proof.
  apply (rel_after_xchg keeps_stat_values); unfold keeps_stat_values;
    auto using tick_stat_values.
Qed.

Lemma keeps_initialized_after miso irq s dat :
  keeps_initialized s (after_xchg miso irq dat s).
Proof.
  apply (rel_after_xchg keeps_initialized); unfold keeps_initialized; auto.
  intros s0 H. rewrite tick_keeps_NOINIT. exact H.
Qed.

Lemma keeps_stat_values_initialize miso irq fuel pdrv :
  preserves keeps_stat_values (disk_initialize miso irq fuel pdrv).
Proof.
  apply pres_disk_initialize; try (intros; apply keeps_stat_values_after);
    unfold keeps_stat_values; auto.
  intros s [E|E]; cbn [Stat set_Stat]; rewrite E; left; reflexivity.
Qed.

Lemma keeps_initialized_initialize miso irq fuel pdrv :
  preserves keeps_initialized (disk_initialize miso irq fuel pdrv).
Proof.
  apply pres_disk_initialize; try (intros; apply keeps_initialized_after);
    unfold keeps_initialized; auto.
  intros s _. apply clear_NOINIT.
Qed.

Lemma keeps_stat_values_read miso irq fuel pdrv sector count :
  preserves keeps_stat_values (disk_read miso irq fuel pdrv sector count).
Proof.
  apply pres_disk_read; try (intros; apply keeps_stat_values_after);
    unfold keeps_stat_values; auto.
Qed.

Lemma keeps_stat_values_write miso irq fuel pdrv buff sector count :
  preserves keeps_stat_values (disk_write miso irq fuel pdrv buff sector count).
Proof.
  apply pres_disk_write; try (intros; apply keeps_stat_values_after);
    unfold keeps_stat_values; auto.
Qed.

Lemma keeps_stat_values_ioctl miso irq fuel pdrv cmd :
  preserves keeps_stat_values (disk_ioctl miso irq fuel pdrv cmd).
Proof.
  apply pres_disk_ioctl; try (intros; apply keeps_stat_values_after);
    unfold keeps_stat_values; auto.
Qed.

(** Between two calls the status is 0 or the not-initialized flag alone, the
    card type is one of the five values of the probe sequence, and the card is
    deselected unless the driver has not touched the bus yet. *)
Lemma reachable_idle miso irq s : reachable miso irq s -> idle_invariant s.
Proof.
  induction 1 as [ | | s _ IH | s pdrv r s' _ IH H | s fuel pdrv r s' _ IH H
                 | s fuel pdrv sector count r s' _ IH H
                 | s fuel pdrv buff sector count r s' _ IH H
                 | s fuel pdrv cmd r s' _ IH H ].
  - split; [right; reflexivity|]. split; left; reflexivity.
  - split; [right; reflexivity|]. split; left; reflexivity.
  - destruct IH as (A & B & C).
    destruct (tick_fields s) as (_ & L & T & Cs).
    split; [apply tick_stat_values, A|]. split; [congruence|].
    destruct C as [C|C]; [left|right]; congruence.
  - unfold disk_status in H. destruct (negb (pdrv =? 0)); run_inv; exact IH.
  - destruct IH as (A & B & C).
    split; [exact (keeps_stat_values_initialize _ _ _ _ _ _ _ H A)|].
    destruct (disk_initialize_cases _ _ _ _ _ _ _ H)
      as [(-> & _ & _)|(_ & _ & V & Cs & _)]; split; auto.
  - destruct IH as (A & B & C).
    destruct (disk_read_cases _ _ _ _ _ _ _ _ _ H)
      as [(-> & _)|(_ & _ & _ & s1 & Q & ->)]; [repeat split; assumption|].
    pose proof (quiet_trans _ _ _ Q (quiet_deselected miso irq s1)) as (_ & T & _).
    split; [|split; [rewrite T; exact B|right; apply deselected_cs]].
    exact (keeps_stat_values_read _ _ _ _ _ _ _ _ _ H A).
  - destruct IH as (A & B & C).
    destruct (disk_write_cases _ _ _ _ _ _ _ _ _ _ H)
      as [(-> & _)|(_ & _ & _ & _ & s1 & Q & ->)]; [repeat split; assumption|].
    pose proof (quiet_trans _ _ _ Q (quiet_deselected miso irq s1)) as (_ & T & _).
    split; [|split; [rewrite T; exact B|right; apply deselected_cs]].
    exact (keeps_stat_values_write _ _ _ _ _ _ _ _ _ _ H A).
  - destruct IH as (A & B & C).
    destruct (disk_ioctl_cases _ _ _ _ _ _ _ _ H)
      as [(-> & _)|(_ & _ & s1 & Q & ->)]; [repeat split; assumption|].
    pose proof (quiet_trans _ _ _ Q (quiet_deselected miso irq s1)) as (_ & T & _).
    split; [|split; [rewrite T; exact B|right; apply deselected_cs]].
    exact (keeps_stat_values_ioctl _ _ _ _ _ _ _ _ H A).
Qed.

(** ** Bursts *)

Lemma burst_step cnt :
  0 <= cnt < 4294967296 ->
  (u32 (cnt - 1) = 0 /\ burst_length cnt = 1) \/
  (u32 (cnt - 1) <> 0 /\ 0 <= u32 (cnt - 1) < 4294967296 /\
   burst_length cnt = 1 + burst_length (u32 (cnt - 1))).
Proof.
  intros Hc. unfold burst_length.
  destruct (Z.eqb_spec cnt 0) as [Z0|NZ].
  - subst cnt. right. change (u32 (0 - 1)) with 4294967295.
    change (4294967295 =? 0) with false. lia.
  - assert (E : u32 (cnt - 1) = cnt - 1)
      by (unfold u32; apply Z.mod_small; lia).
    rewrite E. destruct (Z.eqb_spec (cnt - 1) 0) as [Z1|N1]; [left|right]; lia.
Qed.

Lemma xmit_spi_multi_loop_clk miso irq : forall f buff cnt s u s',
  0 <= cnt < 4294967296 ->
  xmit_spi_multi_loop miso irq f buff cnt s = Done u s' ->
  Z.of_nat (clk s') = Z.of_nat (clk s) + burst_length cnt.
Proof.
  induction f as [|f IH]; intros buff cnt s u s' Hc H; [discriminate H|].
  cbn [xmit_spi_multi_loop] in H. xchg_step H.
  destruct (burst_step cnt Hc) as [(E & B)|(E & R & B)]; rewrite B.
  - rewrite E in H. ret_inv H. rewrite after_xchg_clk. lia.
  - apply Z.eqb_neq in E. rewrite E in H. apply IH in H; [|exact R].
    rewrite after_xchg_clk in H. lia.
Qed.

Lemma rcvr_spi_multi_loop_clk miso irq : forall f cnt s l s',
  0 <= cnt < 4294967296 ->
  rcvr_spi_multi_loop miso irq f cnt s = Done l s' ->
  Z.of_nat (clk s') = Z.of_nat (clk s) + burst_length cnt /\
  Z.of_nat (length l) = burst_length cnt.
Proof.
  induction f as [|f IH]; intros cnt s l s' Hc H; [discriminate H|].
  cbn [rcvr_spi_multi_loop] in H. xchg_step H.
  destruct (burst_step cnt Hc) as [(E & B)|(E & R & B)]; rewrite B.
  - rewrite E in H. ret_inv H. rewrite after_xchg_clk. cbn [length]. lia.
  - apply Z.eqb_neq in E. rewrite E in H. bind_inv H l1 s1 H1. ret_inv H.
    apply IH in H1; [|exact R]. rewrite after_xchg_clk in H1.
    cbn [length]. lia.
Qed.

Lemma xmit_spi_multi_loop_short miso irq : forall f buff cnt s,
  0 <= cnt < 4294967296 -> Z.of_nat f < burst_length cnt ->
  xmit_spi_multi_loop miso irq f buff cnt s = OutOfFuel.
Proof.
  induction f as [|f IH]; intros buff cnt s Hc Hf; [reflexivity|].
  cbn [xmit_spi_multi_loop]. unfold bind at 1. rewrite xchg_spi_eq.
  destruct (burst_step cnt Hc) as [(E & B)|(E & R & B)]; [lia|].
  apply Z.eqb_neq in E. rewrite E. apply IH; [exact R|lia].
Qed.

Lemma rcvr_spi_multi_loop_short miso irq : forall f cnt s,
  0 <= cnt < 4294967296 -> Z.of_nat f < burst_length cnt ->
  rcvr_spi_multi_loop miso irq f cnt s = OutOfFuel.
Proof.
  induction f as [|f IH]; intros cnt s Hc Hf; [reflexivity|].
  cbn [rcvr_spi_multi_loop]. unfold bind at 1. rewrite xchg_spi_eq.
  destruct (burst_step cnt Hc) as [(E & B)|(E & R & B)]; [lia|].
  apply Z.eqb_neq in E. rewrite E. unfold bind. rewrite IH; [reflexivity|exact R|lia].
Qed.

(** ** Filler bytes *)

Lemma filler_only_refl s : filler_only s s.
Proof. exists []. rewrite app_nil_r. split; [reflexivity|constructor]. Qed.

Lemma filler_only_trans s1 s2 s3 :
  filler_only s1 s2 -> filler_only s2 s3 -> filler_only s1 s3.
Proof.
  intros (l1 & L1 & F1) (l2 & L2 & F2). exists (l1 ++ l2).
  rewrite L2, L1, app_assoc, sent_app. split; [reflexivity|].
  apply Forall_app. split; assumption.
Qed.

Lemma filler_only_xchg miso irq s : filler_only s (after_xchg miso irq 0xFF s).
Proof.
  exists [EvXchg 0xFF (u8 (miso (clk s)))]. rewrite after_xchg_log.
  split; [reflexivity|]. repeat constructor.
Qed.

Lemma filler_only_cs s b : filler_only s (emit (EvCS b) (set_cs b s)).
Proof. exists [EvCS b]. split; [reflexivity|constructor]. Qed.

Lemma filler_only_deselected miso irq s : filler_only s (deselected miso irq s).
Proof.
  unfold deselected. eapply filler_only_trans; [apply filler_only_cs|].
  apply filler_only_xchg.
Qed.

(** ** The ready wait and the selection *)

(** The polling loop of [wait_ready] ends on a 0xFF from the card or with
    Timer2 at zero; the last exchange of the run is the one that returned the
    value of the loop. *)
Lemma wait_ready_loop_Done miso irq : forall f s d s',
  wait_ready_loop miso irq f s = Done d s' ->
  (d = 0xFF \/ Timer2 s' = 0) /\
  cs_high s' = cs_high s /\
  exists l, log s' = log s ++ l ++ [EvXchg 0xFF d] /\
            Forall (fun b => b = 0xFF) (sent l).
Proof.
  induction f as [|f IH]; intros s d s' H; [discriminate H|].
  cbn [wait_ready_loop] in H. xchg_step H. bind_inv H t s1 H1. gets_inv H1.
  destruct (Z.eqb_spec (u8 (miso (clk s))) 255) as [E|E]; cbn [negb andb] in H.
  - ret_inv H. split; [left; exact E|]. split; [apply after_xchg_cs|].
    exists []. rewrite after_xchg_log. split; [reflexivity|constructor].
  - destruct (Z.eqb_spec (Timer2 (after_xchg miso irq 255 s)) 0) as [T|T];
      cbn [negb] in H.
    + ret_inv H. split; [right; exact T|]. split; [apply after_xchg_cs|].
      exists []. rewrite after_xchg_log. split; [reflexivity|constructor].
    + destruct (IH _ _ _ H) as (A & B & l & L & F).
      split; [exact A|]. split; [rewrite B; apply after_xchg_cs|].
      exists (EvXchg 255 (u8 (miso (clk s))) :: l).
      rewrite L, after_xchg_log, <- app_assoc. split; [reflexivity|].
      change (sent (?e :: l)) with (255 :: sent l). constructor; [reflexivity|exact F].
Qed.

Lemma wait_ready_Done miso irq fuel s r s' :
  wait_ready miso irq fuel s = Done r s' ->
  (r = false -> Timer2 s' = 0) /\
  cs_high s' = cs_high s /\
  exists l rx, log s' = log s ++ l ++ [EvXchg 0xFF rx] /\
               Forall (fun b => b = 0xFF) (sent l) /\
               r = (rx =? 0xFF).
Proof.
  intros H. unfold wait_ready in H. bind_inv H u s1 H1.
  apply modify_Done in H1. subst s1. bind_inv H d s2 H2. ret_inv H.
  destruct (wait_ready_loop_Done _ _ _ _ _ _ H2) as (A & B & l & L & F).
  split; [|split; [exact B|]].
  - intros E. apply Z.eqb_neq in E. destruct A as [A|A]; [contradiction|exact A].
  - exists l, d. split; [exact L|]. split; [exact F|reflexivity].
Qed.

(** A finished selection: either the card became ready, and CS# stays low, or
    the ready wait timed out, and the card has been deselected. *)
Lemma mmc_select_Done miso irq fuel s r s' :
  mmc_select miso irq fuel s = Done r s' ->
  cs_high s' = negb r /\
  filler_only s s' /\
  (r = true ->
   exists l, log s' = log s ++ EvCS false :: l ++ [EvXchg 0xFF 0xFF]) /\
  (r = false ->
   Timer2 s' = 0 /\
   exists l rx, log s' = log s ++ EvCS false :: l ++ [EvCS true; EvXchg 0xFF rx]).
Proof.
  intros H. unfold mmc_select, CS_LOW in H. bind_inv H u s1 H1.
  apply modify_Done in H1. subst s1. xchg_step H. bind_inv H rd s2 H2.
  destruct (wait_ready_Done _ _ _ _ _ _ H2) as (T & C & l & rx & L & F & R).
  rewrite after_xchg_cs in C. cbn [cs_high emit set_cs] in C.
  rewrite after_xchg_log in L. cbn [log emit set_cs clk] in L.
  rewrite <- !app_assoc in L. cbn [app] in L.
  assert (Fw : filler_only s s2).
  { exists (EvCS false :: EvXchg 255 (u8 (miso (clk s))) :: l ++ [EvXchg 255 rx]).
    split; [exact L|].
    change (Forall (fun b => b = 255) (255 :: sent (l ++ [EvXchg 255 rx]))).
    constructor; [reflexivity|]. rewrite sent_app. apply Forall_app.
    split; [exact F|repeat constructor]. }
  destruct rd.
  - ret_inv H. split; [exact C|]. split; [exact Fw|]. split; [|discriminate].
    intros _. symmetry in R. apply Z.eqb_eq in R. subst rx.
    exists (EvXchg 255 (u8 (miso (clk s))) :: l). rewrite L. reflexivity.
  - bind_inv H u1 s3 H3. rewrite mmc_deselect_eq in H3. inversion H3; subst s3.
    ret_inv H. split; [apply deselected_cs|].
    split; [eapply filler_only_trans; [exact Fw|apply filler_only_deselected]|].
    split; [discriminate|]. intros _. split.
    + unfold deselected. rewrite after_xchg_Timer2.
      * cbn [Timer2 emit set_cs]. rewrite (T eq_refl). lia.
      * cbn [Timer2 emit set_cs]. rewrite (T eq_refl). lia.
    + exists (EvXchg 255 (u8 (miso (clk s))) :: l ++ [EvXchg 255 rx]),
        (u8 (miso (clk s2))).
      rewrite deselected_log, L. rewrite <- !app_assoc. reflexivity.
Qed.

(** ** The response poll *)

Lemma send_cmd_resp_Done miso irq : forall f n s r s',
  0 < n < 256 ->
  send_cmd_resp miso irq f n s = Done r s' ->
  exists k,
    Z.of_nat k < n /\
    clk s' = (clk s + S k)%nat /\
    r = u8 (miso (clk s + k)%nat) /\
    (forall i, (i < k)%nat -> Z.land (u8 (miso (clk s + i)%nat)) 0x80 <> 0) /\
    (Z.land r 0x80 <> 0 -> Z.of_nat (S k) = n) /\
    cs_high s' = cs_high s.
Proof.
  induction f as [|f IH]; intros n s r s' Hn H; [discriminate H|].
  cbn [send_cmd_resp] in H. xchg_step H.
  assert (One : r = u8 (miso (clk s)) -> s' = after_xchg miso irq 255 s ->
                (Z.land r 0x80 <> 0 -> n = 1) ->
                exists k,
                  Z.of_nat k < n /\ clk s' = (clk s + S k)%nat /\
                  r = u8 (miso (clk s + k)%nat) /\
                  (forall i, (i < k)%nat ->
                             Z.land (u8 (miso (clk s + i)%nat)) 0x80 <> 0) /\
                  (Z.land r 0x80 <> 0 -> Z.of_nat (S k) = n) /\
                  cs_high s' = cs_high s).
  { intros -> -> G. exists 0%nat. rewrite after_xchg_clk, after_xchg_cs, Nat.add_0_r.
    split; [simpl; lia|]. split; [lia|]. split; [reflexivity|].
    split; [intros i Hi; lia|]. split; [|reflexivity].
    intros B. rewrite (G B). reflexivity. }
  destruct (Z.eqb_spec (Z.land (u8 (miso (clk s))) 128) 0) as [B|B];
    cbn [negb] in H.
  - ret_inv H. apply One; [reflexivity|reflexivity|]. intros G. contradiction.
  - assert (E : u8 (n - 1) = n - 1) by (unfold u8; apply Z.mod_small; lia).
    rewrite E in H. destruct (Z.eqb_spec (n - 1) 0) as [Z0|NZ]; cbn [negb] in H.
    + ret_inv H. apply One; [reflexivity|reflexivity|]. intros _. lia.
    + assert (Hn' : 0 < n - 1 < 256) by lia.
      destruct (IH _ _ _ _ Hn' H) as (k & K1 & K2 & K3 & K4 & K5 & K6).
      rewrite after_xchg_clk in K2, K3, K4. rewrite after_xchg_cs in K6.
      exists (S k). split; [lia|]. split; [lia|].
      split; [rewrite K3; f_equal; f_equal; lia|].
      split; [|split; [intros G; specialize (K5 G); lia|exact K6]].
      intros i Hi. destruct i as [|i]; [rewrite Nat.add_0_r; exact B|].
      replace (clk s + S i)%nat with (S (clk s) + i)%nat by lia.
      apply K4. lia.
Qed.

(** ** The command packet *)

Lemma lor_start_bit cmd : 0 <= cmd < 64 -> Z.lor 0x40 cmd = 64 + cmd.
Proof.
  intros Hc. pose proof (Z.add_lor_land 64 cmd) as E.
  assert (L : Z.land 64 cmd = 0).
  { rewrite Z.land_comm. change 64 with (2 ^ 6). apply land_pow2_zero; [lia|].
    destruct (Z.eq_dec cmd 0) as [->|NZ]; [apply Z.bits_0|].
    apply Z.bits_above_log2; [lia|]. apply Z.log2_lt_pow2; lia. }
  lia.
Qed.

Lemma arg_bytes arg :
  0 <= arg < 4294967296 ->
  u8 (u8 (Z.shiftr arg 24)) * 16777216 + u8 (u8 (Z.shiftr arg 16)) * 65536
  + u8 (u8 (Z.shiftr arg 8)) * 256 + u8 (u8 arg) = arg.
Proof.
  intros Ha. unfold u8. rewrite !Z.mod_mod by lia.
  rewrite !Z.shiftr_div_pow2 by lia.
  change (2 ^ 24) with (256 * 256 * 256). change (2 ^ 16) with (256 * 256).
  change (2 ^ 8) with 256.
  rewrite <- !Z.div_div by lia.
  pose proof (Z.div_mod arg 256 ltac:(lia)) as E0.
  pose proof (Z.div_mod (arg / 256) 256 ltac:(lia)) as E1.
  pose proof (Z.div_mod (arg / 256 / 256) 256 ltac:(lia)) as E2.
  assert (B : 0 <= arg / 256 / 256 / 256 < 256).
  { split; [repeat apply Z.div_pos; lia|].
    repeat (apply Z.div_lt_upper_bound; [lia|]). lia. }
  rewrite (Z.mod_small (arg / 256 / 256 / 256)) by exact B. lia.
Qed.

Lemma u8_byte x : is_byte (u8 x).
Proof. unfold is_byte, u8. apply Z.mod_pos_bound. lia. Qed.

(** A finished run of the packet part of a command other than the stop
    command: either the selection timed out, and nothing but filler bytes went
    out, or the card is selected and the six bytes of the packet follow the
    filler bytes of the selection. *)
Lemma send_cmd_packet_cases miso irq fuel cmd arg s r s' :
  cmd <> CMD12 ->
  send_cmd_packet miso irq fuel cmd arg s = Done r s' ->
  (cs_high s' = true /\ r = 0xFF /\ Timer2 s' = 0 /\ filler_only s s') \/
  (cs_high s' = false /\
   exists l0 l k,
     log s' = log s ++ l0 ++ l /\
     Forall (fun b => b = 0xFF) (sent l0) /\
     sent l = [u8 (Z.lor 0x40 cmd); u8 (u8 (Z.shiftr arg 24));
               u8 (u8 (Z.shiftr arg 16)); u8 (u8 (Z.shiftr arg 8));
               u8 (u8 arg);
               u8 (if cmd =? CMD8 then 0x87
                   else if cmd =? CMD0 then 0x95 else 0x01)]
              ++ repeat 0xFF (S k)).
Proof.
  intros Hc H.
  destruct (send_cmd_packet_bytes _ _ _ _ _ _ _ _ Hc H)
    as (sel & s1 & Hsel & Hf & Ht).
  bind_inv Hsel u s0 Hd. rewrite mmc_deselect_eq in Hd. inversion Hd; subst s0.
  destruct (mmc_select_Done _ _ _ _ _ _ Hsel) as (C & F & _ & T).
  pose proof (filler_only_trans _ _ _ (filler_only_deselected miso irq s) F) as F1.
  destruct sel.
  - right. destruct (Ht eq_refl) as (l & k & L & S1).
    destruct F1 as (l0 & L0 & F0). split.
    + unfold send_cmd_packet in H. apply Z.eqb_neq in Hc. rewrite Hc in H.
      cbn [negb] in H. bind_inv H sel s2 H2. bind_inv H2 u2 s3 H3.
      rewrite mmc_deselect_eq in H3. inversion H3; subst s3.
      rewrite Hsel in H2. inversion H2; subst. cbn [negb] in H.
      do 6 xchg_step H. bind_inv H u3 t E. ret_inv E.
      destruct (send_cmd_resp_Done miso irq fuel 10 _ _ _ ltac:(lia) H)
        as (k0 & _ & _ & _ & _ & _ & K).
      rewrite K, !after_xchg_cs. exact C.
    + exists l0, l, k. rewrite L, L0, <- app_assoc.
      split; [reflexivity|]. split; assumption.
  - left. destruct (Hf eq_refl) as (-> & ->).
    split; [exact C|]. split; [reflexivity|]. split; [apply T; reflexivity|exact F1].
Qed.

(** The packet part of the stop command: no selection, the six bytes, one
    stuff byte and the response poll. *)
Lemma send_cmd_packet_stop miso irq fuel arg s r s' :
  send_cmd_packet miso irq fuel CMD12 arg s = Done r s' ->
  cs_high s' = cs_high s /\
  exists l k,
    log s' = log s ++ l /\
    sent l = [0x4C; u8 (u8 (Z.shiftr arg 24)); u8 (u8 (Z.shiftr arg 16));
              u8 (u8 (Z.shiftr arg 8)); u8 (u8 arg); 0x01; 0xFF]
             ++ repeat 0xFF (S k).
Proof.
  intros H. unfold send_cmd_packet in H.
  change (CMD12 =? CMD12) with true in H. cbn [negb] in H.
  bind_inv H sel s1 Hsel. ret_inv Hsel. cbn [negb] in H.
  do 6 xchg_step H. bind_inv H u t E. xchg_step E. ret_inv E.
  destruct (send_cmd_resp_sent _ _ _ _ _ _ _ H) as (l & k & L & S1).
  destruct (send_cmd_resp_Done miso irq fuel 10 _ _ _ ltac:(lia) H)
    as (k0 & _ & _ & _ & _ & _ & K).
  split; [rewrite K, !after_xchg_cs; reflexivity|].
  repeat rewrite after_xchg_log in L. rewrite <- !app_assoc in L.
  eexists. exists k. split; [exact L|].
  cbn [app]. cbn [sent flat_map app]. fold (sent l). rewrite S1. reflexivity.
Qed.

(** ** The negotiation loop *)

(** The loop of the initialization ends with Timer1 at zero or on a command
    that returned 0; Timer1 is armed nowhere in it. *)
Lemma init_poll_Done miso irq fuel : forall f cmd arg s u s',
  init_poll miso irq fuel f cmd arg s = Done u s' ->
  timer1_runs irq s s' /\
  (Timer1 s = 0 -> s' = s) /\
  (Timer1 s' = 0 \/
   exists s0, timer1_runs irq s s0 /\ Timer1 s0 <> 0 /\
              send_cmd miso irq fuel cmd arg s0 = Done 0 s').
Proof.
  induction f as [|f IH]; intros cmd arg s u s' H; [discriminate H|].
  cbn [init_poll] in H. bind_inv H t s1 H1. gets_inv H1.
  destruct (Z.eqb_spec (Timer1 s) 0) as [T|T].
  - ret_inv H. split; [apply timer1_runs_refl|].
    split; [reflexivity|left; exact T].
  - bind_inv H r s1 H1.
    pose proof (timer1_runs_send_cmd _ _ _ _ _ _ _ _ H1) as R1.
    destruct (Z.eqb_spec r 0) as [Z0|NZ].
    + ret_inv H. split; [exact R1|]. split; [intros Z1; contradiction|right].
      exists s. split; [apply timer1_runs_refl|]. split; assumption.
    + destruct (IH _ _ _ _ _ H) as (R2 & _ & E).
      split; [eapply timer1_runs_trans; eassumption|].
      split; [intros Z1; contradiction|].
      destruct E as [E|(s0 & E1 & E2 & E3)]; [left; exact E|right].
      exists s0. split; [eapply timer1_runs_trans; eassumption|].
      split; assumption.
Qed.

Lemma land_flag_small cmd : 0 <= cmd < 64 -> Z.land cmd 0x80 = 0.
Proof.
  intros Hc. change 128 with (2 ^ 7). apply land_pow2_zero; [lia|].
  destruct (Z.eq_dec cmd 0) as [->|NZ]; [apply Z.bits_0|].
  apply Z.bits_above_log2; [lia|]. apply Z.log2_lt_pow2; lia.
Qed.

(** Without the application-command flag, [send_cmd] is its packet part. *)
Lemma send_cmd_plain miso irq fuel cmd arg :
  (1 <= fuel)%nat -> Z.land cmd 0x80 = 0 ->
  send_cmd miso irq fuel cmd arg = send_cmd_packet miso irq fuel cmd arg.
Proof.
  intros Hf Hc. unfold send_cmd. replace fuel with (S (fuel - 1)) at 2 by lia.
  rewrite send_cmd_rec_S, Hc. reflexivity.
Qed.

Lemma timer1_runs_xmit_datablock miso irq fuel buff token :
  preserves (timer1_runs irq) (xmit_datablock miso irq fuel buff token).
Proof. apply pres_xmit_datablock; timer1_facts. Qed.

(** ** Reading blocks *)

Lemma rcvr_datablock_loop_Done miso irq : forall f s token s',
  rcvr_datablock_loop miso irq f s = Done token s' ->
  (clk s < clk s')%nat /\ token = u8 (miso (clk s' - 1)%nat).
Proof.
  induction f as [|f IH]; intros s token s' H; [discriminate H|].
  cbn [rcvr_datablock_loop] in H. xchg_step H. bind_inv H t s1 H1. gets_inv H1.
  destruct ((u8 (miso (clk s)) =? 255)
            && negb (Timer1 (after_xchg miso irq 255 s) =? 0)).
  - apply IH in H. rewrite after_xchg_clk in H. split; [lia|apply H].
  - ret_inv H. rewrite after_xchg_clk. split; [lia|].
    f_equal. f_equal. lia.
Qed.

(** A data block that [rcvr_datablock] stores: the bytes the card sends right
    after the data token; two more exchanges follow them. *)
Lemma rcvr_datablock_Some miso irq fuel btr s l s' :
  0 < btr < 4294967296 ->
  rcvr_datablock miso irq fuel btr s = Done (Some l) s' ->
  exists from,
    (clk s < from)%nat /\ u8 (miso (from - 1)%nat) = 0xFE /\
    l = received miso from (Z.to_nat btr) /\
    clk s' = (from + Z.to_nat btr + 2)%nat.
Proof.
  intros Hb H. unfold rcvr_datablock in H. bind_inv H u s1 H1.
  apply modify_Done in H1. subst s1. bind_inv H token s2 H2.
  destruct (Z.eqb_spec token 254) as [T|T]; cbn [negb] in H;
    [|ret_inv H; discriminate].
  bind_inv H buff s3 H3. do 2 xchg_step H. ret_inv H.
  match goal with E : Some _ = Some _ |- _ => inversion E; subst; clear E end.
  destruct (rcvr_datablock_loop_Done _ _ _ _ _ _ H2) as (C & E).
  cbn [clk set_Timer1] in C. unfold rcvr_spi_multi in H3.
  assert (Hb0 : 0 <= btr < 4294967296) by lia.
  destruct (rcvr_spi_multi_loop_clk _ _ _ _ _ _ _ Hb0 H3) as (K & Ln).
  destruct (rcvr_spi_multi_loop_Done _ _ _ _ _ _ _ H3) as (R & _).
  assert (B : burst_length btr = btr).
  { unfold burst_length. destruct (Z.eqb_spec btr 0); [lia|reflexivity]. }
  rewrite B in K, Ln.
  exists (clk s2). split; [exact C|]. split; [congruence|].
  split; [replace (Z.to_nat btr) with (length l) by lia; exact R|].
  rewrite !after_xchg_clk. lia.
Qed.

Lemma blocks_received_app miso l1 l2 :
  blocks_received miso (l1 ++ l2)
  = blocks_received miso l1 ++ blocks_received miso l2.
Proof. apply flat_map_app. Qed.

Lemma blocks_received_length miso froms :
  Z.of_nat (length (blocks_received miso froms)) = 512 * Z.of_nat (length froms).
Proof.
  induction froms as [|from froms IH]; [reflexivity|].
  change (blocks_received miso (from :: froms))
    with (received miso from 512 ++ blocks_received miso froms).
  rewrite length_app, received_length. cbn [length]. lia.
Qed.

Lemma blocks_received_bytes miso froms :
  Forall is_byte (blocks_received miso froms).
Proof.
  induction froms as [|from froms IH]; [constructor|].
  change (blocks_received miso (from :: froms))
    with (received miso from 512 ++ blocks_received miso froms).
  apply Forall_app. split; [apply received_bytes|exact IH].
Qed.

(** The loop of the multiple block read stores the blocks it receives, one
    per round, until a block fails or the count is used up. *)
Lemma disk_read_loop_Done miso irq fuel : forall f count acc s c b s',
  0 < count < 4294967296 ->
  disk_read_loop miso irq fuel f count acc s = Done (c, b) s' ->
  exists froms,
    b = acc ++ blocks_received miso froms /\
    Forall (fun from => (clk s < from)%nat /\ u8 (miso (from - 1)%nat) = 0xFE)
           froms /\
    ForallOrdPairs (fun a b => (a + 512 < b)%nat) froms /\
    Z.of_nat (length froms) = count - c /\ 0 <= c <= count /\
    (clk s < clk s')%nat.
Proof.
  induction f as [|f IH]; intros count acc s c b s' Hc H; [discriminate H|].
  cbn [disk_read_loop] in H. bind_inv H r s1 H1. destruct r as [blk|].
  - assert (H512 : 0 < 512 < 4294967296) by lia.
    destruct (rcvr_datablock_Some _ _ _ _ _ _ _ H512 H1)
      as (from & F1 & F2 & F3 & F4).
    change (Z.to_nat 512) with 512%nat in F3, F4.
    assert (E : u32 (count - 1) = count - 1)
      by (unfold u32; apply Z.mod_small; lia).
    rewrite E in H. destruct (Z.eqb_spec (count - 1) 0) as [Z0|NZ].
    + ret_inv H. match goal with E : (_, _) = (_, _) |- _ => inversion E; subst end.
      exists [from]. split; [|split; [|split; [|split; [|split]]]].
      * cbn [blocks_received flat_map]. rewrite app_nil_r. reflexivity.
      * constructor; [split; assumption|constructor].
      * repeat constructor.
      * simpl. lia.
      * lia.
      * lia.
    + assert (Hc' : 0 < count - 1 < 4294967296) by lia.
      destruct (IH _ _ _ _ _ _ Hc' H) as (froms & B1 & B2 & BS & B3 & B4 & B5).
      exists (from :: froms). split; [|split; [|split; [|split; [|split]]]].
      * rewrite B1, <- app_assoc, F3. reflexivity.
      * constructor; [split; assumption|].
        eapply Forall_impl; [|exact B2]. cbv beta. intros a (A1 & A2).
        split; [lia|exact A2].
      * constructor; [|exact BS].
        eapply Forall_impl; [|exact B2]. cbv beta. intros a (A1 & _). lia.
      * cbn [length]. lia.
      * lia.
      * lia.
  - ret_inv H. match goal with E : (_, _) = (_, _) |- _ => inversion E; subst end.
    exists []. cbn [blocks_received flat_map]. rewrite app_nil_r.
    split; [reflexivity|]. split; [constructor|]. split; [constructor|].
    split; [simpl; lia|]. split; [lia|].
    unfold rcvr_datablock in H1. bind_inv H1 u s0 H0. apply modify_Done in H0.
    subst s0. bind_inv H1 token s2 H2.
    destruct (rcvr_datablock_loop_Done _ _ _ _ _ _ H2) as (C & _).
    cbn [clk set_Timer1] in C.
    destruct (negb (token =? 254)); [ret_inv H1; exact C|].
    bind_inv H1 buff s3 H3. do 2 xchg_step H1. ret_inv H1. discriminate.
Qed.

(** How a finished [disk_read] that passes the gates runs. *)
Lemma disk_read_run miso irq fuel sector count s r buff s' :
  count <> 0 -> Z.land (Stat s) STA_NOINIT = 0 ->
  disk_read miso irq fuel 0 sector count s = Done (r, buff) s' ->
  (count = 1 ->
   exists r17 s1,
     send_cmd miso irq fuel CMD17 (block_address (CardType s) sector) s
     = Done r17 s1 /\
     (r17 <> 0 -> r = RES_ERROR /\ buff = [] /\ s' = deselected miso irq s1) /\
     (r17 = 0 ->
      exists blk s2,
        rcvr_datablock miso irq fuel 512 s1 = Done blk s2 /\
        s' = deselected miso irq s2 /\
        match blk with
        | Some l => r = RES_OK /\ buff = l
        | None => r = RES_ERROR /\ buff = []
        end)) /\
  (count <> 1 ->
   exists r18 s1,
     send_cmd miso irq fuel CMD18 (block_address (CardType s) sector) s
     = Done r18 s1 /\
     (r18 <> 0 -> r = RES_ERROR /\ buff = [] /\ s' = deselected miso irq s1) /\
     (r18 = 0 ->
      exists c s2 r12 s3,
        disk_read_loop miso irq fuel fuel count [] s1 = Done (c, buff) s2 /\
        send_cmd miso irq fuel CMD12 0 s2 = Done r12 s3 /\
        s' = deselected miso irq s3 /\
        r = (if c =? 0 then RES_OK else RES_ERROR))).
Proof.
  intros C N H. unfold disk_read in H.
  change (negb (0 =? 0)) with false in H. pose proof C as C0.
  apply Z.eqb_neq in C0. rewrite C0 in H. cbn [orb] in H.
  bind_inv H st s0 H0. gets_inv H0. rewrite N in H.
  change (negb (0 =? 0)) with false in H. cbv iota in H.
  bind_inv H ct s0 H0. gets_inv H0. fold (block_address (CardType s) sector) in H.
  bind_inv H cb s1 Hb. bind_inv H u s2 Hd. rewrite mmc_deselect_eq in Hd.
  inversion Hd; subst s2. ret_inv H.
  match goal with E : (_, _) = (_, _) |- _ => inversion E; subst; clear E end.
  destruct (Z.eqb_spec count 1) as [C1|C1]; (split; [|]); intros G;
    try contradiction.
  - bind_inv Hb r17 s2 H17. exists r17, s2. split; [exact H17|].
    destruct (Z.eqb_spec r17 0) as [Z0|NZ].
    + split; [intros F; contradiction|]. intros _.
      bind_inv Hb blk s3 H3. exists blk, s3. split; [exact H3|].
      destruct blk; ret_inv Hb; (split; [reflexivity|]); cbn [fst snd];
        [|rewrite C0]; split; reflexivity.
    + split; [|intros F; contradiction]. intros _. ret_inv Hb.
      cbn [fst snd]. rewrite C0. repeat split.
  - bind_inv Hb r18 s2 H18. exists r18, s2. split; [exact H18|].
    destruct (Z.eqb_spec r18 0) as [Z0|NZ].
    + split; [intros F; contradiction|]. intros _.
      bind_inv Hb cb' s3 H3. bind_inv Hb r12 s4 H4. ret_inv Hb.
      destruct cb as (c, b). exists c, s3, r12, s1. cbn [fst snd].
      split; [exact H3|]. split; [exact H4|]. split; [reflexivity|].
      destruct (c =? 0); reflexivity.
    + split; [|intros F; contradiction]. intros _. ret_inv Hb.
      cbn [fst snd]. rewrite C0. repeat split.
Qed.

Lemma bind_ext {A B} (m : M A) (k k' : A -> M B) s :
  (forall a s1, m s = Done a s1 -> k a s1 = k' a s1) ->
  bind m k s = bind m k' s.
Proof.
  intros H. unfold bind. destruct (m s) as [a s1| |]; [|reflexivity|reflexivity].
  apply H. reflexivity.
Qed.

(** ** The probe sequence *)


(** ** Operations that end *)

Lemma halts_of_finishes {A} (m : nat -> M A) s : finishes m s -> halts m s.
Proof.
  intros (f0 & a & s' & H). exists f0, (Done a s'). split; [discriminate|exact H].
Qed.

Lemma halts_bind {A B} (m : nat -> M A) (k : nat -> A -> M B) s :
  halts m s ->
  (forall f a s1, m f s = Done a s1 -> halts (fun f => k f a) s1) ->
  halts (fun f => bind (m f) (k f)) s.
Proof.
  intros (f0 & o & No & Hm) Hk. destruct o as [a s1| |].
  - destruct (Hk f0 a s1 (Hm f0 (le_n _))) as (f1 & o1 & No1 & Hk1).
    exists (Nat.max f0 f1), o1. split; [exact No1|]. intros f Hf. unfold bind.
    rewrite Hm by lia. apply Hk1. lia.
  - contradiction.
  - exists f0, Undefined. split; [discriminate|]. intros f Hf. unfold bind.
    rewrite Hm by lia. reflexivity.
Qed.

Lemma halts_lift_opt o k s : halts (fun _ => lift_opt o k) s.
Proof.
  destruct o as [v|].
  - apply halts_of_finishes, finishes_ret.
  - exists 0%nat, Undefined. split; [discriminate|reflexivity].
Qed.

Section Ending.

Variable miso : nat -> Z.
Variable irq : nat -> nat.
Hypothesis irq_live : live irq.

(** A part of an operation that finishes. *)
Ltac fin_leaf :=
  match goal with
  | |- finishes (fun _ => ret _) _ => apply finishes_ret
  | |- finishes (fun f => send_cmd _ _ f _ _) _ =>
      apply send_cmd_finishes; exact irq_live
  | |- finishes (fun f => rcvr_datablock _ _ f _) _ =>
      apply rcvr_datablock_finishes; [exact irq_live | lia]
  | |- finishes (fun _ => mmc_deselect _ _) _ => apply mmc_deselect_finishes
  | |- finishes (fun f => mmc_select _ _ f) _ =>
      apply mmc_select_finishes; exact irq_live
  | |- finishes (mmc_select _ _) _ =>
      apply mmc_select_finishes; exact irq_live
  | |- finishes (fun _ => xchg_fill _ _ _) _ => apply xchg_fill_finishes
  | |- finishes (fun _ => xchg_spi _ _ _) _ => apply finishes_xchg
  | |- finishes (fun _ => gets _) _ => apply finishes_gets
  | |- finishes (fun _ => modify _) _ => apply finishes_modify
  end.

Ltac fin_go :=
  repeat match goal with
         | |- finishes (fun f => bind _ _) _ =>
             apply finishes_bind; [ | intros ? ? ? ? ]
         | |- finishes (fun f => if ?b then _ else _) _ => destruct b
         | |- finishes (fun f => match ?x with _ => _ end) _ => destruct x
         | |- finishes _ _ => fin_leaf
         end.

(** The loop of the multiple block read makes at most [count] rounds. *)
Lemma disk_read_loop_finishes : forall k acc s,
  Z.of_nat (S k) < 4294967296 ->
  exists f0 c s', forall fuel f, (f0 <= fuel)%nat -> (f0 <= f)%nat ->
    disk_read_loop miso irq fuel f (Z.of_nat (S k)) acc s = Done c s'.
Proof.
  induction k as [|k IH]; intros acc s Hk;
    (destruct (rcvr_datablock_finishes miso irq irq_live 512 s)
      as (f1 & r & s1 & H1); [lia|]).
  - exists (S f1), (match r with
                    | Some blk => (0, acc ++ blk)
                    | None => (1, acc)
                    end), s1.
    intros fuel f Hfuel Hf. destruct f as [|f]; [lia|].
    cbn [disk_read_loop]. unfold bind. rewrite H1 by lia.
    destruct r; reflexivity.
  - assert (E : u32 (Z.of_nat (S (S k)) - 1) = Z.of_nat (S k)).
    { unfold u32. rewrite Z.mod_small by lia. lia. }
    destruct r as [blk|].
    + destruct (IH (acc ++ blk) s1) as (f2 & c & s2 & H2); [lia|].
      exists (S (Nat.max f1 f2)), c, s2. intros fuel f Hfuel Hf.
      destruct f as [|f]; [lia|].
      cbn [disk_read_loop]. unfold bind. rewrite H1 by lia.
      rewrite E.
      destruct (Z.eqb_spec (Z.of_nat (S k)) 0) as [Z0|_]; [lia|].
      apply H2; lia.
    + exists (S f1), (Z.of_nat (S (S k)), acc), s1. intros fuel f Hfuel Hf.
      destruct f as [|f]; [lia|].
      cbn [disk_read_loop]. unfold bind. rewrite H1 by lia. reflexivity.
Qed.

Lemma disk_read_finishes pdrv sector count s :
  0 <= count < 4294967296 ->
  finishes (fun f => disk_read miso irq f pdrv sector count) s.
Proof.
  intros Hc. unfold disk_read.
  destruct (Z.eqb_spec count 0) as [Z0|NZ].
  - rewrite orb_true_r. apply finishes_ret.
  - destruct (negb (pdrv =? 0) || false); [apply finishes_ret|].
    apply finishes_bind; [fin_leaf|intros ? st ? ?].
    destruct (negb (Z.land st STA_NOINIT =? 0)); [apply finishes_ret|].
    apply finishes_bind; [fin_leaf|intros ? ? ? ?].
    apply finishes_bind; [|intros ? ? ? ?; fin_go].
    destruct (count =? 1); [fin_go|].
    apply finishes_bind; [fin_leaf|intros ? r18 ? ?].
    destruct (r18 =? 0); [|fin_go].
    apply finishes_bind; [|intros ? ? ? ?; fin_go].
    match goal with
    | |- finishes _ ?st =>
        destruct (disk_read_loop_finishes (Z.to_nat count - 1) [] st)
          as (fw & c & sw & Hw); [lia|]
    end.
    replace (Z.of_nat (S (Z.to_nat count - 1))) with count in Hw by lia.
    exists fw, c, sw. intros fw' Hf. apply Hw; exact Hf.
Qed.

Lemma disk_ioctl_halts pdrv cmd s :
  halts (fun f => disk_ioctl miso irq f pdrv cmd) s.
Proof.
  unfold disk_ioctl.
  repeat match goal with
         | |- halts (fun _ => lift_opt _ _) _ => apply halts_lift_opt
         | |- halts (fun f => bind _ _) _ =>
             apply halts_bind; [ | intros ? ? ? ? ]
         | |- halts (fun f => if ?b then _ else _) _ => destruct b
         | |- halts (fun f => match ?x with _ => _ end) _ => destruct x
         | |- halts _ _ => apply halts_of_finishes; fin_leaf
         end.
Qed.

End Ending.

(** ** Control codes *)

(** Evaluates the comparisons of constants in the finished run [H]. *)
Ltac eval_codes H :=
  repeat match type of H with
         | context [Z.eqb ?a ?b] =>
             lazymatch eval vm_compute in (Z.eqb a b) with
             | true => change (Z.eqb a b) with true in H
             | false => change (Z.eqb a b) with false in H
             end
         end;
  cbn [negb orb andb] in H; cbv iota in H.

(** A finished [disk_ioctl] with the result OK has passed the gates; the
    handler of the control code ran from the first state and the deselection
    followed it. *)
Lemma disk_ioctl_ok miso irq fuel cmd s out s' :
  disk_ioctl miso irq fuel 0 cmd s = Done (RES_OK, out) s' ->
  Z.land (Stat s) STA_NOINIT = 0.
Proof.
  intros H. destruct (disk_ioctl_cases _ _ _ _ _ _ _ _ H)
    as [(_ & [G|G])|(_ & N & _)]; [contradiction| |exact N].
  unfold disk_ioctl in H. cbn [negb Z.eqb] in H. bind_inv H st s0 H0.
  gets_inv H0. apply Z.eqb_neq in G. rewrite G in H. ret_inv H. discriminate.
Qed.

Lemma bind_gets {A B} (g : state -> A) (k : A -> M B) s :
  bind (gets g) k s = k (g s) s.
Proof. reflexivity. Qed.

(** ** The properties *)

Section Further.

Variable miso : nat -> Z.
Variable irq : nat -> nat.
Variable fuel : nat.

(** X1: the gates of disk_ioctl: a drive index other than 0 is answered with
    the parameter error, and drive 0 with the not-initialized flag set with
    not-ready, whatever the control code; in both cases nothing is stored
    through the buffer and the final state is the initial one: no byte is
    exchanged and CS# is not written. *)
Theorem disk_ioctl_gates pdrv cmd s :
  (pdrv <> 0 ->
   disk_ioctl miso irq fuel pdrv cmd s = Done (RES_PARERR, OutNone) s) /\
  (pdrv = 0 -> Z.land (Stat s) STA_NOINIT <> 0 ->
   disk_ioctl miso irq fuel pdrv cmd s = Done (RES_NOTRDY, OutNone) s).
Proof.
  unfold disk_ioctl. split.
  - intros P. apply Z.eqb_neq in P. rewrite P. reflexivity.
  - intros -> N. apply Z.eqb_neq in N. cbn [negb Z.eqb].
    unfold bind, gets. rewrite N. reflexivity.
Qed.

(** X2: on an initialized drive three kinds of control codes are answered
    without a command to the card; the only bus activity is the deselection
    at the end (CS# high, one filler byte).  MMC_GET_TYPE stores the low
    byte of CardType and returns OK; MMC_GET_SDSTAT on a card that is not
    SDv2 returns the error; and a code that the switch does not list returns
    the parameter error. *)
Theorem disk_ioctl_without_command cmd s :
  Z.land (Stat s) STA_NOINIT = 0 ->
  (cmd = MMC_GET_TYPE ->
   disk_ioctl miso irq fuel 0 cmd s
   = Done (RES_OK, OutByte (CardType s mod 256)) (deselected miso irq s)) /\
  (cmd = MMC_GET_SDSTAT -> Z.land (CardType s) CT_SD2 = 0 ->
   disk_ioctl miso irq fuel 0 cmd s
   = Done (RES_ERROR, OutNone) (deselected miso irq s)) /\
  (cmd <> CTRL_SYNC -> cmd <> GET_SECTOR_COUNT -> cmd <> GET_BLOCK_SIZE ->
   cmd <> MMC_GET_TYPE -> cmd <> MMC_GET_CSD -> cmd <> MMC_GET_CID ->
   cmd <> MMC_GET_OCR -> cmd <> MMC_GET_SDSTAT ->
   disk_ioctl miso irq fuel 0 cmd s
   = Done (RES_PARERR, OutNone) (deselected miso irq s)).
Proof.
  intros N. unfold disk_ioctl. cbn [negb Z.eqb].
  rewrite bind_gets. cbv beta. rewrite N. cbn [negb Z.eqb].
  rewrite bind_gets. cbv beta.
  split; [|split].
  - intros ->. reflexivity.
  - intros -> C.
    change (MMC_GET_SDSTAT =? CTRL_SYNC) with false.
    change (MMC_GET_SDSTAT =? GET_SECTOR_COUNT) with false.
    change (MMC_GET_SDSTAT =? GET_BLOCK_SIZE) with false.
    change (MMC_GET_SDSTAT =? MMC_GET_TYPE) with false.
    change (MMC_GET_SDSTAT =? MMC_GET_CSD) with false.
    change (MMC_GET_SDSTAT =? MMC_GET_CID) with false.
    change (MMC_GET_SDSTAT =? MMC_GET_OCR) with false.
    change (MMC_GET_SDSTAT =? MMC_GET_SDSTAT) with true.
    cbn [orb]. cbv iota. rewrite C. reflexivity.
  - intros C1 C2 C3 C4 C5 C6 C7 C8.
    apply Z.eqb_neq in C1, C2, C3, C4, C5, C6, C7, C8.
    rewrite C1, C2, C3, C4, C5, C6, C7, C8. reflexivity.
Qed.

(** X3: on an initialized drive, every finished call of disk_read, disk_write
    and disk_ioctl that passes the gates ends with the deselection: CS# is
    high at the return, and the last two actions on the bus are the rise of
    CS# and one filler byte, whatever the operation did before and whatever
    its result. *)
Theorem operations_end_deselected s :
  Z.land (Stat s) STA_NOINIT = 0 ->
  (forall sector count r s',
     count <> 0 ->
     disk_read miso irq fuel 0 sector count s = Done r s' ->
     cs_high s' = true /\
     exists l rx, log s' = log s ++ l ++ [EvCS true; EvXchg 0xFF rx]) /\
  (forall buff sector count r s',
     count <> 0 -> Z.land (Stat s) STA_PROTECT = 0 ->
     disk_write miso irq fuel 0 buff sector count s = Done r s' ->
     cs_high s' = true /\
     exists l rx, log s' = log s ++ l ++ [EvCS true; EvXchg 0xFF rx]) /\
  (forall cmd r s',
     disk_ioctl miso irq fuel 0 cmd s = Done r s' ->
     cs_high s' = true /\
     exists l rx, log s' = log s ++ l ++ [EvCS true; EvXchg 0xFF rx]).
Proof.
  intros N.
  assert (E : forall s1 s', quiet s s1 -> s' = deselected miso irq s1 ->
              cs_high s' = true /\
              exists l rx, log s' = log s ++ l ++ [EvCS true; EvXchg 0xFF rx]).
  { intros s1 s' (_ & _ & l & L & _) ->. split; [apply deselected_cs|].
    exists l, (u8 (miso (clk s1))). rewrite deselected_log, L, app_assoc.
    reflexivity. }
  split; [|split].
  - intros sector count r s' C H.
    destruct (disk_read_cases _ _ _ _ _ _ _ _ _ H)
      as [(_ & [G|[G|G]])|(_ & _ & _ & s1 & Q & D)];
      first [contradiction | congruence | eapply E; eassumption].
  - intros buff sector count r s' C W H.
    destruct (disk_write_cases _ _ _ _ _ _ _ _ _ _ H)
      as [(_ & [G|[G|[G|G]]])|(_ & _ & _ & _ & s1 & Q & D)];
      first [contradiction | congruence | eapply E; eassumption].
  - intros cmd r s' H.
    destruct (disk_ioctl_cases _ _ _ _ _ _ _ _ H)
      as [(_ & [G|G])|(_ & _ & s1 & Q & D)];
      first [contradiction | congruence | eapply E; eassumption].
Qed.

(** X4: between two calls the card is deselected as soon as the driver has
    done anything on the bus.  The driver does not set CS# before its first
    deselection, so the states are reached from the static initializers with
    the line at either level; in every state reached by ticks and finished
    calls of the public operations, either the trace of the driver is still
    empty (no byte exchanged, CS# never written, no hook called), or CS# is
    high. *)
Theorem card_deselected_between_calls s :
  reachable miso irq s -> log s = [] \/ cs_high s = true.
Proof. intros H. apply (reachable_idle _ _ _ H). Qed.

(** X5: from the static initializers on, after any sequence of ticks and of
    finished calls, the status is 0 or the not-initialized flag alone: the
    no-disk flag is never set, so disk_initialize on drive 0 never takes the
    no-card return, and disk_status answers 0 or STA_NOINIT and changes
    nothing. *)
Theorem status_values_reachable s :
  reachable miso irq s ->
  (Stat s = 0 \/ Stat s = STA_NOINIT) /\
  Z.land (Stat s) STA_NODISK = 0 /\
  (forall pdrv r s',
     disk_status pdrv s = Done r s' ->
     s' = s /\ (r = 0 \/ r = STA_NOINIT)).
Proof.
  intros H. destruct (reachable_idle _ _ _ H) as (A & _).
  split; [exact A|]. split.
  - destruct A as [E|E]; rewrite E; reflexivity.
  - intros pdrv r s' D. unfold disk_status in D.
    destruct (negb (pdrv =? 0)); run_inv; split; auto.
Qed.

(** X6: nothing sets the not-initialized flag again.  Once it is clear, it is
    clear after a tick and after every finished call of disk_initialize,
    disk_read, disk_write and disk_ioctl; in particular a later
    disk_initialize on drive 0 returns a status with the flag clear whether
    or not it detects a card. *)
Theorem initialized_stays_initialized s :
  Z.land (Stat s) STA_NOINIT = 0 ->
  Z.land (Stat (disk_timerproc s)) STA_NOINIT = 0 /\
  (forall pdrv r s',
     disk_initialize miso irq fuel pdrv s = Done r s' ->
     Z.land (Stat s') STA_NOINIT = 0 /\
     (pdrv = 0 -> Z.land r STA_NOINIT = 0)) /\
  (forall pdrv sector count r s',
     disk_read miso irq fuel pdrv sector count s = Done r s' ->
     Z.land (Stat s') STA_NOINIT = 0) /\
  (forall pdrv buff sector count r s',
     disk_write miso irq fuel pdrv buff sector count s = Done r s' ->
     Z.land (Stat s') STA_NOINIT = 0) /\
  (forall pdrv cmd r s',
     disk_ioctl miso irq fuel pdrv cmd s = Done r s' ->
     Z.land (Stat s') STA_NOINIT = 0).
Proof.
  intros N. split; [rewrite tick_keeps_NOINIT; exact N|].
  split; [|split; [|split]].
  - intros pdrv r s' H.
    pose proof (keeps_initialized_initialize _ _ _ _ _ _ _ H N) as K.
    split; [exact K|]. intros ->.
    destruct (disk_initialize_cases _ _ _ _ _ _ _ H)
      as [(-> & -> & _)|(_ & _ & _ & _ & ->)]; assumption.
  - intros pdrv sector count r s' H.
    destruct (quiet_read _ _ _ _ _ _ _ _ _ H) as (Q & _). congruence.
  - intros pdrv buff sector count r s' H.
    destruct (quiet_write _ _ _ _ _ _ _ _ _ _ H) as (Q & _). congruence.
  - intros pdrv cmd r s' H.
    destruct (quiet_ioctl _ _ _ _ _ _ _ _ H) as (Q & _). congruence.
Qed.

(** X7: the card type that a run of disk_initialize stores is 0, MMC, SD1,
    SD2 or SD2 with block addressing, and nothing else: the block-addressing
    flag only comes with SD2.  Since no other operation stores to CardType,
    these are its values in every reachable state. *)
Theorem card_type_classification :
  (forall s r s',
     Z.land (Stat s) STA_NODISK = 0 ->
     disk_initialize miso irq fuel 0 s = Done r s' ->
     card_type_values (CardType s') /\
     (Z.land (CardType s') CT_BLOCK <> 0 ->
      CardType s' = Z.lor CT_SD2 CT_BLOCK)) /\
  (forall s, reachable miso irq s -> card_type_values (CardType s)).
Proof.
  split.
  - intros s r s' N H.
    destruct (disk_initialize_cases _ _ _ _ _ _ _ H)
      as [(_ & _ & [G|G])|(_ & _ & V & _)]; try contradiction.
    split; [exact V|].
    destruct V as [E|[E|[E|[E|E]]]]; rewrite E; intros B;
      first [reflexivity | exfalso; apply B; reflexivity].
  - intros s H. apply (reachable_idle _ _ _ H).
Qed.


(** X9: a run of disk_initialize that passes both guards starts with the
    power-on and the slow-clock hook and ten filler bytes, the 80 dummy
    clocks: they are the first ten exchanges of the run, and the chip-select
    line is not written before or between them. *)
Theorem disk_initialize_preamble s r s' :
  Z.land (Stat s) STA_NODISK = 0 ->
  disk_initialize miso irq fuel 0 s = Done r s' ->
  exists l,
    log s' = log s ++ [EvHook PowerOn; EvHook FclkSlow]
             ++ map (fun i => EvXchg 0xFF (u8 (miso (clk s + i)%nat))) (seq 0 10)
             ++ l /\
    (clk s + 10 < clk s')%nat.
Proof.
  intros N H. unfold disk_initialize in H. cbn [negb Z.eqb] in H.
  bind_inv H st s0 H0. gets_inv H0. rewrite N in H. cbn [negb Z.eqb] in H.
  bind_inv H u1 s1 H1. apply modify_Done in H1. subst s1.
  bind_inv H u2 s2 H2. apply modify_Done in H2. subst s2.
  bind_inv H fill s3 H3. destruct (xchg_fill_Done _ _ _ _ _ _ H3) as (_ & K & L & _).
  cbn [clk log emit] in K, L.
  bind_inv H ty s4 H4. destruct (quiet_probe _ _ _ _ _ _ H4) as (_ & _ & l1 & L1 & _).
  assert (P4 : (clk s3 <= clk s4)%nat).
  { refine (pres_probe_card miso irq fuel (fun a b => clk a <= clk b)%nat
              _ _ _ _ _ _ _ _ _ H4); intros; try rewrite after_xchg_clk;
      cbn [clk emit set_cs set_Timer1 set_Timer2]; lia. }
  bind_inv H u5 s5 H5. apply modify_Done in H5. subst s5.
  bind_inv H u6 s6 H6. rewrite mmc_deselect_eq in H6. inversion H6; subst s6.
  bind_inv H u7 s7 H7. gets_inv H.
  assert (E : exists l2, log s7 = log s4 ++ l2 /\ (clk s4 < clk s7)%nat).
  { destruct (negb (ty =? 0)).
    - bind_inv H7 v8 s8 H8. apply modify_Done in H8. subst s8.
      unfold call in H7. apply modify_Done in H7. subst s7.
      cbn [log clk emit set_Stat]. rewrite deselected_log, deselected_clk.
      cbn [log clk emit set_CardType]. rewrite <- !app_assoc.
      eexists. split; [reflexivity|lia].
    - unfold call in H7. apply modify_Done in H7. subst s7.
      cbn [log clk emit]. rewrite deselected_log, deselected_clk.
      cbn [log clk emit set_CardType]. rewrite <- !app_assoc.
      eexists. split; [reflexivity|lia]. }
  destruct E as (l2 & L2 & C2). exists (l1 ++ l2).
  split; [|lia]. rewrite L2, L1, L, <- !app_assoc. reflexivity.
Qed.

(** X10: a negotiation loop of disk_initialize, while (Timer1 &&
    send_cmd(cmd, arg)), sends nothing when Timer1 is zero at its start, and
    ends either with Timer1 at zero or right after a command that was sent
    with Timer1 not zero and returned 0.  Timer1 is not armed in the loop: at
    its end it has gone down by the ticks of the exchanges made.  With a live
    time base the loop does finish. *)
Theorem negotiation_exit cmd arg s :
  0 <= Timer1 s < 4294967296 ->
  (live irq -> finishes (fun f => init_poll miso irq f f cmd arg) s) /\
  (forall u s',
     init_poll miso irq fuel fuel cmd arg s = Done u s' ->
     (Timer1 s = 0 -> s' = s) /\
     Timer1 s'
     = Z.max 0 (Timer1 s - Z.of_nat (elapsed irq (clk s) (clk s' - clk s))) /\
     (Timer1 s' = 0 \/
      exists s0,
        Timer1 s0 <> 0 /\ send_cmd miso irq fuel cmd arg s0 = Done 0 s')).
Proof.
  intros HT. split.
  - intros L. apply init_poll_finishes; assumption.
  - intros u s' H. split; [|split].
    + apply (init_poll_Done _ _ _ _ _ _ _ _ _ H).
    + apply (init_poll_Done _ _ _ _ _ _ _ _ _ H), HT.
    + destruct (init_poll_Done _ _ _ _ _ _ _ _ _ H)
        as (_ & _ & [E|(s0 & _ & E1 & E2)]); [left; exact E|right].
      exists s0. split; assumption.
Qed.

(** X11: the command layer and the data block transmission use Timer2 only:
    across a finished send_cmd, mmc_select or xmit_datablock, Timer1 is
    armed nowhere and has gone down by the ticks of the exchanges made,
    stopping at zero; a send_cmd makes at least one exchange. *)
Theorem commands_keep_timer1_running s :
  0 <= Timer1 s < 4294967296 ->
  (forall cmd arg r s',
     send_cmd miso irq fuel cmd arg s = Done r s' ->
     (clk s < clk s')%nat /\
     Timer1 s'
     = Z.max 0 (Timer1 s - Z.of_nat (elapsed irq (clk s) (clk s' - clk s)))) /\
  (forall r s',
     mmc_select miso irq fuel s = Done r s' ->
     Timer1 s'
     = Z.max 0 (Timer1 s - Z.of_nat (elapsed irq (clk s) (clk s' - clk s)))) /\
  (forall buff token ok s',
     xmit_datablock miso irq fuel buff token s = Done ok s' ->
     Timer1 s'
     = Z.max 0 (Timer1 s - Z.of_nat (elapsed irq (clk s) (clk s' - clk s)))).
Proof.
  intros HT. split; [|split].
  - intros cmd arg r s' H. split.
    + eapply send_cmd_rec_progress, H.
    + apply (timer1_runs_send_cmd _ _ _ _ _ _ _ _ H), HT.
  - intros r s' H. apply (timer1_runs_mmc_select _ _ _ _ _ _ H), HT.
  - intros buff token ok s' H.
    apply (timer1_runs_xmit_datablock _ _ _ _ _ _ _ _ H), HT.
Qed.

(** X12: a burst with the count cnt makes cnt exchanges, and 2^32 of them for
    the count 0, since the count is decremented before it is tested: a
    finished xmit_spi_multi or rcvr_spi_multi has made exactly that many
    exchanges, rcvr_spi_multi has stored that many bytes, those the card sent,
    and with a smaller iteration budget neither finishes. *)
Theorem burst_count buff cnt s :
  0 <= cnt < 4294967296 ->
  (forall u s',
     xmit_spi_multi miso irq fuel buff cnt s = Done u s' ->
     Z.of_nat (clk s') = Z.of_nat (clk s) + burst_length cnt) /\
  (forall l s',
     rcvr_spi_multi miso irq fuel cnt s = Done l s' ->
     Z.of_nat (clk s') = Z.of_nat (clk s) + burst_length cnt /\
     Z.of_nat (length l) = burst_length cnt /\
     l = received miso (clk s) (length l)) /\
  (Z.of_nat fuel < burst_length cnt ->
   xmit_spi_multi miso irq fuel buff cnt s = OutOfFuel /\
   rcvr_spi_multi miso irq fuel cnt s = OutOfFuel) /\
  burst_length 0 = 4294967296.
Proof.
  intros Hc. unfold xmit_spi_multi, rcvr_spi_multi.
  split; [|split; [|split; [|reflexivity]]].
  - intros u s' H. eapply xmit_spi_multi_loop_clk; eassumption.
  - intros l s' H.
    destruct (rcvr_spi_multi_loop_clk _ _ _ _ _ _ _ Hc H) as (A & B).
    split; [exact A|]. split; [exact B|].
    eapply rcvr_spi_multi_loop_Done, H.
  - intros Hf. split.
    + apply xmit_spi_multi_loop_short; assumption.
    + apply rcvr_spi_multi_loop_short; assumption.
Qed.

(** X13: a finished mmc_select returns 1 with CS# low, right after the card
    answered a filler byte with 0xFF, or returns 0 with the card deselected
    again (CS# high, one filler byte) and Timer2 at zero: it fails on the
    expiry of the 500-tick budget only.  It puts nothing but filler bytes on
    the bus, and with a live time base it does finish. *)
Theorem mmc_select_outcome s :
  (live irq -> finishes (fun f => mmc_select miso irq f) s) /\
  (forall r s',
     mmc_select miso irq fuel s = Done r s' ->
     cs_high s' = negb r /\
     filler_only s s' /\
     (r = true ->
      exists l, log s' = log s ++ EvCS false :: l ++ [EvXchg 0xFF 0xFF]) /\
     (r = false ->
      Timer2 s' = 0 /\
      exists l rx,
        log s' = log s ++ EvCS false :: l ++ [EvCS true; EvXchg 0xFF rx])).
Proof.
  split.
  - intros L. apply mmc_select_finishes, L.
  - intros r s' H. eapply mmc_select_Done, H.
Qed.

(** X14: the response poll of send_cmd makes at least one and at most ten
    exchanges, whatever the card does: it returns the byte of the first
    exchange whose bit 7 is clear, and the byte of the tenth exchange when
    the first nine have bit 7 set.  It needs no timer and finishes with an
    iteration budget of ten. *)
Theorem response_poll_bounded s :
  ((10 <= fuel)%nat -> exists r s', send_cmd_resp miso irq fuel 10 s = Done r s') /\
  (forall r s',
     send_cmd_resp miso irq fuel 10 s = Done r s' ->
     exists k,
       (k < 10)%nat /\
       clk s' = (clk s + S k)%nat /\
       r = u8 (miso (clk s + k)%nat) /\
       (forall i, (i < k)%nat -> Z.land (u8 (miso (clk s + i)%nat)) 0x80 <> 0) /\
       (Z.land r 0x80 <> 0 -> k = 9%nat)).
Proof.
  split.
  - intros Hf. destruct (send_cmd_resp_run miso irq 9 s) as (r & s' & R);
      [simpl; lia|].
    exists r, s'. apply R. lia.
  - intros r s' H.
    destruct (send_cmd_resp_Done miso irq fuel 10 _ _ _ ltac:(lia) H)
      as (k & K1 & K2 & K3 & K4 & K5 & _).
    exists k. split; [lia|]. split; [exact K2|]. split; [exact K3|].
    split; [exact K4|]. intros G. specialize (K5 G). lia.
Qed.

(** X15: the packet of a command with index cmd below 64 (other than the stop
    command) and a 32-bit argument, when the card has been selected: after
    the filler bytes of the selection the driver sends the index with the
    start bits (0x40 + cmd), the four bytes of the argument with the most
    significant one first, so that they put the argument together again, and
    the CRC byte, 0x95 for command 0, 0x87 for command 8 and the placeholder
    0x01 for every other one; then only filler bytes. *)
Theorem command_frame_encoding cmd arg s r s' :
  (1 <= fuel)%nat ->
  0 <= cmd < 64 -> cmd <> CMD12 -> 0 <= arg < 4294967296 ->
  send_cmd miso irq fuel cmd arg s = Done r s' ->
  cs_high s' = false ->
  exists l0 l k b3 b2 b1 b0,
    log s' = log s ++ l0 ++ l /\
    Forall (fun b => b = 0xFF) (sent l0) /\
    sent l = [0x40 + cmd; b3; b2; b1; b0;
              if cmd =? CMD0 then 0x95 else if cmd =? CMD8 then 0x87 else 0x01]
             ++ repeat 0xFF (S k) /\
    is_byte b3 /\ is_byte b2 /\ is_byte b1 /\ is_byte b0 /\
    b3 * 16777216 + b2 * 65536 + b1 * 256 + b0 = arg.
Proof.
  intros Hf Hc H12 Ha H C.
  rewrite send_cmd_plain in H by (try apply land_flag_small; assumption).
  destruct (send_cmd_packet_cases _ _ _ _ _ _ _ _ H12 H)
    as [(C1 & _)|(_ & l0 & l & k & L & F & S1)]; [congruence|].
  exists l0, l, k, (u8 (u8 (Z.shiftr arg 24))), (u8 (u8 (Z.shiftr arg 16))),
    (u8 (u8 (Z.shiftr arg 8))), (u8 (u8 arg)).
  split; [exact L|]. split; [exact F|]. split.
  - rewrite S1, lor_start_bit by exact Hc.
    replace (u8 (64 + cmd)) with (64 + cmd)
      by (unfold u8; rewrite Z.mod_small; lia).
    replace (u8 (if cmd =? CMD8 then 135 else if cmd =? CMD0 then 149 else 1))
      with (if cmd =? CMD0 then 149 else if cmd =? CMD8 then 135 else 1)
      by (destruct (Z.eqb_spec cmd CMD8) as [->|N8]; [reflexivity|];
          destruct (cmd =? CMD0); reflexivity).
    reflexivity.
  - repeat (split; [apply u8_byte|]). apply arg_bytes, Ha.
Qed.

(** X16: a command other than the stop command that returns with CS# high
    was never sent: the selection timed out (Timer2 is zero), the result is
    0xFF, and the driver put nothing but filler bytes on the bus. *)
Theorem command_not_sent_when_busy cmd arg s r s' :
  (1 <= fuel)%nat -> Z.land cmd 0x80 = 0 -> cmd <> CMD12 ->
  send_cmd miso irq fuel cmd arg s = Done r s' ->
  cs_high s' = true ->
  r = 0xFF /\ Timer2 s' = 0 /\ filler_only s s'.
Proof.
  intros Hf Hc H12 H C. rewrite send_cmd_plain in H by assumption.
  destruct (send_cmd_packet_cases _ _ _ _ _ _ _ _ H12 H)
    as [(_ & R & T & F)|(C1 & _)]; [|congruence].
  split; [exact R|]. split; assumption.
Qed.

(** X17: what a finished disk_read that passes the gates stores in the
    buffer: whole blocks of 512 bytes, each one the bytes the card sent right
    after a data token 0xFE, one block after the other on the bus without
    overlap, every one of them a byte.  The result is OK
    exactly when it stored count blocks, and the error result when it stored
    fewer. *)
Theorem disk_read_result sector count s r buff s' :
  0 < count < 4294967296 ->
  Z.land (Stat s) STA_NOINIT = 0 ->
  disk_read miso irq fuel 0 sector count s = Done (r, buff) s' ->
  exists froms,
    buff = blocks_received miso froms /\
    Forall is_byte buff /\
    Forall (fun from => (clk s < from)%nat /\ u8 (miso (from - 1)%nat) = 0xFE)
           froms /\
    ForallOrdPairs (fun a b => (a + 512 < b)%nat) froms /\
    Z.of_nat (length buff) = 512 * Z.of_nat (length froms) /\
    (r = RES_OK /\ Z.of_nat (length froms) = count \/
     r = RES_ERROR /\ Z.of_nat (length froms) < count).
Proof.
  intros Hc N H.
  enough (G : exists froms,
            buff = blocks_received miso froms /\
            Forall (fun from => (clk s < from)%nat /\
                                u8 (miso (from - 1)%nat) = 0xFE) froms /\
            ForallOrdPairs (fun a b => (a + 512 < b)%nat) froms /\
            Z.of_nat (length buff) = 512 * Z.of_nat (length froms) /\
            (r = RES_OK /\ Z.of_nat (length froms) = count \/
             r = RES_ERROR /\ Z.of_nat (length froms) < count)).
  { destruct G as (froms & G1 & G2 & G3 & G4 & G5). exists froms.
    split; [exact G1|]. split; [rewrite G1; apply blocks_received_bytes|].
    repeat split; assumption. }
  assert (E : forall froms,
            buff = blocks_received miso froms ->
            Z.of_nat (length buff) = 512 * Z.of_nat (length froms)).
  { intros froms ->. apply blocks_received_length. }
  assert (C0 : count <> 0) by lia.
  assert (H512 : 0 < 512 < 4294967296) by lia.
  destruct (disk_read_run _ _ _ _ _ _ _ _ _ C0 N H) as (R1 & RM).
  destruct (Z.eq_dec count 1) as [C1|C1].
  - destruct (R1 C1) as (r17 & s1 & H17 & F & T).
    pose proof (send_cmd_rec_progress _ _ _ _ _ _ _ _ _ H17) as P.
    destruct (Z.eq_dec r17 0) as [Z0|NZ].
    + destruct (T Z0) as (blk & s2 & H2 & _ & M). destruct blk as [l|].
      * destruct M as (-> & ->).
        destruct (rcvr_datablock_Some _ _ _ _ _ _ _ H512 H2)
          as (from & F1 & F2 & F3 & _).
        exists [from]. cbn [blocks_received flat_map]. rewrite app_nil_r.
        split; [exact F3|]. split; [constructor; [split; [lia|exact F2]|constructor]|].
        split; [repeat constructor|].
        split; [rewrite F3, received_length; reflexivity|]. left. split; [reflexivity|].
        simpl. lia.
      * destruct M as (-> & ->). exists []. split; [reflexivity|].
        split; [constructor|]. split; [constructor|]. split; [reflexivity|]. right.
        split; [reflexivity|simpl; lia].
    + destruct (F NZ) as (-> & -> & _). exists []. split; [reflexivity|].
      split; [constructor|]. split; [constructor|]. split; [reflexivity|]. right.
      split; [reflexivity|simpl; lia].
  - destruct (RM C1) as (r18 & s1 & H18 & F & T).
    pose proof (send_cmd_rec_progress _ _ _ _ _ _ _ _ _ H18) as P.
    destruct (Z.eq_dec r18 0) as [Z0|NZ].
    + destruct (T Z0) as (c & s2 & r12 & s3 & H2 & _ & _ & ->).
      destruct (disk_read_loop_Done _ _ _ _ _ _ _ _ _ _ Hc H2)
        as (froms & B1 & B2 & BS & B3 & B4 & _).
      cbn [app] in B1. exists froms. split; [exact B1|]. split.
      * eapply Forall_impl; [|exact B2]. cbv beta. intros a (A1 & A2).
        split; [lia|exact A2].
      * split; [exact BS|]. split; [apply E, B1|].
        destruct (Z.eqb_spec c 0) as [Zc|Zc]; [left|right];
          (split; [reflexivity|lia]).
    + destruct (F NZ) as (-> & -> & _). exists []. split; [reflexivity|].
      split; [constructor|]. split; [constructor|]. split; [reflexivity|]. right.
      split; [reflexivity|simpl; lia].
Qed.

(** X18: a multiple block read (count above 1) that passes the gates sends
    command 18 with the block address; when that is refused nothing is read
    and the result is the error.  When it is accepted, the receive loop is
    followed by the stop command in every case, also after a block that
    failed: its packet 0x4C, four zero bytes, 0x01 goes out without a new
    selection, one stuff byte is skipped, and then the response is polled.
    The response of the stop command is ignored: the result is OK exactly
    when the loop used up the count.  The card is deselected at the end. *)
Theorem disk_read_stop_command sector count s r buff s' :
  (1 <= fuel)%nat -> count <> 0 -> count <> 1 ->
  Z.land (Stat s) STA_NOINIT = 0 ->
  disk_read miso irq fuel 0 sector count s = Done (r, buff) s' ->
  exists r18 s1,
    send_cmd miso irq fuel CMD18 (block_address (CardType s) sector) s
    = Done r18 s1 /\
    (r18 <> 0 -> r = RES_ERROR /\ buff = [] /\ s' = deselected miso irq s1) /\
    (r18 = 0 ->
     exists c s2 r12 s3 l k,
       disk_read_loop miso irq fuel fuel count [] s1 = Done (c, buff) s2 /\
       send_cmd miso irq fuel CMD12 0 s2 = Done r12 s3 /\
       cs_high s3 = cs_high s2 /\
       log s3 = log s2 ++ l /\
       sent l = [0x4C; 0; 0; 0; 0; 0x01; 0xFF] ++ repeat 0xFF (S k) /\
       s' = deselected miso irq s3 /\
       (r = RES_OK <-> c = 0)).
Proof.
  intros Hf C0 C1 N H.
  destruct (disk_read_run _ _ _ _ _ _ _ _ _ C0 N H) as (_ & RM).
  destruct (RM C1) as (r18 & s1 & H18 & F & T).
  exists r18, s1. split; [exact H18|]. split; [exact F|]. intros Z0.
  destruct (T Z0) as (c & s2 & r12 & s3 & H2 & H3 & D & R).
  pose proof H3 as H3'. rewrite send_cmd_plain in H3' by (auto; reflexivity).
  destruct (send_cmd_packet_stop _ _ _ _ _ _ _ H3') as (Cs & l & k & L & S1).
  exists c, s2, r12, s3, l, k. repeat (split; [assumption|]).
  rewrite R. destruct (Z.eqb_spec c 0); split; intros G;
    first [assumption | reflexivity | discriminate | contradiction].
Qed.

(** X19: with a live time base no call of disk_read or disk_ioctl runs for
    ever: every wait in them is bounded by a timer or by a count.  disk_read
    finishes for every 32-bit count; disk_ioctl ends, with a result or at the
    shift that C leaves undefined in the decoding of a CSD. *)
Theorem read_and_ioctl_end :
  live irq ->
  (forall pdrv sector count s,
     0 <= count < 4294967296 ->
     finishes (fun f => disk_read miso irq f pdrv sector count) s) /\
  (forall pdrv cmd s, halts (fun f => disk_ioctl miso irq f pdrv cmd) s).
Proof.
  intros L. split.
  - intros. apply disk_read_finishes; assumption.
  - intros. apply disk_ioctl_halts; assumption.
Qed.

(** X20: a single block write (count 1) that passes the gates sends command
    24 with the block address, and no pre-erase hint; when the command is
    refused nothing more is sent.  When it is accepted one data block goes out
    with the token 0xFE, and the result is OK exactly when xmit_datablock
    returns 1, that is when the card was ready and answered the frame (token,
    the 512 bytes of the buffer, two CRC bytes) with a data response whose low
    five bits are 0b00101.  The card is deselected at the end, and with a live
    time base the operation does finish. *)
Theorem disk_write_single buff sector s :
  Z.land (Stat s) STA_NOINIT = 0 ->
  Z.land (Stat s) STA_PROTECT = 0 ->
  (live irq -> finishes (fun f => disk_write miso irq f 0 buff sector 1) s) /\
  (forall r s',
     disk_write miso irq fuel 0 buff sector 1 s = Done r s' ->
     exists r24 s1,
       send_cmd miso irq fuel CMD24 (block_address (CardType s) sector) s
       = Done r24 s1 /\
       (r24 <> 0 -> r = RES_ERROR /\ s' = deselected miso irq s1) /\
       (r24 = 0 ->
        exists ok s2,
          xmit_datablock miso irq fuel buff 0xFE s1 = Done ok s2 /\
          s' = deselected miso irq s2 /\
          (r = RES_OK <-> ok = true) /\
          ((ok = false /\ wait_ready miso irq fuel s1 = Done false s2) \/
           exists resp,
             frame_sent miso irq fuel buff 0xFE s1 s2 resp /\
             ok = (Z.land resp 0x1F =? 0x05)))).
Proof.
  intros N W. split.
  - intros L. apply disk_write_finishes; [exact L|lia].
  - intros r s' H. unfold disk_write in H.
    change (negb (0 =? 0) || (1 =? 0)) with false in H. cbv iota in H.
    bind_inv H st s0 H0. gets_inv H0. rewrite N, W in H.
    change (negb (0 =? 0)) with false in H. cbv iota in H.
    bind_inv H ct s0 H0. gets_inv H0.
    fold (block_address (CardType s) sector) in H.
    change (1 =? 1) with true in H. cbv iota in H.
    bind_inv H c s1 Hb. bind_inv H u s2 Hd. rewrite mmc_deselect_eq in Hd.
    inversion Hd; subst s2. ret_inv H.
    bind_inv Hb r24 s2 H24. exists r24, s2. split; [exact H24|].
    destruct (Z.eqb_spec r24 0) as [Z0|NZ].
    + split; [intros F; contradiction|]. intros _.
      bind_inv Hb ok s3 H3. ret_inv Hb. exists ok, s1.
      split; [exact H3|]. split; [reflexivity|]. split.
      * destruct ok; cbn; split; intros G;
          first [reflexivity | discriminate].
      * assert (T : 254 <> 253) by lia.
        exact (xmit_datablock_frame _ _ _ _ _ _ _ _ T H3).
    + split; [|intros F; contradiction]. intros _. ret_inv Hb.
      split; reflexivity.
Qed.

(** X21: sector numbers are taken as a DWORD, and on a card without block
    addressing the byte offset sector * 512 is a DWORD again: the sectors
    sector and sector + 2^23 are the same block to disk_read and to
    disk_write.  On a card with block addressing the sector number goes out as
    it is. *)
Theorem sector_address_wraps ct sector :
  (Z.land ct CT_BLOCK = 0 ->
   block_address ct (sector + 8388608) = block_address ct sector /\
   block_address ct sector = sector * 512 mod 4294967296) /\
  (Z.land ct CT_BLOCK <> 0 ->
   block_address ct sector = sector mod 4294967296) /\
  (forall s pdrv buff count,
     Z.land (CardType s) CT_BLOCK = 0 ->
     disk_read miso irq fuel pdrv (sector + 8388608) count s
     = disk_read miso irq fuel pdrv sector count s /\
     disk_write miso irq fuel pdrv buff (sector + 8388608) count s
     = disk_write miso irq fuel pdrv buff sector count s).
Proof.
  assert (A : u32 (u32 (sector + 8388608) * 512) = u32 (u32 sector * 512)).
  { unfold u32. rewrite !Z.mul_mod_idemp_l by lia. 
    replace ((sector + 8388608) * 512) with (sector * 512 + 1 * 4294967296) by lia.
    apply Z.mod_add. lia. }
  split; [|split].
  - intros B. unfold block_address. rewrite B. change (0 =? 0) with true.
    cbv iota. split; [exact A|]. unfold u32. apply Z.mul_mod_idemp_l. lia.
  - intros B. unfold block_address. apply Z.eqb_neq in B. rewrite B. reflexivity.
  - intros s pdrv buff count B. unfold disk_read, disk_write.
    destruct (negb (pdrv =? 0) || (count =? 0)); [split; reflexivity|].
    split; apply bind_ext; intros st s0 H0; gets_inv H0;
      (destruct (negb (Z.land (Stat s) STA_NOINIT =? 0)); [reflexivity|]);
      try (destruct (negb (Z.land (Stat s) STA_PROTECT =? 0)); [reflexivity|]);
      apply bind_ext; intros ct0 s0 H0; gets_inv H0;
      rewrite B; change (0 =? 0) with true; cbv iota; rewrite A; reflexivity.
Qed.

(** X22: the erase block size that GET_BLOCK_SIZE stores.  For SDv2 it is
    16 shifted left by the high four bits of byte 10 of the SD status, a power
    of two from 16 to 2^19, and the shift is always defined.  For SDv1 the
    shift count is the two high bits of CSD byte 13 minus one: it is negative,
    and so the shift undefined, when that field is 0, and otherwise the value
    is at most 512.  For MMCv3 the value is a product of two five-bit fields
    plus one each, from 1 to 1024.  An ioctl that returns OK stores the value
    decoded, by the rule of the card type, from 16 bytes that the card sent
    after a data token. *)
Theorem block_size_decoding :
  (forall b,
     is_byte b ->
     shl32 16 (Z.shiftr b 4) = Some (16 * 2 ^ (b / 16)) /\
     16 <= 16 * 2 ^ (b / 16) <= 524288) /\
  (forall csd,
     Forall is_byte csd ->
     (nth 13 csd 0 < 64 -> csd_block_size_sd1 csd = None) /\
     (64 <= nth 13 csd 0 ->
      exists v, csd_block_size_sd1 csd = Some v /\ 1 <= v <= 512) /\
     1 <= csd_block_size_mmc csd <= 1024) /\
  (forall s out s',
     disk_ioctl miso irq fuel 0 GET_BLOCK_SIZE s = Done (RES_OK, out) s' ->
     exists from v,
       u8 (miso (from - 1)%nat) = 0xFE /\ out = OutDWORD v /\
       if negb (Z.land (CardType s) CT_SD2 =? 0)
       then shl32 16 (Z.shiftr (nth 10 (received miso from 16) 0) 4) = Some v
       else if negb (Z.land (CardType s) CT_SD1 =? 0)
            then csd_block_size_sd1 (received miso from 16) = Some v
            else csd_block_size_mmc (received miso from 16) = v).
Proof.
  split; [|split].
  - intros b Hb. unfold is_byte in Hb.
    assert (D : 0 <= b / 16 < 16).
    { split; [apply Z.div_pos; lia|apply Z.div_lt_upper_bound; lia]. }
    assert (P : 1 <= 2 ^ (b / 16) <= 2 ^ 15).
    { split; [|apply Z.pow_le_mono_r; lia].
      pose proof (Z.pow_pos_nonneg 2 (b / 16) ltac:(lia) ltac:(lia)). lia. }
    change (2 ^ 15) with 32768 in P.
    rewrite Z.shiftr_div_pow2 by lia. change (2 ^ 4) with 16.
    split; [|lia]. rewrite shl32_small by lia.
    rewrite Z.shiftl_mul_pow2 by lia. reflexivity.
  - intros csd H.
    pose proof (nth_is_byte csd 10 H) as B10.
    pose proof (nth_is_byte csd 11 H) as B11.
    pose proof (nth_is_byte csd 13 H) as B13.
    unfold is_byte in B10, B11, B13.
    split; [|split].
    + intros L. unfold csd_block_size_sd1, shl32.
      rewrite Z.shiftr_div_pow2 by lia. change (2 ^ 6) with 64.
      rewrite Z.div_small by lia. reflexivity.
    + intros L. unfold csd_block_size_sd1.
      pose proof (land_low (nth 10 csd 0) 6 ltac:(lia)) as L10.
      change (Z.ones 6) with 63 in L10. change (2 ^ 6) with 64 in L10.
      assert (L11 : 0 <= Z.shiftr (u16 (Z.land (nth 11 csd 0) 128)) 7 <= 1).
      { unfold u16. change 65536 with (2 ^ 16).
        rewrite <- Z.land_ones, <- Z.land_assoc by lia.
        change (Z.land 128 (Z.ones 16)) with 128. apply bit7. }
      assert (K : 1 <= Z.shiftr (nth 13 csd 0) 6 <= 3).
      { rewrite Z.shiftr_div_pow2 by lia. change (2 ^ 6) with 64.
        split; [apply Z.div_le_lower_bound; lia|].
        assert (nth 13 csd 0 / 64 < 4) by (apply Z.div_lt_upper_bound; lia).
        lia. }
      set (x := Z.shiftl (Z.land (nth 10 csd 0) 63) 1
                + Z.shiftr (u16 (Z.land (nth 11 csd 0) 128)) 7 + 1).
      assert (X : 1 <= x <= 128).
      { unfold x. rewrite Z.shiftl_mul_pow2 by lia. change (2 ^ 1) with 2. lia. }
      set (k := Z.shiftr (nth 13 csd 0) 6 - 1).
      assert (Kk : 0 <= k <= 2) by (unfold k; lia).
      assert (P : 1 <= 2 ^ k <= 4).
      { change 4 with (2 ^ 2). split; [|apply Z.pow_le_mono_r; lia].
        pose proof (Z.pow_pos_nonneg 2 k ltac:(lia) ltac:(lia)). lia. }
      exists (Z.shiftl x k). split; [apply shl32_small; nia|].
      rewrite Z.shiftl_mul_pow2 by lia. nia.
    + unfold csd_block_size_mmc.
      assert (A : 0 <= Z.shiftr (Z.land (nth 10 csd 0) 124) 2 <= 31).
      { rewrite Z.shiftr_land. change (Z.shiftr 124 2) with (Z.ones 5).
        pose proof (land_low (Z.shiftr (nth 10 csd 0) 2) 5 ltac:(lia)) as G.
        change (2 ^ 5) with 32 in G. lia. }
      assert (B : 0 <= Z.land (nth 11 csd 0) 3 <= 3).
      { pose proof (land_low (nth 11 csd 0) 2 ltac:(lia)) as G.
        change (Z.ones 2) with 3 in G. change (2 ^ 2) with 4 in G. lia. }
      assert (C : 0 <= Z.shiftr (Z.land (nth 11 csd 0) 224) 5 <= 7).
      { rewrite Z.shiftr_land. change (Z.shiftr 224 5) with (Z.ones 3).
        pose proof (land_low (Z.shiftr (nth 11 csd 0) 5) 3 ltac:(lia)) as G.
        change (2 ^ 3) with 8 in G. lia. }
      unfold u16. rewrite (Z.mod_small (Z.shiftr _ 2)) by lia.
      rewrite Z.shiftl_mul_pow2 by lia. change (2 ^ 3) with 8.
      unfold u32. rewrite Z.mod_small by nia. nia.
  - intros s out s' H. pose proof (disk_ioctl_ok _ _ _ _ _ _ _ H) as N.
    unfold disk_ioctl in H. cbn [negb Z.eqb] in H.
    bind_inv H st s0 H0. gets_inv H0. rewrite N in H. cbn [negb Z.eqb] in H.
    bind_inv H ct s0 H0. gets_inv H0. bind_inv H res s1 Hb.
    bind_inv H u s2 Hd. ret_inv H. eval_codes Hb.
    assert (H16 : 0 < 16 < 4294967296) by lia.
    destruct (negb (Z.land (CardType s) CT_SD2 =? 0)).
    + bind_inv Hb r s3 H3. destruct (r =? 0); [|ret_inv Hb; discriminate].
      xchg_step Hb. bind_inv Hb csd s4 H4.
      destruct csd as [csd|]; [|ret_inv Hb; discriminate].
      bind_inv Hb fill s5 H5. unfold lift_opt in Hb.
      destruct (rcvr_datablock_Some _ _ _ _ _ _ _ H16 H4) as (from & _ & T & R & _).
      change (Z.to_nat 16) with 16%nat in R. subst csd.
      destruct (shl32 16 _) as [v|] eqn:E; [|discriminate Hb]. ret_inv Hb.
      match goal with G : (_, _) = (_, _) |- _ => inversion G; subst end.
      exists from, v. split; [exact T|]. split; [reflexivity|exact E].
    + bind_inv Hb r s3 H3. destruct (r =? 0); [|ret_inv Hb; discriminate].
      bind_inv Hb csd s4 H4.
      destruct csd as [csd|]; [|ret_inv Hb; discriminate].
      destruct (rcvr_datablock_Some _ _ _ _ _ _ _ H16 H4) as (from & _ & T & R & _).
      change (Z.to_nat 16) with 16%nat in R. subst csd.
      destruct (negb (Z.land (CardType s) CT_SD1 =? 0)).
      * unfold lift_opt in Hb.
        destruct (csd_block_size_sd1 _) as [v|] eqn:E; [|discriminate Hb].
        ret_inv Hb.
        match goal with G : (_, _) = (_, _) |- _ => inversion G; subst end.
        exists from, v. split; [exact T|]. split; [reflexivity|exact E].
      * ret_inv Hb.
        match goal with G : (_, _) = (_, _) |- _ => inversion G; subst end.
        eexists from, _. split; [exact T|]. split; reflexivity.
Qed.

(** X23: the register reads of disk_ioctl.  MMC_GET_CSD and MMC_GET_CID that
    return OK have sent command 9 and command 10, got the response 0, and
    store the 16 bytes the card sent after the data token; MMC_GET_OCR has
    sent command 58 and stores the four bytes that follow its response 0;
    MMC_GET_SDSTAT returns OK on an SDv2 card only, and stores the 64 bytes the
    card sent after the data token. *)
Theorem ioctl_register_reads s out s' :
  (disk_ioctl miso irq fuel 0 MMC_GET_CSD s = Done (RES_OK, out) s' ->
   exists s1 from,
     send_cmd miso irq fuel CMD9 0 s = Done 0 s1 /\
     (clk s1 < from)%nat /\ u8 (miso (from - 1)%nat) = 0xFE /\
     out = OutBytes (received miso from 16)) /\
  (disk_ioctl miso irq fuel 0 MMC_GET_CID s = Done (RES_OK, out) s' ->
   exists s1 from,
     send_cmd miso irq fuel CMD10 0 s = Done 0 s1 /\
     (clk s1 < from)%nat /\ u8 (miso (from - 1)%nat) = 0xFE /\
     out = OutBytes (received miso from 16)) /\
  (disk_ioctl miso irq fuel 0 MMC_GET_OCR s = Done (RES_OK, out) s' ->
   exists s1,
     send_cmd miso irq fuel CMD58 0 s = Done 0 s1 /\
     out = OutBytes (received miso (clk s1) 4)) /\
  (disk_ioctl miso irq fuel 0 MMC_GET_SDSTAT s = Done (RES_OK, out) s' ->
   Z.land (CardType s) CT_SD2 <> 0 /\
   exists s1 from,
     send_cmd miso irq fuel ACMD13 0 s = Done 0 s1 /\
     (S (clk s1) < from)%nat /\ u8 (miso (from - 1)%nat) = 0xFE /\
     out = OutBytes (received miso from 64)).
Proof.
  assert (H16 : 0 < 16 < 4294967296) by lia.
  assert (H64 : 0 < 64 < 4294967296) by lia.
  assert (Open : forall cmd,
            disk_ioctl miso irq fuel 0 cmd s = Done (RES_OK, out) s' ->
            exists s1,
              (if cmd =? CTRL_SYNC then
                sel <- mmc_select miso irq fuel ;;
                ret (if sel then RES_OK else RES_ERROR, OutNone)
              else if cmd =? GET_SECTOR_COUNT then
                r <- send_cmd miso irq fuel CMD9 0 ;;
                if r =? 0 then
                  csd <- rcvr_datablock miso irq fuel 16 ;;
                  match csd with
                  | Some csd => lift_opt (csd_sector_count csd) OutLBA
                  | None => ret (RES_ERROR, OutNone)
                  end
                else ret (RES_ERROR, OutNone)
              else if cmd =? GET_BLOCK_SIZE then
                if negb (Z.land (CardType s) CT_SD2 =? 0) then
                  r <- send_cmd miso irq fuel ACMD13 0 ;;
                  if r =? 0 then
                    xchg_spi miso irq 0xFF ;;
                    csd <- rcvr_datablock miso irq fuel 16 ;;
                    match csd with
                    | Some csd =>
                        xchg_fill miso irq (64 - 16) ;;
                        lift_opt (shl32 16 (Z.shiftr (nth 10 csd 0) 4)) OutDWORD
                    | None => ret (RES_ERROR, OutNone)
                    end
                  else ret (RES_ERROR, OutNone)
                else
                  r <- send_cmd miso irq fuel CMD9 0 ;;
                  if r =? 0 then
                    csd <- rcvr_datablock miso irq fuel 16 ;;
                    match csd with
                    | Some csd =>
                        if negb (Z.land (CardType s) CT_SD1 =? 0)
                        then lift_opt (csd_block_size_sd1 csd) OutDWORD
                        else ret (RES_OK, OutDWORD (csd_block_size_mmc csd))
                    | None => ret (RES_ERROR, OutNone)
                    end
                  else ret (RES_ERROR, OutNone)
              else if cmd =? MMC_GET_TYPE then
                ret (RES_OK, OutByte (u8 (CardType s)))
              else if (cmd =? MMC_GET_CSD) || (cmd =? MMC_GET_CID) then
                r <- send_cmd miso irq fuel
                       (if cmd =? MMC_GET_CSD then CMD9 else CMD10) 0 ;;
                if r =? 0 then
                  blk <- rcvr_datablock miso irq fuel 16 ;;
                  match blk with
                  | Some l => ret (RES_OK, OutBytes l)
                  | None => ret (RES_ERROR, OutNone)
                  end
                else ret (RES_ERROR, OutNone)
              else if cmd =? MMC_GET_OCR then
                r <- send_cmd miso irq fuel CMD58 0 ;;
                if r =? 0 then
                  l <- xchg_fill miso irq 4 ;;
                  ret (RES_OK, OutBytes l)
                else ret (RES_ERROR, OutNone)
              else if cmd =? MMC_GET_SDSTAT then
                if negb (Z.land (CardType s) CT_SD2 =? 0) then
                  r <- send_cmd miso irq fuel ACMD13 0 ;;
                  if r =? 0 then
                    xchg_spi miso irq 0xFF ;;
                    blk <- rcvr_datablock miso irq fuel 64 ;;
                    match blk with
                    | Some l => ret (RES_OK, OutBytes l)
                    | None => ret (RES_ERROR, OutNone)
                    end
                  else ret (RES_ERROR, OutNone)
                else ret (RES_ERROR, OutNone)
              else ret (RES_PARERR, OutNone)) s = Done (RES_OK, out) s1).
  { intros cmd H. pose proof (disk_ioctl_ok _ _ _ _ _ _ _ H) as N.
    unfold disk_ioctl in H. cbn [negb Z.eqb] in H.
    bind_inv H st s0 H0. gets_inv H0. rewrite N in H. cbn [negb Z.eqb] in H.
    bind_inv H ct s0 H0. gets_inv H0. bind_inv H res s1 Hb.
    bind_inv H u s2 Hd. ret_inv H. exists s1. exact Hb. }
  split; [|split; [|split]]; intros H; destruct (Open _ H) as (s1 & Hb);
    clear Open H; eval_codes Hb.
  - bind_inv Hb r s3 H3. destruct (Z.eqb_spec r 0) as [->|]; [|ret_inv Hb; discriminate].
    bind_inv Hb blk s4 H4. destruct blk as [l|]; [|ret_inv Hb; discriminate].
    ret_inv Hb. match goal with G : (_, _) = (_, _) |- _ => inversion G; subst end.
    destruct (rcvr_datablock_Some _ _ _ _ _ _ _ H16 H4) as (from & C & T & R & _).
    exists s3, from. repeat (split; [assumption|]). rewrite R. reflexivity.
  - bind_inv Hb r s3 H3. destruct (Z.eqb_spec r 0) as [->|]; [|ret_inv Hb; discriminate].
    bind_inv Hb blk s4 H4. destruct blk as [l|]; [|ret_inv Hb; discriminate].
    ret_inv Hb. match goal with G : (_, _) = (_, _) |- _ => inversion G; subst end.
    destruct (rcvr_datablock_Some _ _ _ _ _ _ _ H16 H4) as (from & C & T & R & _).
    exists s3, from. repeat (split; [assumption|]). rewrite R. reflexivity.
  - bind_inv Hb r s3 H3. destruct (Z.eqb_spec r 0) as [->|]; [|ret_inv Hb; discriminate].
    bind_inv Hb l s4 H4. ret_inv Hb.
    match goal with G : (_, _) = (_, _) |- _ => inversion G; subst end.
    destruct (xchg_fill_Done _ _ _ _ _ _ H4) as (R & _).
    exists s3. split; [exact H3|]. rewrite R. reflexivity.
  - destruct (Z.eqb_spec (Z.land (CardType s) CT_SD2) 0) as [C2|C2];
      cbn [negb] in Hb; [ret_inv Hb; discriminate|].
    split; [exact C2|].
    bind_inv Hb r s3 H3. destruct (Z.eqb_spec r 0) as [->|]; [|ret_inv Hb; discriminate].
    xchg_step Hb.
    bind_inv Hb blk s4 H4. destruct blk as [l|]; [|ret_inv Hb; discriminate].
    ret_inv Hb. match goal with G : (_, _) = (_, _) |- _ => inversion G; subst end.
    destruct (rcvr_datablock_Some _ _ _ _ _ _ _ H64 H4) as (from & C & T & R & _).
    rewrite after_xchg_clk in C.
    exists s3, from. repeat (split; [assumption|]). rewrite R. reflexivity.
Qed.

(** X24: CTRL_SYNC on an initialized drive selects the card and waits until
    it is ready.  It returns OK when the card answered a filler byte with 0xFF
    within the 500 ticks, which is how the driver sees that the card is not
    busy, and the error when Timer2 ran out first; nothing is stored through
    the buffer, and the card is deselected at the end in both cases. *)
Theorem ctrl_sync_outcome s r out s' :
  Z.land (Stat s) STA_NOINIT = 0 ->
  disk_ioctl miso irq fuel 0 CTRL_SYNC s = Done (r, out) s' ->
  out = OutNone /\ cs_high s' = true /\
  ((r = RES_OK /\
    exists l rx,
      log s' = log s ++ EvCS false :: l
               ++ [EvXchg 0xFF 0xFF; EvCS true; EvXchg 0xFF rx]) \/
   (r = RES_ERROR /\ Timer2 s' = 0)).
Proof.
  intros N H. unfold disk_ioctl in H. cbn [negb Z.eqb] in H.
  bind_inv H st s0 H0. gets_inv H0. rewrite N in H. cbn [negb Z.eqb] in H.
  bind_inv H ct s0 H0. gets_inv H0. bind_inv H res s1 Hb.
  bind_inv H u s2 Hd. rewrite mmc_deselect_eq in Hd. inversion Hd; subst s2.
  ret_inv H. eval_codes Hb. bind_inv Hb sel s2 H2. ret_inv Hb.
  match goal with G : (_, _) = (_, _) |- _ => inversion G; subst; clear G end.
  destruct (mmc_select_Done _ _ _ _ _ _ H2) as (C & _ & T & F).
  split; [reflexivity|]. split; [apply deselected_cs|].
  destruct sel.
  - left. split; [reflexivity|]. destruct (T eq_refl) as (l & L).
    exists l, (u8 (miso (clk s1))). rewrite deselected_log, L.
    rewrite <- !app_assoc. cbn [app]. rewrite <- !app_assoc. reflexivity.
  - right. split; [reflexivity|]. destruct (F eq_refl) as (T2 & _).
    unfold deselected. rewrite after_xchg_Timer2; cbn [Timer2 emit set_cs];
      rewrite T2; lia.
Qed.

End Further.

(** * The further properties at concrete runs *)

(** X1 on drive 1 and on the drive before its initialization. *)
Lemma disk_ioctl_gates_witness :
  disk_ioctl card_idle irq_none 8 1 CTRL_SYNC init_state
  = Done (RES_PARERR, OutNone) init_state /\
  disk_ioctl card_idle irq_none 8 0 CTRL_SYNC init_state
  = Done (RES_NOTRDY, OutNone) init_state.
Proof.
  split.
  - apply (proj1 (disk_ioctl_gates card_idle irq_none 8 1 CTRL_SYNC init_state)).
    lia.
  - apply (proj2 (disk_ioctl_gates card_idle irq_none 8 0 CTRL_SYNC init_state));
      [reflexivity | vm_compute; lia].
Defined.

(** X2 for the card type query and for a control code the switch does not
    list. *)
Lemma disk_ioctl_without_command_witness :
  disk_ioctl card_idle irq_none 8 0 MMC_GET_TYPE ready_state
  = Done (RES_OK, OutByte (CardType ready_state mod 256))
         (deselected card_idle irq_none ready_state) /\
  disk_ioctl card_idle irq_none 8 0 99 ready_state
  = Done (RES_PARERR, OutNone) (deselected card_idle irq_none ready_state).
Proof.
  destruct (disk_ioctl_without_command card_idle irq_none 8 MMC_GET_TYPE
              ready_state) as (A & _); [reflexivity|].
  destruct (disk_ioctl_without_command card_idle irq_none 8 99 ready_state)
    as (_ & _ & B); [reflexivity|].
  split; [apply A; reflexivity|].
  apply B; vm_compute; lia.
Defined.

(** X3 on the read of one block. *)
Lemma operations_end_deselected_witness :
  exists r s',
    disk_read card_blocks irq_none 600 0 0 1 ready_state = Done r s' /\
    cs_high s' = true /\
    exists l rx, log s' = log ready_state ++ l ++ [EvCS true; EvXchg 0xFF rx].
Proof.
  do 2 eexists. split; [vm_compute; reflexivity|].
  eapply (proj1 (operations_end_deselected card_blocks irq_none 600
                   ready_state eq_refl) 0 1);
    [lia | vm_compute; reflexivity].
Defined.

(** X4 after the initialization of a compliant SDv2 card, started with CS#
    low. *)
Lemma card_deselected_between_calls_witness :
  exists s',
    disk_initialize card_sd2 irq_each 16 0 (set_cs false init_state)
    = Done 0 s' /\
    (log s' = [] \/ cs_high s' = true).
Proof.
  eexists. split; [vm_compute; reflexivity|].
  apply (card_deselected_between_calls card_sd2 irq_each).
  apply (reach_initialize card_sd2 irq_each (set_cs false init_state) 16 0 0);
    [apply reach_init_selected|vm_compute; reflexivity].
Defined.

(** X5 after the same initialization. *)
Lemma status_values_reachable_witness :
  exists s',
    disk_initialize card_sd2 irq_each 16 0 init_state = Done 0 s' /\
    (Stat s' = 0 \/ Stat s' = STA_NOINIT) /\
    Z.land (Stat s') STA_NODISK = 0.
Proof.
  eexists. split; [vm_compute; reflexivity|].
  match goal with
  | |- (Stat ?s = 0 \/ _) /\ _ =>
      destruct (status_values_reachable card_sd2 irq_each s) as (A & B & _)
  end.
  - apply (reach_initialize card_sd2 irq_each init_state 16 0 0);
    [apply reach_init|vm_compute; reflexivity].
  - split; assumption.
Defined.

(** X6 on an initialization that fails on an initialized drive: the
    status it returns has the flag clear, with the card type 0. *)
Lemma initialized_stays_initialized_witness :
  exists r s',
    disk_initialize card_idle irq_none 16 0 ready_state = Done r s' /\
    CardType s' = 0 /\
    Z.land (Stat s') STA_NOINIT = 0 /\ Z.land r STA_NOINIT = 0.
Proof.
  do 2 eexists. split; [vm_compute; reflexivity|]. split; [reflexivity|].
  destruct (initialized_stays_initialized card_idle irq_none 16 ready_state
              eq_refl) as (_ & I & _).
  match goal with
  | |- Z.land (Stat ?s) _ = 0 /\ Z.land ?r _ = 0 =>
      destruct (I 0 r s) as (A & B); [vm_compute; reflexivity|]
  end.
  split; [exact A|apply B; reflexivity].
Defined.

(** X7 on the initialization of a compliant SDv2 card with block
    addressing. *)
Lemma card_type_classification_witness :
  exists s',
    disk_initialize card_sd2 irq_each 16 0 init_state = Done 0 s' /\
    card_type_values (CardType s') /\
    CardType s' = Z.lor CT_SD2 CT_BLOCK.
Proof.
  eexists. split; [vm_compute; reflexivity|].
  match goal with
  | |- card_type_values (CardType ?s) /\ _ =>
      destruct (proj1 (card_type_classification card_sd2 irq_each 16)
                  init_state 0 s) as (A & B);
        [reflexivity | vm_compute; reflexivity |]
  end.
  split; [exact A|]. apply B. vm_compute. lia.
Defined.


(** X9 on the same initialization. *)
Lemma disk_initialize_preamble_witness :
  exists s' l,
    disk_initialize card_sd2 irq_each 16 0 init_state = Done 0 s' /\
    log s' = log init_state ++ [EvHook PowerOn; EvHook FclkSlow]
             ++ map (fun i => EvXchg 0xFF
                                (u8 (card_sd2 (clk init_state + i)%nat)))
                    (seq 0 10)
             ++ l /\
    (clk init_state + 10 < clk s')%nat.
Proof.
  eexists.
  match goal with
  | |- exists l, ?run = Done 0 ?s /\ _ =>
      assert (H : run = Done 0 s) by (vm_compute; reflexivity);
      destruct (disk_initialize_preamble card_sd2 irq_each 16 init_state 0 s
                  eq_refl H) as (l & L)
  end.
  exists l. split; [exact H|exact L].
Defined.

(** X10 with a card that never leaves the busy state: two rounds use up
    the 1000 ticks. *)
Lemma negotiation_exit_witness :
  finishes (fun f => init_poll card_busy irq_each f f CMD1 0)
           negotiating_state /\
  exists s',
    init_poll card_busy irq_each 600 600 CMD1 0 negotiating_state
    = Done tt s' /\
    Timer1 s'
    = Z.max 0 (Timer1 negotiating_state
               - Z.of_nat (elapsed irq_each (clk negotiating_state)
                                   (clk s' - clk negotiating_state))).
Proof.
  destruct (negotiation_exit card_busy irq_each 600 CMD1 0 negotiating_state)
    as (F & P); [vm_compute; split; [discriminate|reflexivity]|].
  split; [apply F, irq_each_live|].
  eexists. split; [vm_compute; reflexivity|].
  match goal with
  | |- Timer1 ?s = _ => destruct (P tt s) as (_ & T & _);
                          [vm_compute; reflexivity|exact T]
  end.
Defined.

(** X11 on a command to a card that is never ready. *)
Lemma commands_keep_timer1_running_witness :
  exists r s',
    send_cmd card_busy irq_each 600 CMD1 0 negotiating_state = Done r s' /\
    (clk negotiating_state < clk s')%nat /\
    Timer1 s'
    = Z.max 0 (Timer1 negotiating_state
               - Z.of_nat (elapsed irq_each (clk negotiating_state)
                                   (clk s' - clk negotiating_state))).
Proof.
  do 2 eexists. split; [vm_compute; reflexivity|].
  eapply (proj1 (commands_keep_timer1_running card_busy irq_each 600
                   negotiating_state _) CMD1 0).
  vm_compute. reflexivity.
  Unshelve. vm_compute. split; [discriminate|reflexivity].
Defined.

(** X12 for the count 0 with a budget of eight exchanges, and for the count
    3. *)
Lemma burst_count_witness :
  (xmit_spi_multi card_idle irq_none 8 null 0 init_state = OutOfFuel /\
   rcvr_spi_multi card_idle irq_none 8 0 init_state = OutOfFuel) /\
  exists l s',
    rcvr_spi_multi card_data irq_none 8 3 init_state = Done l s' /\
    Z.of_nat (clk s') = Z.of_nat (clk init_state) + burst_length 3 /\
    Z.of_nat (length l) = burst_length 3 /\
    l = received card_data (clk init_state) (length l).
Proof.
  split.
  - apply (burst_count card_idle irq_none 8 null 0 init_state); [lia|].
    vm_compute. reflexivity.
  - do 2 eexists. split; [vm_compute; reflexivity|].
    eapply (proj1 (proj2 (burst_count card_data irq_none 8 null 3 init_state _))).
    vm_compute. reflexivity.
    Unshelve. lia.
Defined.

(** X13 with a card that is never ready and one tick in every exchange. *)
Lemma mmc_select_outcome_witness :
  finishes (fun f => mmc_select card_busy irq_each f) init_state /\
  exists s',
    mmc_select card_busy irq_each 600 init_state = Done false s' /\
    cs_high s' = negb false /\ filler_only init_state s'.
Proof.
  destruct (mmc_select_outcome card_busy irq_each 600 init_state) as (F & P).
  split; [apply F, irq_each_live|].
  eexists. split; [vm_compute; reflexivity|].
  match goal with
  | |- cs_high ?s = _ /\ _ =>
      destruct (P false s) as (A & B & _); [vm_compute; reflexivity|]
  end.
  split; assumption.
Defined.

(** X14 with a card that never answers: ten exchanges. *)
Lemma response_poll_bounded_witness :
  exists r s', send_cmd_resp card_idle irq_none 10 10 init_state = Done r s'.
Proof.
  apply (proj1 (response_poll_bounded card_idle irq_none 10 init_state)). lia.
Defined.

(** X15 on the read command with the argument 0x12345678. *)
Lemma command_frame_encoding_witness :
  exists s' l0 l k b3 b2 b1 b0,
    send_cmd card_blocks irq_none 16 CMD17 0x12345678 ready_state
    = Done 0 s' /\
    log s' = log ready_state ++ l0 ++ l /\
    Forall (fun b => b = 0xFF) (sent l0) /\
    sent l = [0x40 + CMD17; b3; b2; b1; b0;
              if CMD17 =? CMD0 then 0x95
              else if CMD17 =? CMD8 then 0x87 else 0x01]
             ++ repeat 0xFF (S k) /\
    is_byte b3 /\ is_byte b2 /\ is_byte b1 /\ is_byte b0 /\
    b3 * 16777216 + b2 * 65536 + b1 * 256 + b0 = 0x12345678.
Proof.
  eexists.
  match goal with
  | |- exists l0 l k b3 b2 b1 b0, ?run = Done 0 ?s /\ _ =>
      assert (H : run = Done 0 s) by (vm_compute; reflexivity);
      destruct (command_frame_encoding card_blocks irq_none 16 CMD17
                  0x12345678 ready_state 0 s)
        as (l0 & l & k & b3 & b2 & b1 & b0 & P);
        [lia | vm_compute; split; [discriminate|reflexivity]
         | vm_compute; discriminate
         | vm_compute; split; [discriminate|reflexivity]
         | exact H | reflexivity |]
  end.
  exists l0, l, k, b3, b2, b1, b0. split; [exact H|exact P].
Defined.

(** X16 on a command to a card that is never ready. *)
Lemma command_not_sent_when_busy_witness :
  exists s',
    send_cmd card_busy irq_each 600 CMD17 0 init_state = Done 0xFF s' /\
    Timer2 s' = 0 /\ filler_only init_state s'.
Proof.
  eexists. split; [vm_compute; reflexivity|].
  match goal with
  | |- Timer2 ?s = 0 /\ _ =>
      destruct (command_not_sent_when_busy card_busy irq_each 600 CMD17 0
                  init_state 0xFF s) as (_ & A & B);
        [lia | reflexivity | vm_compute; discriminate
         | vm_compute; reflexivity | reflexivity |]
  end.
  split; assumption.
Defined.

(** X17 on the read of two blocks. *)
Lemma disk_read_result_witness :
  exists buff s' froms,
    disk_read card_blocks irq_none 600 0 0 2 ready_state
    = Done (RES_OK, buff) s' /\
    buff = blocks_received card_blocks froms /\
    Z.of_nat (length buff) = 512 * Z.of_nat (length froms).
Proof.
  do 2 eexists.
  match goal with
  | |- exists froms, ?run = Done (RES_OK, ?b) ?s /\ _ =>
      assert (H : run = Done (RES_OK, b) s) by (vm_compute; reflexivity);
      destruct (disk_read_result card_blocks irq_none 600 0 2 ready_state
                  RES_OK b s) as (froms & A & _ & _ & _ & B & _);
        [lia | reflexivity | exact H |]
  end.
  exists froms. split; [exact H|]. split; assumption.
Defined.

(** X18 on the read of two blocks. *)
Lemma disk_read_stop_command_witness :
  exists buff s' r18 s1,
    disk_read card_blocks irq_none 600 0 0 2 ready_state
    = Done (RES_OK, buff) s' /\
    send_cmd card_blocks irq_none 600 CMD18
             (block_address (CardType ready_state) 0) ready_state
    = Done r18 s1.
Proof.
  do 2 eexists.
  match goal with
  | |- exists r18 s1, ?run = Done (RES_OK, ?b) ?s /\ _ =>
      assert (H : run = Done (RES_OK, b) s) by (vm_compute; reflexivity);
      destruct (disk_read_stop_command card_blocks irq_none 600 0 2
                  ready_state RES_OK b s) as (r18 & s1 & A & _);
        [lia | lia | lia | reflexivity | exact H |]
  end.
  exists r18, s1. split; [exact H|exact A].
Defined.

(** X19 with a time base that fires in every exchange. *)
Lemma read_and_ioctl_end_witness :
  finishes (fun f => disk_read card_idle irq_each f 0 0 2) ready_state /\
  halts (fun f => disk_ioctl card_idle irq_each f 0 GET_SECTOR_COUNT)
        ready_state.
Proof.
  destruct (read_and_ioctl_end card_idle irq_each irq_each_live) as (A & B).
  split; [apply A; lia|apply B].
Defined.

(** X20 on the write of one block that the card accepts. *)
Lemma disk_write_single_witness :
  finishes (fun f => disk_write card_two_blocks irq_each f 0 null 0 1)
           ready_state /\
  exists s' r24 s1,
    disk_write card_two_blocks irq_each 600 0 null 0 1 ready_state
    = Done RES_OK s' /\
    send_cmd card_two_blocks irq_each 600 CMD24
             (block_address (CardType ready_state) 0) ready_state
    = Done r24 s1.
Proof.
  destruct (disk_write_single card_two_blocks irq_each 600 null 0 ready_state)
    as (F & P); [reflexivity | reflexivity |].
  split; [apply F, irq_each_live|].
  eexists.
  match goal with
  | |- exists r24 s1, ?run = Done RES_OK ?s /\ _ =>
      assert (H : run = Done RES_OK s) by (vm_compute; reflexivity);
      destruct (P RES_OK s H) as (r24 & s1 & A & _)
  end.
  exists r24, s1. split; [exact H|exact A].
Defined.

(** X21 on sector 1 of a byte-addressed card. *)
Lemma sector_address_wraps_witness :
  block_address CT_MMC (1 + 8388608) = block_address CT_MMC 1 /\
  block_address CT_MMC 1 = 1 * 512 mod 4294967296.
Proof.
  apply (proj1 (sector_address_wraps card_idle irq_none 8 CT_MMC 1)).
  reflexivity.
Defined.

(** X22 on an allocation unit field of 9: 8192 sectors. *)
Lemma block_size_decoding_witness :
  shl32 16 (Z.shiftr 0x90 4) = Some (16 * 2 ^ (0x90 / 16)) /\
  16 <= 16 * 2 ^ (0x90 / 16) <= 524288.
Proof.
  apply (proj1 (block_size_decoding card_idle irq_none 8) 0x90).
  unfold is_byte. lia.
Defined.

(** X23 on the read of the CSD. *)
Lemma ioctl_register_reads_witness :
  exists s' s1 from,
    disk_ioctl card_csd_full irq_none 32 0 MMC_GET_CSD ready_state
    = Done (RES_OK, OutBytes csd_full) s' /\
    send_cmd card_csd_full irq_none 32 CMD9 0 ready_state = Done 0 s1 /\
    (clk s1 < from)%nat /\ u8 (card_csd_full (from - 1)%nat) = 0xFE /\
    OutBytes csd_full = OutBytes (received card_csd_full from 16).
Proof.
  eexists.
  match goal with
  | |- exists s1 from, ?run = Done ?r ?s /\ _ =>
      assert (H : run = Done r s) by (vm_compute; reflexivity);
      destruct (proj1 (ioctl_register_reads card_csd_full irq_none 32
                         ready_state (OutBytes csd_full) s) H)
        as (s1 & from & P)
  end.
  exists s1, from. split; [exact H|exact P].
Defined.

(** X24 with a card that is ready at once. *)
Lemma ctrl_sync_outcome_witness :
  exists s',
    disk_ioctl card_idle irq_none 8 0 CTRL_SYNC ready_state
    = Done (RES_OK, OutNone) s' /\
    cs_high s' = true.
Proof.
  eexists. split; [vm_compute; reflexivity|].
  match goal with
  | |- cs_high ?s = true =>
      destruct (ctrl_sync_outcome card_idle irq_none 8 ready_state RES_OK
                  OutNone s) as (_ & C & _);
        [reflexivity | vm_compute; reflexivity | exact C]
  end.
Defined.
